(** * rdma-burst: transfer orchestrator, process supervisor, log monitor

    A shallow embedding of the Go packages [internal/wrapper]
    (process.go, rtranfile.go, monitor.go), [internal/models] and
    [internal/services/transfer], with the properties of the
    specification stated over it.

    Conventions.
    - Go [string] is [string] (a sequence of bytes); [int] and [int64]
      are [Z] with the 64-bit wrap-around written out where the code
      does arithmetic; [time.Time] is a [Z] count of nanoseconds.
    - A Go [error] is a value of the inductive type [error]; the
      constructors name the messages of the source.
    - Go maps are [gmap]s; slices are lists.
    - What the operating system decides (does a directory exist, does a
      signal get delivered, does a process exit in time) is an explicit
      argument of the function that asks.
    - Calls are taken one at a time, as under the service's mutex; the
      workers a call launches are separate transition functions.
    - The float64 fields of the progress record hold exact rationals;
      the rate and remaining-time arithmetic of [GetProgress] and the
      ticker of the monitor's tailing loop are outside the model. *)

From Stdlib Require Import ZArith List String Ascii Bool Lia QArith.
From stdpp Require Import base option gmap strings list pretty.

Open Scope string_scope.
Open Scope list_scope.
Open Scope Z_scope.

(** ** Machine integers *)

Module Int64.
Definition min_int : Z := - 2 ^ 63.
Definition max_int : Z := 2 ^ 63 - 1.

(** Two's-complement reduction of a mathematical integer to int64. *)
Definition wrap (z : Z) : Z := (z + 2 ^ 63) mod 2 ^ 64 - 2 ^ 63.

Definition add (a b : Z) : Z := wrap (a + b).
Definition sub (a b : Z) : Z := wrap (a - b).
Definition mul (a b : Z) : Z := wrap (a * b).

Definition in_range (z : Z) : Prop := min_int <= z <= max_int.
End Int64.

(** ** Errors *)

Inductive error : Type :=
  (* rtranfile.go, ValidateConfig *)
  | ErrDeviceEmpty
  | ErrDirectoryEmpty
  | ErrLogFileEmpty
  | ErrUnsupportedMode (mode : string)
  | ErrUnsupportedDirection (direction : string)
  | ErrServerAddressRequired
  | ErrFilenameRequired
  (* rtranfile.go, StartServer *)
  | ErrMkdirAll (dir : string) (cause : string)
  | ErrCreateWorkDir (e : error)
  | ErrCreateLogFile (cause : string)
  (* process.go *)
  | ErrAlreadyRunning
  | ErrStartProcess (cause : string)
  | ErrNotRunning
  | ErrForceKill (cause : string)
  | ErrStopTimeout (cause : string)
  (* monitor.go *)
  | ErrAlreadyMonitoring
  | ErrParseTransferred (digits : string)
  | ErrParseTotal (digits : string)
  | ErrParsePercent (text : string)
  (* transfer service *)
  | ErrMaxConcurrent (limit : Z)
  | ErrReconnectRequired
  | ErrConfigValidation (e : error)
  | ErrCreateTargetDir (e : error)
  | ErrStartMonitoring (e : error)
  | ErrClientTransferOnServer
  | ErrListenerModeUnsupported
  | ErrServerConfigValidation (e : error)
  | ErrStartListener (e : error)
  | ErrManageListener (e : error)
  | ErrListenerExitedEarly (pid : Z).

(** ** Byte strings *)

Module Bytes.
Definition bytes := list ascii.

Definition of_string : string -> bytes := list_ascii_of_string.
Definition to_string : bytes -> string := string_of_list_ascii.

Definition slash : ascii := "/"%char.

Definition eqb (a b : ascii) : bool := Ascii.eqb a b.

(** Index of the last byte equal to [c], scanning from the end as the
    source's loops do; [None] is the source's [-1]. *)
Fixpoint last_index (c : ascii) (s : bytes) : option nat :=
  match s with
  | [] => None
  | a :: s' =>
      match last_index c s' with
      | Some i => Some (S i)
      | None => if eqb a c then Some 0%nat else None
      end
  end.

(** Drop the bytes equal to [c] at the end of [s]. *)
Fixpoint strip_trailing (c : ascii) (s : bytes) : bytes :=
  match s with
  | [] => []
  | a :: s' =>
      match strip_trailing c s' with
      | [] => if eqb a c then [] else [a]
      | r => a :: r
      end
  end.
End Bytes.

(** ** rtranfile.go: configuration and command lines *)

Module Rtranfile.

(** [TransferMode] and [TransferDirection] are string types. *)
Definition ModeHugepages : string := "hugepages".
Definition ModeTmpfs : string := "tmpfs".
Definition ModeFilesystem : string := "filesystem".

Definition DirectionPut : string := "put".
Definition DirectionGet : string := "get".

Record TransferConfig : Type := mkTransferConfig {
  Device : string;
  Directory : string;
  Mode : string;
  Direction : string;
  Filename : string;
  ServerAddress : string;
  ChunkSize : Z;
  LogFile : string;
  NoHuge : bool;
  MMan : bool
}.

(** [ValidateConfig]: [None] is the source's [nil]. *)
Definition ValidateConfig (config : TransferConfig) : option error :=
  if String.eqb (Device config) "" then Some ErrDeviceEmpty
  else if String.eqb (Directory config) "" then Some ErrDirectoryEmpty
  else if String.eqb (LogFile config) "" then Some ErrLogFileEmpty
  else if negb (String.eqb (Mode config) ModeHugepages
                || String.eqb (Mode config) ModeTmpfs
                || String.eqb (Mode config) ModeFilesystem)
       then Some (ErrUnsupportedMode (Mode config))
  else if negb (String.eqb (Direction config) "") then
    if negb (String.eqb (Direction config) DirectionPut
             || String.eqb (Direction config) DirectionGet)
    then Some (ErrUnsupportedDirection (Direction config))
    else if String.eqb (Direction config) DirectionPut
            || String.eqb (Direction config) DirectionGet
    then
      if String.eqb (ServerAddress config) "" then Some ErrServerAddressRequired
      else if String.eqb (Filename config) "" then Some ErrFilenameRequired
      else None
    else None
  else None.

(** [addModeSpecificArgs]. *)
Definition addModeSpecificArgs (args : list string) (config : TransferConfig)
  : list string :=
  if String.eqb (Mode config) ModeHugepages then
    args ++ ["--nohuge"; "--mman"]
  else if String.eqb (Mode config) ModeTmpfs then
    args ++ ["--nohuge"; "--mman"]
  else if String.eqb (Mode config) ModeFilesystem then
    if String.eqb (Direction config) "" then
      args ++ ["--nohuge"]
    else
      let args := if NoHuge config then args ++ ["--nohuge"] else args in
      let args := if MMan config then args ++ ["--mman"] else args in
      args
  else args.

(** [buildServerArgs]. *)
Definition buildServerArgs (config : TransferConfig) : list string :=
  let args := ["-d"; Device config;
               "--dir"; Directory config;
               "-l"; "0";
               "--logfile"; LogFile config] in
  addModeSpecificArgs args config.

(** [filepath.Base] on a Unix path. *)
Definition filepath_Base (path : string) : string :=
  if String.eqb path "" then "."
  else
    let p := Bytes.strip_trailing Bytes.slash (Bytes.of_string path) in
    let p := match Bytes.last_index Bytes.slash p with
             | Some i => drop (S i) p
             | None => p
             end in
    match p with
    | [] => "/"
    | _ => Bytes.to_string p
    end.

(** [buildClientArgs]. *)
Definition buildClientArgs (config : TransferConfig) : list string :=
  let args := ["-d"; Device config;
               "-c"; ServerAddress config;
               "--dir"; Directory config;
               "--logfile"; LogFile config;
               "-m"; "4096"] in
  let args := addModeSpecificArgs args config in
  let filename := filepath_Base (Filename config) in
  if String.eqb (Direction config) DirectionPut
  then args ++ ["--put"; filename]
  else args ++ ["--get"; filename].

(** [GetDefaultConfig]: the fields the source does not set are the zero
    values. *)
Definition GetDefaultConfig (mode : string) : TransferConfig :=
  if String.eqb mode ModeHugepages then
    mkTransferConfig "mlx5_0" "/dev/hugepages/dir" ModeHugepages "" "" "" 4096 ""
                     true true
  else if String.eqb mode ModeTmpfs then
    mkTransferConfig "mlx5_0" "/dev/shm/dir" ModeTmpfs "" "" "" 4096 "" true true
  else if String.eqb mode ModeFilesystem then
    mkTransferConfig "mlx5_0" "/var/lib/rtrans/files" ModeFilesystem "" "" "" 4096 ""
                     false false
  else
    mkTransferConfig "mlx5_0" "" "" "" "" "" 4096 "" true true.

End Rtranfile.

(** ** process.go: the process supervisor *)

Module Process.

Inductive ProcessState : Type :=
  | StateStarting
  | StateRunning
  | StateStopping
  | StateStopped
  | StateError.

Definition ProcessState_eqb (a b : ProcessState) : bool :=
  match a, b with
  | StateStarting, StateStarting
  | StateRunning, StateRunning
  | StateStopping, StateStopping
  | StateStopped, StateStopped
  | StateError, StateError => true
  | _, _ => false
  end.

Record ProcessInfo : Type := mkProcessInfo {
  PID : Z;
  State : ProcessState;
  StartTime : Z;
  ExitTime : option Z;
  ExitCode : option Z;
  Error : string;
  CommandLine : string
}.

(** [exec.Cmd]: the program and its argument vector. *)
Record Cmd : Type := mkCmd {
  Path : string;
  Args : list string
}.

(** A started command: [cmd.Process] holds the operating-system pid. *)
Record Started : Type := mkStarted {
  cmd : Cmd;
  pid : Z
}.

(** [ProcessManager]; [process = None] is the source's nil pointer. *)
Record ProcessManager : Type := mkProcessManager {
  process : option Started;
  info : ProcessInfo
}.

Definition set_State (s : ProcessState) (i : ProcessInfo) : ProcessInfo :=
  mkProcessInfo (PID i) s (StartTime i) (ExitTime i) (ExitCode i) (Error i)
                (CommandLine i).
Definition set_Error (e : string) (i : ProcessInfo) : ProcessInfo :=
  mkProcessInfo (PID i) (State i) (StartTime i) (ExitTime i) (ExitCode i) e
                (CommandLine i).
Definition set_ExitTime (t : Z) (i : ProcessInfo) : ProcessInfo :=
  mkProcessInfo (PID i) (State i) (StartTime i) (Some t) (ExitCode i) (Error i)
                (CommandLine i).
Definition set_ExitCode (c : Z) (i : ProcessInfo) : ProcessInfo :=
  mkProcessInfo (PID i) (State i) (StartTime i) (ExitTime i) (Some c) (Error i)
                (CommandLine i).
Definition set_PID (p : Z) (i : ProcessInfo) : ProcessInfo :=
  mkProcessInfo p (State i) (StartTime i) (ExitTime i) (ExitCode i) (Error i)
                (CommandLine i).

(** [NewProcessManager]. *)
Definition NewProcessManager : ProcessManager :=
  mkProcessManager None (mkProcessInfo 0 StateStopped 0 None None "" "").

(** [isServerProcess]: an argument equal to "-l". *)
Definition isServerProcess (c : Cmd) : bool :=
  existsb (fun arg => String.eqb arg "-l") (Args c).

(** [fmt.Sprintf("%s %v", cmd.Path, cmd.Args)]. *)
Definition commandLine (c : Cmd) : string :=
  Path c +:+ " [" +:+ String.concat " " (Args c) +:+ "]".

(** [Start].  [spawn] is the answer of [cmd.Start()]: the new pid or the
    text of the error.  The third component tells whether the exit-wait
    worker ([go pm.monitorProcess()]) was launched. *)
Definition Start (pm : ProcessManager) (c : Cmd) (spawn : string + Z) (now : Z)
  : option error * ProcessManager * bool :=
  if match process pm with Some _ => true | None => false end
     && ProcessState_eqb (State (info pm)) StateRunning
  then (Some ErrAlreadyRunning, pm, false)
  else
    let i := mkProcessInfo 0 StateStarting now None None "" (commandLine c) in
    match spawn with
    | inl cause =>
        (Some (ErrStartProcess cause),
         mkProcessManager (process pm) (set_Error cause (set_State StateError i)),
         false)
    | inr p =>
        (None,
         mkProcessManager (Some (mkStarted c p))
                          (set_State StateRunning (set_PID p i)),
         negb (isServerProcess c))
    end.

(** What [process.Wait()] returns. *)
Inductive WaitResult : Type :=
  | WaitClean
  | WaitExitError (code : Z) (text : string)
  | WaitOtherError (text : string).

(** The operating system's answers to the calls [Stop] makes, in the
    order it makes them. *)
Record StopAnswers : Type := mkStopAnswers {
  interrupt_err : option string;    (* Signal(os.Interrupt) *)
  kill_err : option string;         (* Kill() after a failed signal *)
  waited : option WaitResult;       (* Wait() within 10 s; None: timer fired *)
  timeout_kill_err : option string  (* Kill() after the timer fired *)
}.

(** The bookkeeping shared by [Stop] and [monitorProcess] once [Wait]
    has returned. *)
Definition recordExit (r : WaitResult) (now : Z) (i : ProcessInfo) : ProcessInfo :=
  let i := set_ExitTime now i in
  match r with
  | WaitClean => set_State StateStopped i
  | WaitExitError code text =>
      set_Error text (set_State StateError (set_ExitCode code i))
  | WaitOtherError text => set_Error text (set_State StateError i)
  end.

(** [Stop]. *)
Definition Stop (pm : ProcessManager) (os : StopAnswers) (now : Z)
  : option error * ProcessManager :=
  match process pm with
  | None => (Some ErrNotRunning, pm)
  | Some p =>
      if negb (ProcessState_eqb (State (info pm)) StateRunning)
      then (Some ErrNotRunning, pm)
      else
        let i := set_State StateStopping (info pm) in
        match interrupt_err os, kill_err os with
        | Some _, Some cause =>
            (Some (ErrForceKill cause),
             mkProcessManager (Some p) (set_Error cause (set_State StateError i)))
        | _, _ =>
            match waited os with
            | Some r =>
                (None, mkProcessManager None (recordExit r now i))
            | None =>
                match timeout_kill_err os with
                | Some cause =>
                    (Some (ErrStopTimeout cause),
                     mkProcessManager (Some p)
                                      (set_Error cause (set_State StateError i)))
                | None =>
                    (None,
                     mkProcessManager None
                                      (set_State StateStopped (set_ExitTime now i)))
                end
            end
        end
  end.

(** [GetInfo] and [GetPID]. *)
Definition GetInfo (pm : ProcessManager) : ProcessInfo := info pm.
Definition GetPID (pm : ProcessManager) : Z := PID (info pm).

(** [IsRunning].  [probe] is the answer to [process.Signal(0)]: [true]
    when the signal call returns no error. *)
Definition IsRunning (pm : ProcessManager) (probe : bool) : bool :=
  if negb (ProcessState_eqb (State (info pm)) StateRunning) then false
  else match process pm with
       | None => false
       | Some _ =>
           match ExitTime (info pm) with
           | Some _ => false
           | None => probe
           end
       end.

(** [monitorProcess], the exit-wait worker.  [Start] launches it with
    the process set, so its first test ([pm.process == nil]) passes and
    it blocks in [Wait]; the function is what it does, under the lock,
    once [Wait] has returned [r]. *)
Definition monitorProcess (pm : ProcessManager) (r : WaitResult) (now : Z)
  : ProcessManager :=
  if ProcessState_eqb (State (info pm)) StateStopping then pm
  else mkProcessManager None (recordExit r now (info pm)).

(** [Cleanup].  The manager's context is cancelled first, so the
    [select] that follows the interrupt takes the [ctx.Done()] branch
    and no kill is sent.  The boolean tells whether the interrupt was
    sent. *)
Definition Cleanup (pm : ProcessManager) : ProcessManager * bool :=
  let interrupted :=
    match process pm with Some _ => true | None => false end
    && ProcessState_eqb (State (info pm)) StateRunning in
  (mkProcessManager None (set_State StateStopped (info pm)), interrupted).

End Process.

(** ** Regular expressions of monitor.go

    The three patterns of [NewLogParser] as syntax trees, and a
    backtracking matcher with Go's leftmost-first semantics: earlier
    alternatives are preferred and repetitions are greedy.  The input is
    the line as UTF-8 bytes.  Under [(?i)] a literal letter matches every
    rune of its simple case-folding orbit: besides the two ASCII cases
    this is U+017F for [s] and U+212A for [k]; both are matched through
    their UTF-8 encodings.  [\s] and [\d] are the ASCII classes of the Go
    syntax. *)

Module Regex.
Import Bytes.

Definition byte (n : nat) : ascii := ascii_of_nat n.
Definition code (c : ascii) : nat := nat_of_ascii c.

Definition is_digit (c : ascii) : bool :=
  (48 <=? code c)%nat && (code c <=? 57)%nat.

(** [\s] is [\t\n\f\r ]. *)
Definition is_space (c : ascii) : bool :=
  let n := code c in
  (n =? 9)%nat || (n =? 10)%nat || (n =? 12)%nat || (n =? 13)%nat || (n =? 32)%nat.

Definition is_dot (c : ascii) : bool := (code c =? 46)%nat.

Definition is_lower (c : ascii) : bool := (97 <=? code c)%nat && (code c <=? 122)%nat.
Definition is_upper (c : ascii) : bool := (65 <=? code c)%nat && (code c <=? 90)%nat.

Definition to_lower (c : ascii) : ascii :=
  if is_upper c then byte (code c + 32) else c.
Definition to_upper (c : ascii) : ascii :=
  if is_lower c then byte (code c - 32) else c.

(** The non-ASCII members of the folding orbit of a lower-case letter. *)
Definition fold_extra (c : ascii) : list bytes :=
  if eqb c "s"%char then [[byte 197; byte 191]]            (* U+017F *)
  else if eqb c "k"%char then [[byte 226; byte 132; byte 170]]  (* U+212A *)
  else [].

(** The encodings a literal rune matches under [(?i)]. *)
Definition fold_alts (c : ascii) : list bytes :=
  if is_lower c || is_upper c
  then [to_lower c] :: [to_upper c] :: fold_extra (to_lower c)
  else [[c]].

Fixpoint strip_prefix (p s : bytes) : option bytes :=
  match p, s with
  | [], _ => Some s
  | a :: p', b :: s' => if eqb a b then strip_prefix p' s' else None
  | _ :: _, [] => None
  end.

Fixpoint strip_first (alts : list bytes) (s : bytes) : option bytes :=
  match alts with
  | [] => None
  | p :: alts' =>
      match strip_prefix p s with
      | Some r => Some r
      | None => strip_first alts' s
      end
  end.

(** A literal string under [(?i)]. *)
Fixpoint strip_fold (lit s : bytes) : option bytes :=
  match lit with
  | [] => Some s
  | c :: lit' =>
      match strip_first (fold_alts c) s with
      | Some r => strip_fold lit' r
      | None => None
      end
  end.

Inductive regex : Type :=
  | Lit (s : string)                 (* literal, case-folded *)
  | Star (cls : ascii -> bool)       (* [c*] for a byte class *)
  | Plus (cls : ascii -> bool)       (* [c+] for a byte class *)
  | Cat (r1 r2 : regex)
  | Alt (r1 r2 : regex)
  | Cap (n : nat) (r : regex).       (* capturing group number n *)

(** Capture groups, most recent binding first. *)
Definition captures := list (nat * bytes).

Fixpoint group (n : nat) (cs : captures) : bytes :=
  match cs with
  | [] => []
  | (m, s) :: cs' => if (m =? n)%nat then s else group n cs'
  end.

Section Matcher.
Context {R : Type}.

(** Greedy repetition: the longest run first, then shorter ones. *)
Fixpoint star (cls : ascii -> bool) (s : bytes) (k : bytes -> option R)
  : option R :=
  match s with
  | c :: s' =>
      if cls c then
        match star cls s' k with
        | Some r => Some r
        | None => k s
        end
      else k s
  | [] => k []
  end.

Fixpoint run (r : regex) (s : bytes) (cs : captures)
         (k : bytes -> captures -> option R) : option R :=
  match r with
  | Lit l =>
      match strip_fold (of_string l) s with
      | Some s' => k s' cs
      | None => None
      end
  | Star cls => star cls s (fun s' => k s' cs)
  | Plus cls =>
      match s with
      | c :: s' => if cls c then star cls s' (fun s'' => k s'' cs) else None
      | [] => None
      end
  | Cat r1 r2 => run r1 s cs (fun s' cs' => run r2 s' cs' k)
  | Alt r1 r2 =>
      match run r1 s cs k with
      | Some x => Some x
      | None => run r2 s cs k
      end
  | Cap n r1 =>
      run r1 s cs
          (fun s' cs' => k s' ((n, take (length s - length s') s) :: cs'))
  end.
End Matcher.

(** Leftmost match: the first start position at which [r] matches. *)
Fixpoint find (r : regex) (s : bytes) : option captures :=
  match run r s [] (fun _ cs => Some cs) with
  | Some cs => Some cs
  | None =>
      match s with
      | [] => None
      | _ :: s' => find r s'
      end
  end.

(** [MatchString]. *)
Definition MatchString (r : regex) (line : string) : bool :=
  match find r (of_string line) with Some _ => true | None => false end.

(** [FindStringSubmatch]: the capture groups of the leftmost match. *)
Definition FindStringSubmatch (r : regex) (line : string) : option captures :=
  find r (of_string line).

Fixpoint cat (rs : list regex) : regex :=
  match rs with
  | [] => Lit ""
  | [r] => r
  | r :: rs' => Cat r (cat rs')
  end.

Definition unit_alt : regex :=
  Alt (Lit "MB") (Alt (Lit "GB") (Alt (Lit "KB") (Lit "B"))).

(** [(?i)transferred\s+(\d+)\s*(MB|GB|KB|B)\s+of\s+(\d+)\s*(MB|GB|KB|B)\s*\(([\d.]+)%\)] *)
Definition progressRegex : regex :=
  cat [ Lit "transferred"; Plus is_space;
        Cap 1 (Plus is_digit); Star is_space;
        Cap 2 unit_alt; Plus is_space;
        Lit "of"; Plus is_space;
        Cap 3 (Plus is_digit); Star is_space;
        Cap 4 unit_alt; Star is_space;
        Lit "(";
        Cap 5 (Plus (fun c => is_digit c || is_dot c));
        Lit "%)" ].

(** [(?i)(error|failed|failure|exception)] *)
Definition errorRegex : regex :=
  Cap 1 (Alt (Lit "error") (Alt (Lit "failed") (Alt (Lit "failure") (Lit "exception")))).

(** [(?i)(completed|finished|success)] *)
Definition completeRegex : regex :=
  Cap 1 (Alt (Lit "completed") (Alt (Lit "finished") (Lit "success"))).

End Regex.

(** ** Library functions used by the log parser *)

Module GoLib.
Import Bytes.

(** Value of a run of decimal digits; [None] on any other byte. *)
Fixpoint digits_value (acc : Z) (s : bytes) : option Z :=
  match s with
  | [] => Some acc
  | c :: s' =>
      if Regex.is_digit c
      then digits_value (10 * acc + (Z.of_nat (Regex.code c) - 48)) s'
      else None
  end.

(** [strconv.ParseInt(s, 10, 64)] on an unsigned digit string, which is
    all the capture groups [(\d+)] can hold: a syntax error on an empty
    or non-digit string, a range error above [2^63 - 1]. *)
Definition ParseInt (s : bytes) : option Z :=
  match s with
  | [] => None
  | _ =>
      match digits_value 0 s with
      | Some v => if v <=? Int64.max_int then Some v else None
      | None => None
      end
  end.

(** Split at the first dot. *)
Fixpoint split_dot (s : bytes) : bytes * option bytes :=
  match s with
  | [] => ([], None)
  | c :: s' =>
      if Regex.is_dot c then ([], Some s')
      else let '(a, b) := split_dot s' in (c :: a, b)
  end.

(** Values at or above this bound round to infinity in binary64. *)
Definition float64_overflow : Z := 2 ^ 1024 - 2 ^ 970.

(** [strconv.ParseFloat(s, 64)] on a string of digits and dots, which is
    all the capture group [([\d.]+)] can hold.  The literal is
    well-formed when it has at most one dot and at least one digit.  The
    result is kept as the exact decimal value (in lowest terms); the
    rounding to binary64 is not modelled, the range error is. *)
Definition ParseFloat (s : bytes) : option Q :=
  let '(ip, rest) := split_dot s in
  let fp := match rest with Some f => f | None => [] end in
  match ip ++ fp with
  | [] => None
  | ds =>
      match digits_value 0 ds with
      | None => None
      | Some m =>
          let den := 10 ^ Z.of_nat (length fp) in
          if float64_overflow * den <=? m then None
          else Some (Qred (Qmake m (Z.to_pos den)))
      end
  end.

(** [strings.ToUpper] as far as [convertToBytes] can tell: ASCII letters
    are raised and every other byte is kept.  No non-ASCII rune has an
    upper case among G, M, K, B, so the comparison with the four unit
    names has the same outcome as in Go. *)
Definition ToUpper (s : string) : string :=
  to_string (map Regex.to_upper (of_string s)).

(** The UTF-8 encodings of the runes for which [unicode.IsSpace] holds. *)
Definition space_encodings : list bytes :=
  [ [Regex.byte 9]; [Regex.byte 10]; [Regex.byte 11]; [Regex.byte 12]; [Regex.byte 13]; [Regex.byte 32];
    [Regex.byte 194; Regex.byte 133]; [Regex.byte 194; Regex.byte 160];                 (* U+0085, U+00A0 *)
    [Regex.byte 225; Regex.byte 154; Regex.byte 128];                          (* U+1680 *)
    [Regex.byte 226; Regex.byte 128; Regex.byte 128]; [Regex.byte 226; Regex.byte 128; Regex.byte 129]; [Regex.byte 226; Regex.byte 128; Regex.byte 130];
    [Regex.byte 226; Regex.byte 128; Regex.byte 131]; [Regex.byte 226; Regex.byte 128; Regex.byte 132]; [Regex.byte 226; Regex.byte 128; Regex.byte 133];
    [Regex.byte 226; Regex.byte 128; Regex.byte 134]; [Regex.byte 226; Regex.byte 128; Regex.byte 135]; [Regex.byte 226; Regex.byte 128; Regex.byte 136];
    [Regex.byte 226; Regex.byte 128; Regex.byte 137]; [Regex.byte 226; Regex.byte 128; Regex.byte 138];   (* U+2000 .. U+200A *)
    [Regex.byte 226; Regex.byte 128; Regex.byte 168]; [Regex.byte 226; Regex.byte 128; Regex.byte 169];   (* U+2028, U+2029 *)
    [Regex.byte 226; Regex.byte 128; Regex.byte 175];                          (* U+202F *)
    [Regex.byte 226; Regex.byte 129; Regex.byte 159];                          (* U+205F *)
    [Regex.byte 227; Regex.byte 128; Regex.byte 128] ].                        (* U+3000 *)

(** Strip from the front of [s] every leading occurrence of one of the
    byte sequences [encs]; [fuel] bounds the number of runes. *)
Fixpoint strip_leading (encs : list bytes) (fuel : nat) (s : bytes) : bytes :=
  match fuel with
  | O => s
  | S fuel' =>
      match Regex.strip_first encs s with
      | Some r => strip_leading encs fuel' r
      | None => s
      end
  end.

(** White space at the front is dropped rune by rune. *)
Definition trim_left (s : bytes) : bytes :=
  strip_leading space_encodings (length s) s.

(** White space at the end likewise: a rune is decoded backwards from
    the last byte, which amounts to matching the reversed encodings
    against the reversed string. *)
Definition trim_right (s : bytes) : bytes :=
  rev (strip_leading (map (@rev ascii) space_encodings) (length s) (rev s)).

(** [strings.TrimSpace]. *)
Definition TrimSpace (s : string) : string :=
  to_string (trim_right (trim_left (of_string s))).

End GoLib.

(** ** monitor.go: the log parser *)

Module Monitor.

(** [TransferStatus] is a string type; its zero value is the empty string. *)
Definition StatusPending : string := "pending".
Definition StatusStarting : string := "starting".
Definition StatusInProgress : string := "in_progress".
Definition StatusCompleted : string := "completed".
Definition StatusFailed : string := "failed".
Definition StatusCancelled : string := "cancelled".

(** [ProgressInfo].  The float64 fields hold exact rationals; durations
    and times are nanoseconds. *)
Record ProgressInfo : Type := mkProgressInfo {
  Status : string;
  BytesTransferred : Z;
  TotalBytes : Z;
  ProgressPercent : Q;
  TransferRate : Q;
  ElapsedTime : Z;
  EstimatedTime : Z;
  StartTime : Z;
  LastUpdateTime : Z;
  Error : string
}.

(** The value [&ProgressInfo{LastUpdateTime: time.Now()}]. *)
Definition blank (now : Z) : ProgressInfo :=
  mkProgressInfo "" 0 0 0 0 0 0 0 now "".

Definition set_Status (st : string) (p : ProgressInfo) : ProgressInfo :=
  mkProgressInfo st (BytesTransferred p) (TotalBytes p) (ProgressPercent p)
                 (TransferRate p) (ElapsedTime p) (EstimatedTime p) (StartTime p)
                 (LastUpdateTime p) (Error p).
Definition set_BytesTransferred (n : Z) (p : ProgressInfo) : ProgressInfo :=
  mkProgressInfo (Status p) n (TotalBytes p) (ProgressPercent p)
                 (TransferRate p) (ElapsedTime p) (EstimatedTime p) (StartTime p)
                 (LastUpdateTime p) (Error p).
Definition set_TotalBytes (n : Z) (p : ProgressInfo) : ProgressInfo :=
  mkProgressInfo (Status p) (BytesTransferred p) n (ProgressPercent p)
                 (TransferRate p) (ElapsedTime p) (EstimatedTime p) (StartTime p)
                 (LastUpdateTime p) (Error p).
Definition set_ProgressPercent (q : Q) (p : ProgressInfo) : ProgressInfo :=
  mkProgressInfo (Status p) (BytesTransferred p) (TotalBytes p) q
                 (TransferRate p) (ElapsedTime p) (EstimatedTime p) (StartTime p)
                 (LastUpdateTime p) (Error p).
Definition set_StartTime (t : Z) (p : ProgressInfo) : ProgressInfo :=
  mkProgressInfo (Status p) (BytesTransferred p) (TotalBytes p) (ProgressPercent p)
                 (TransferRate p) (ElapsedTime p) (EstimatedTime p) t
                 (LastUpdateTime p) (Error p).
Definition set_Error (text : string) (p : ProgressInfo) : ProgressInfo :=
  mkProgressInfo (Status p) (BytesTransferred p) (TotalBytes p) (ProgressPercent p)
                 (TransferRate p) (ElapsedTime p) (EstimatedTime p) (StartTime p)
                 (LastUpdateTime p) text.

(** [convertToBytes]: the products are int64 products. *)
Definition convertToBytes (value : Z) (unit : string) : Z :=
  let u := GoLib.ToUpper unit in
  if String.eqb u "GB" then Int64.mul (Int64.mul (Int64.mul value 1024) 1024) 1024
  else if String.eqb u "MB" then Int64.mul (Int64.mul value 1024) 1024
  else if String.eqb u "KB" then Int64.mul value 1024
  else if String.eqb u "B" then value
  else value.

(** [ParseLine]: [inr None] is the source's [(nil, nil)]. *)
Definition ParseLine (line : string) (now : Z) : error + option ProgressInfo :=
  let info := blank now in
  if Regex.MatchString Regex.errorRegex line then
    inr (Some (set_Error (GoLib.TrimSpace line) (set_Status StatusFailed info)))
  else if Regex.MatchString Regex.completeRegex line then
    inr (Some (set_ProgressPercent 100 (set_Status StatusCompleted info)))
  else
    match Regex.FindStringSubmatch Regex.progressRegex line with
    | Some matches =>
        let info := set_Status StatusInProgress info in
        match GoLib.ParseInt (Regex.group 1 matches) with
        | None => inl (ErrParseTransferred (Bytes.to_string (Regex.group 1 matches)))
        | Some transferred =>
            match GoLib.ParseInt (Regex.group 3 matches) with
            | None => inl (ErrParseTotal (Bytes.to_string (Regex.group 3 matches)))
            | Some total =>
                let transferredBytes :=
                  convertToBytes transferred (Bytes.to_string (Regex.group 2 matches)) in
                let totalBytes :=
                  convertToBytes total (Bytes.to_string (Regex.group 4 matches)) in
                let info := set_BytesTransferred transferredBytes info in
                let info := set_TotalBytes totalBytes info in
                match GoLib.ParseFloat (Regex.group 5 matches) with
                | None => inl (ErrParsePercent (Bytes.to_string (Regex.group 5 matches)))
                | Some percent => inr (Some (set_ProgressPercent percent info))
                end
            end
        end
    | None => inr None
    end.

(** [TransferMonitor].  [stopClosed] tells whether [stopChan] has been
    closed. *)
Record TransferMonitor : Type := mkTransferMonitor {
  progress : ProgressInfo;
  logFile : string;
  isMonitoring : bool;
  stopClosed : bool
}.

(** The worker's failure reports, [tm.progress.Error = fmt.Sprintf(...)]. *)
Definition open_failed (cause : string) : string := "open log file: " +:+ cause.
Definition seek_failed (cause : string) : string := "seek log file: " +:+ cause.

Definition fail (text : string) (tm : TransferMonitor) : TransferMonitor :=
  mkTransferMonitor (set_Error text (set_Status StatusFailed (progress tm)))
                    (logFile tm) (isMonitoring tm) (stopClosed tm).

(** [NewTransferMonitor]. *)
Definition NewTransferMonitor (file : string) (now : Z) : TransferMonitor :=
  mkTransferMonitor (mkProgressInfo StatusPending 0 0 0 0 0 0 now now "")
                    file false false.

(** [StartMonitoring]; the boolean tells whether the polling worker
    ([go tm.monitorLogFile()]) was launched. *)
Definition StartMonitoring (tm : TransferMonitor) (now : Z)
  : option error * TransferMonitor * bool :=
  if isMonitoring tm then (Some ErrAlreadyMonitoring, tm, false)
  else
    (None,
     mkTransferMonitor (set_StartTime now (set_Status StatusStarting (progress tm)))
                       (logFile tm) true (stopClosed tm),
     true).

(** A run-time panic of the monitor. *)
Inductive panic : Type :=
  | CloseOfClosedChannel.   (* close of closed channel *)

(** [StopMonitoring]: [stopChan] is made once, by [NewTransferMonitor],
    and closing it a second time panics. *)
Definition StopMonitoring (tm : TransferMonitor) : panic + TransferMonitor :=
  if isMonitoring tm then
    if stopClosed tm then inl CloseOfClosedChannel
    else
      inr (mkTransferMonitor
             (if String.eqb (Status (progress tm)) StatusInProgress
              then set_Status StatusCancelled (progress tm) else progress tm)
             (logFile tm) false true)
  else inr tm.

(** *** The polling worker

    Time is counted in polling ticks of 100 ms from the launch of the
    worker.  The record says what the worker can observe of the outside
    at each tick. *)
Record LogWorld : Type := mkLogWorld {
  exists_at : nat -> bool;      (* the log file exists at this tick *)
  readable : bool;              (* an existing log file can be opened *)
  seek_err : option string;     (* result of file.Seek(0, 2) *)
  stop_at : nat -> bool         (* stopChan is closed at this tick *)
}.

(** [os.Stat(tm.logFile)] returns no error. *)
Definition stat_ok (w : LogWorld) (t : nat) : bool := exists_at w t.

(** [os.Open(tm.logFile)]: [None] when the file was opened. *)
Definition open_err (w : LogWorld) (t : nat) : option string :=
  if exists_at w t then
    if readable w then None else Some "permission denied"
  else Some "no such file or directory".

(** How one pass through a loop body ends. *)
Inductive control : Type :=
  | Return                (* the function returns *)
  | Break (t : nat)       (* the loop is left at tick t *)
  | Continue (t : nat).   (* the next iteration starts at tick t *)

(** The body of the first [for] of [monitorLogFile], entered at tick
    [t].  In the [default] case the [break] after a successful [os.Stat]
    leaves the [select] only; otherwise the worker sleeps one tick.  In
    both cases control then reaches the [break] that follows the
    [select], which leaves the [for]. *)
Definition waitBody (w : LogWorld) (t : nat) : control :=
  if stop_at w t then Return
  else
    let t' := if stat_ok w t then t else S t in
    Break t'.

(** The first [for] loop.  [None]: the fuel ran out; [Some None]: the
    worker returned; [Some (Some t)]: the loop was left at tick [t]. *)
Fixpoint waitLoop (fuel : nat) (w : LogWorld) (t : nat) : option (option nat) :=
  match fuel with
  | O => None
  | S fuel' =>
      match waitBody w t with
      | Return => Some None
      | Break t' => Some (Some t')
      | Continue t' => waitLoop fuel' w t'
      end
  end.

(** What the worker has done when it reaches its second loop. *)
Inductive startup : Type :=
  | OutOfFuel
  | Stopped (tm : TransferMonitor)            (* returned on stopChan *)
  | Failed (tm : TransferMonitor)             (* returned after a failure *)
  | Tailing (t : nat) (tm : TransferMonitor). (* file open at end-of-file *)

(** [monitorLogFile] up to the second [for]: wait, open, seek to the
    end, set the status to in_progress. *)
Definition monitorLogFile (fuel : nat) (w : LogWorld) (tm : TransferMonitor)
  : startup :=
  match waitLoop fuel w 0 with
  | None => OutOfFuel
  | Some None => Stopped tm
  | Some (Some t) =>
      match open_err w t with
      | Some cause => Failed (fail (open_failed cause) tm)
      | None =>
          match seek_err w with
          | Some cause => Failed (fail (seek_failed cause) tm)
          | None =>
              Tailing t (mkTransferMonitor
                           (set_Status StatusInProgress (progress tm))
                           (logFile tm) (isMonitoring tm) (stopClosed tm))
          end
      end
  end.

(** [IsMonitoring]. *)
Definition IsMonitoring (tm : TransferMonitor) : bool := isMonitoring tm.

Definition set_LastUpdateTime (t : Z) (p : ProgressInfo) : ProgressInfo :=
  mkProgressInfo (Status p) (BytesTransferred p) (TotalBytes p) (ProgressPercent p)
                 (TransferRate p) (ElapsedTime p) (EstimatedTime p) (StartTime p)
                 t (Error p).

(** [SetStatus]. *)
Definition SetStatus (tm : TransferMonitor) (status errorMsg : string) (now : Z)
  : TransferMonitor :=
  let p := set_Status status (progress tm) in
  let p := if negb (String.eqb errorMsg "") then set_Error errorMsg p else p in
  mkTransferMonitor (set_LastUpdateTime now p)
                    (logFile tm) (isMonitoring tm) (stopClosed tm).

(** *** The tailing loop: what one scanned line does

    The test [x > 0] on a float64 field.  The field holds the binary64
    nearest to the decimal value [q]; that number is positive exactly
    when [q] lies above half of the least positive binary64, 2^-1075 (a
    tie rounds to the even neighbour, zero). *)
Definition rounds_positive (q : Q) : bool :=
  negb (Qle_bool q (Qmake 1 (2 ^ 1075)%positive)).

(** The assignments made under the lock for a parsed line: a field of
    the update is taken over when it is not the zero value. *)
Definition update (p progressInfo : ProgressInfo) (now : Z) : ProgressInfo :=
  let p := if negb (String.eqb (Status progressInfo) "")
           then set_Status (Status progressInfo) p else p in
  let p := if 0 <? BytesTransferred progressInfo
           then set_BytesTransferred (BytesTransferred progressInfo) p else p in
  let p := if 0 <? TotalBytes progressInfo
           then set_TotalBytes (TotalBytes progressInfo) p else p in
  let p := if rounds_positive (ProgressPercent progressInfo)
           then set_ProgressPercent (ProgressPercent progressInfo) p else p in
  let p := if negb (String.eqb (Error progressInfo) "")
           then set_Error (Error progressInfo) p else p in
  set_LastUpdateTime now p.

(** A line handed out by [scanner.Text()], with the two clock readings
    taken for it: by [ParseLine] and by the assignment of
    [LastUpdateTime]. *)
Record LogLine : Type := mkLogLine {
  text : string;
  parsed_at : Z;
  stored_at : Z
}.

(** The body of [for scanner.Scan()]: a line that fails to parse, or
    that matches no pattern, is skipped. *)
Definition scanLine (tm : TransferMonitor) (l : LogLine) : TransferMonitor :=
  match ParseLine (text l) (parsed_at l) with
  | inl _ => tm
  | inr None => tm
  | inr (Some progressInfo) =>
      mkTransferMonitor (update (progress tm) progressInfo (stored_at l))
                        (logFile tm) (isMonitoring tm) (stopClosed tm)
  end.

(** The loop [for scanner.Scan()] over the lines the scanner hands out
    at one tick. *)
Definition scanLines (tm : TransferMonitor) (lines : list LogLine)
  : TransferMonitor :=
  fold_left scanLine lines tm.

End Monitor.

(** ** internal/models *)

Module Models.

Definition StatusPending : string := "pending".
Definition StatusPrepared : string := "prepared".
Definition StatusStarting : string := "starting".
Definition StatusInProgress : string := "in_progress".
Definition StatusCompleted : string := "completed".
Definition StatusFailed : string := "failed".
Definition StatusCancelled : string := "cancelled".

Definition ModeHugepages : string := "hugepages".
Definition ModeTmpfs : string := "tmpfs".
Definition ModeFilesystem : string := "filesystem".

Definition DirectionPut : string := "put".
Definition DirectionGet : string := "get".

(** [TransferTask].  [Error] holds the reason given to [MarkFailed];
    [None] is the empty string of the source. *)
Record TransferTask : Type := mkTransferTask {
  ID : string;
  Filename : string;
  SourcePath : string;
  TargetPath : string;
  Mode : string;
  Direction : string;
  ServerIP : string;
  Status : string;
  Progress : Q;
  BytesTransferred : Z;
  TotalBytes : Z;
  StartTime : Z;
  EndTime : option Z;
  Error : option error;
  Message : string;
  CreatedAt : Z;
  UpdatedAt : Z
}.

Record TransferRequest : Type := mkTransferRequest {
  req_Filename : string;
  req_Mode : string;
  req_Direction : string;
  req_ServerIP : string
}.

Record TransferResponse : Type := mkTransferResponse {
  resp_ID : string;
  resp_Status : string;
  resp_Message : string;
  resp_ClientCommand : string;
  resp_CreatedAt : Z
}.

Record ModeConfig : Type := mkModeConfig {
  Enabled : bool;
  BaseDir : string
}.

Record TransferModes : Type := mkTransferModes {
  Hugepages : ModeConfig;
  Tmpfs : ModeConfig;
  Filesystem : ModeConfig
}.

Record TransferSettings : Type := mkTransferSettings {
  Device : string;
  SettingsBaseDir : string;
  TransferInterval : Z;
  MaxConcurrentTransfers : Z;
  ChunkSize : Z;
  Modes : TransferModes;
  DefaultMode : string;
  ServerAddress : string
}.

Record TaskListResponse : Type := mkTaskListResponse {
  Tasks : list TransferTask;
  Total : Z;
  Page : Z;
  Size : Z
}.

(** [generateID]: "task_" followed by the Unix time in nanoseconds. *)
Definition generateID (now : Z) : string := "task_" +:+ pretty now.

(** [NewTransferTaskWithServer]. *)
Definition NewTransferTaskWithServer (filename mode direction serverIP : string)
           (now : Z) : TransferTask :=
  mkTransferTask (generateID now) filename "" "" mode direction serverIP
                 StatusPending 0 0 0 0 None None "" now now.

(** [MarkStarted]. *)
Definition MarkStarted (t : TransferTask) (now : Z) : TransferTask :=
  mkTransferTask (ID t) (Filename t) (SourcePath t) (TargetPath t) (Mode t)
                 (Direction t) (ServerIP t)
                 StatusStarting (Progress t) (BytesTransferred t) (TotalBytes t)
                 now (EndTime t) (Error t) (Message t) (CreatedAt t) now.

(** [MarkFailed]. *)
Definition MarkFailed (t : TransferTask) (reason : error) (now : Z) : TransferTask :=
  mkTransferTask (ID t) (Filename t) (SourcePath t) (TargetPath t) (Mode t)
                 (Direction t) (ServerIP t)
                 StatusFailed (Progress t) (BytesTransferred t) (TotalBytes t)
                 (StartTime t) (Some now) (Some reason) (Message t) (CreatedAt t) now.

(** [MarkCancelled]. *)
Definition MarkCancelled (t : TransferTask) (now : Z) : TransferTask :=
  mkTransferTask (ID t) (Filename t) (SourcePath t) (TargetPath t) (Mode t)
                 (Direction t) (ServerIP t)
                 StatusCancelled (Progress t) (BytesTransferred t) (TotalBytes t)
                 (StartTime t) (Some now) (Error t) (Message t) (CreatedAt t) now.

(** [MarkInProgress]. *)
Definition MarkInProgress (t : TransferTask) (now : Z) : TransferTask :=
  mkTransferTask (ID t) (Filename t) (SourcePath t) (TargetPath t) (Mode t)
                 (Direction t) (ServerIP t)
                 StatusInProgress (Progress t) (BytesTransferred t) (TotalBytes t)
                 (StartTime t) (EndTime t) (Error t) (Message t) (CreatedAt t) now.

(** [MarkCompleted]. *)
Definition MarkCompleted (t : TransferTask) (now : Z) : TransferTask :=
  mkTransferTask (ID t) (Filename t) (SourcePath t) (TargetPath t) (Mode t)
                 (Direction t) (ServerIP t)
                 StatusCompleted 100 (BytesTransferred t) (TotalBytes t)
                 (StartTime t) (Some now) (Error t) (Message t) (CreatedAt t) now.

(** [IsActive] and [IsFinished]. *)
Definition IsActive (t : TransferTask) : bool :=
  String.eqb (Status t) StatusStarting || String.eqb (Status t) StatusInProgress.

Definition IsFinished (t : TransferTask) : bool :=
  String.eqb (Status t) StatusCompleted || String.eqb (Status t) StatusFailed
  || String.eqb (Status t) StatusCancelled.

End Models.

(** ** internal/services/transfer: the orchestrator *)

Module Transfer.

(** [TransferTask], the wrapper of a task; [Cancel] tells whether the
    cancel function is set. *)
Record TransferTask : Type := mkTransferTask {
  Task : Models.TransferTask;
  Monitor : Monitor.TransferMonitor;
  Process : Process.ProcessManager;
  Config : Rtranfile.TransferConfig;
  Cancel : bool
}.

(** [TransferService]; [rtranfile] is the path of the executable. *)
Record TransferService : Type := mkTransferService {
  rtranfile : string;
  activeTasks : gmap string TransferTask;
  taskHistory : list Models.TransferTask;
  maxConcurrent : Z;
  singleTransfer : bool;
  requireReconnect : bool;
  activeConnections : gmap string Z;
  serverProcesses : gmap string Process.ProcessManager;
  serverConfig : option Models.TransferSettings
}.

(** [NewTransferService]. *)
Definition NewTransferService (rtranfilePath : string) (maxConcurrent : Z)
  : TransferService :=
  mkTransferService rtranfilePath ∅ [] maxConcurrent true true ∅ ∅ None.

(** [NewTransferServiceWithConfig]; the last argument is the optional
    single-transfer section [(Enabled, RequireReconnect)]. *)
Definition NewTransferServiceWithConfig (rtranfilePath : string)
           (config : Models.TransferSettings) (single : option (bool * bool))
  : TransferService :=
  let '(st, rr) := match single with Some p => p | None => (false, false) end in
  mkTransferService rtranfilePath ∅ [] (Models.MaxConcurrentTransfers config)
                    st rr ∅ ∅ (Some config).

(** What a call asks of the clock and of the file system. *)
Record Env : Type := mkEnv {
  now : Z;                              (* time.Now(), nanoseconds *)
  stamp : string;                       (* time.Now().Format("20060102_150405") *)
  dir_missing : string -> bool;         (* os.Stat reports IsNotExist *)
  mkdir_err : string -> option string   (* result of os.MkdirAll *)
}.

(** [ensureDirectoryExists], the same in the service and in the wrapper. *)
Definition ensureDirectoryExists (env : Env) (dirPath : string) : option error :=
  if String.eqb dirPath "" || String.eqb dirPath "." then None
  else if dir_missing env dirPath then
    match mkdir_err env dirPath with
    | Some cause => Some (ErrMkdirAll dirPath cause)
    | None => None
    end
  else None.

(** [getFileName]. *)
Definition getFileName (filepath : string) : string :=
  let b := Bytes.of_string filepath in
  match Bytes.last_index Bytes.slash b with
  | Some lastSlash =>
      if (lastSlash <? length b - 1)%nat
      then Bytes.to_string (drop (S lastSlash) b)
      else filepath
  | None => filepath
  end.

(** [getFileDirectory]. *)
Definition getFileDirectory (filename : string) : string :=
  let b := Bytes.of_string filename in
  match b with
  | c :: _ =>
      if Bytes.eqb c Bytes.slash then
        match Bytes.last_index Bytes.slash b with
        | Some lastSlash =>
            if (0 <? lastSlash)%nat then Bytes.to_string (take lastSlash b) else "."
        | None => "."
        end
      else "."
  | [] => "."
  end.

Definition isPutOrGet (direction : string) : bool :=
  String.eqb direction Models.DirectionPut || String.eqb direction Models.DirectionGet.

(** [buildTransferConfig]. *)
Definition buildTransferConfig (req : Models.TransferRequest)
           (serverConfig : Models.TransferSettings) (env : Env)
  : error + Rtranfile.TransferConfig :=
  let dir := Models.req_Direction req in
  let modes := Models.Modes serverConfig in
  let byMode : option (string * string * bool * bool) :=
    if String.eqb (Models.req_Mode req) Models.ModeHugepages then
      Some (Rtranfile.ModeHugepages, Models.BaseDir (Models.Hugepages modes),
            if isPutOrGet dir then true else false,
            if isPutOrGet dir then true else false)
    else if String.eqb (Models.req_Mode req) Models.ModeTmpfs then
      Some (Rtranfile.ModeTmpfs, Models.BaseDir (Models.Tmpfs modes),
            if isPutOrGet dir then false else true,
            if isPutOrGet dir then true else true)
    else if String.eqb (Models.req_Mode req) Models.ModeFilesystem then
      Some (Rtranfile.ModeFilesystem,
            if String.eqb dir Models.DirectionPut
            then getFileDirectory (Models.req_Filename req)
            else Models.BaseDir (Models.Filesystem modes),
            if isPutOrGet dir then false else true,
            if isPutOrGet dir then false else false)
    else None in
  match byMode with
  | None => inl (ErrUnsupportedMode (Models.req_Mode req))
  | Some (mode, directory, noHuge, mMan) =>
      let byDirection : option (string * string) :=
        if String.eqb dir Models.DirectionPut then
          Some (Rtranfile.DirectionPut, getFileName (Models.req_Filename req))
        else if String.eqb dir Models.DirectionGet then
          Some (Rtranfile.DirectionGet, getFileName (Models.req_Filename req))
        else None in
      match byDirection with
      | None => inl (ErrUnsupportedDirection dir)
      | Some (direction, filename) =>
          let address :=
            if negb (String.eqb (Models.ServerAddress serverConfig) "")
            then Models.ServerAddress serverConfig else "localhost" in
          inr (Rtranfile.mkTransferConfig
                 (Models.Device serverConfig) directory mode direction filename
                 address (Models.ChunkSize serverConfig)
                 ("/var/log/rtrans/rtrans_" +:+ dir +:+ "_" +:+ stamp env +:+ ".log")
                 noHuge mMan)
      end
  end.

(** [getConnectionKeyWithConfig]. *)
Definition getConnectionKeyWithConfig (req : Models.TransferRequest)
           (serverConfig : Models.TransferSettings) : string :=
  "default_" +:+ Models.req_Direction req.

(** Ten seconds, in nanoseconds. *)
Definition connectionTimeout : Z := 10 * 1000000000.

(** [isConnectionActive]. *)
Definition isConnectionActive (ts : TransferService) (connectionKey : string)
           (now : Z) : bool :=
  match activeConnections ts !! connectionKey with
  | None => false
  | Some lastActive => now - lastActive <? connectionTimeout
  end.

(** [checkTransferInterval]: always nil. *)
Definition checkTransferInterval (ts : TransferService) : option error := None.

(** [startTransferTask]. *)
Definition startTransferTask (ts : TransferService) (taskWrapper : TransferTask)
           (env : Env) : option error * TransferTask :=
  let task := Models.MarkStarted (Task taskWrapper) (now env) in
  let config := Config taskWrapper in
  let failed (reason : error) (m : Monitor.TransferMonitor) :=
    mkTransferTask (Models.MarkFailed task reason (now env)) m
                   (Process taskWrapper) config true in
  match
    (if String.eqb (Rtranfile.Direction config) Rtranfile.DirectionGet
     then ensureDirectoryExists env (Rtranfile.Directory config) else None)
  with
  | Some err => (Some err, failed (ErrCreateTargetDir err) (Monitor taskWrapper))
  | None =>
      match Monitor.StartMonitoring (Monitor taskWrapper) (now env) with
      | (Some err, m, _) => (Some err, failed (ErrStartMonitoring err) m)
      | (None, m, _) =>
          if String.eqb (Rtranfile.Direction config) Rtranfile.DirectionPut
             || String.eqb (Rtranfile.Direction config) Rtranfile.DirectionGet
          then (Some ErrClientTransferOnServer, failed ErrClientTransferOnServer m)
          else (Some ErrListenerModeUnsupported, failed ErrListenerModeUnsupported m)
      end
  end.

(** [StartTransfer]; [settings] is the source's parameter [serverConfig]. *)
Definition StartTransfer (ts : TransferService) (req : Models.TransferRequest)
           (settings : Models.TransferSettings) (env : Env)
  : (error + Models.TransferResponse) * TransferService :=
  if Z.of_nat (size (activeTasks ts)) >=? maxConcurrent ts
  then (inl (ErrMaxConcurrent (maxConcurrent ts)), ts)
  else
    match checkTransferInterval ts with
    | Some err => (inl err, ts)
    | None =>
        if singleTransfer ts && requireReconnect ts
           && isConnectionActive ts (getConnectionKeyWithConfig req settings)
                                 (now env)
        then (inl ErrReconnectRequired, ts)
        else
          let task :=
            Models.NewTransferTaskWithServer
              (Models.req_Filename req) (Models.req_Mode req)
              (Models.req_Direction req) "" (now env) in
          match buildTransferConfig req settings env with
          | inl err => (inl err, ts)
          | inr transferConfig =>
              match Rtranfile.ValidateConfig transferConfig with
              | Some err => (inl (ErrConfigValidation err), ts)
              | None =>
                  let transferTask :=
                    mkTransferTask
                      task
                      (Monitor.NewTransferMonitor
                         (Rtranfile.LogFile transferConfig) (now env))
                      Process.NewProcessManager transferConfig false in
                  match startTransferTask ts transferTask env with
                  | (Some err, _) => (inl err, ts)
                  | (None, started) =>
                      let connections :=
                        if singleTransfer ts
                        then <[getConnectionKeyWithConfig req settings := now env]>
                               (activeConnections ts)
                        else activeConnections ts in
                      (inr (Models.mkTransferResponse
                              (Models.ID (Task started))
                              (Models.Status (Task started))
                              "transfer task started" ""
                              (Models.CreatedAt (Task started))),
                       mkTransferService
                         (rtranfile ts)
                         (<[Models.ID (Task started) := started]> (activeTasks ts))
                         (taskHistory ts ++ [Task started])
                         (maxConcurrent ts) (singleTransfer ts) (requireReconnect ts)
                         connections (serverProcesses ts) (serverConfig ts))
                  end
              end
          end
    end.

(** *** Listing *)

(** The ways a call can end without returning. *)
Inductive abort : Type :=
  | PanicMakeSliceLen      (* makeslice: len out of range *)
  | PanicSliceBounds       (* slice bounds out of range *)
  | FatalOutOfMemory.      (* the allocation could not be served *)

(** The largest length [make([]*T, n)] accepts on a 64-bit platform
    (2^48 bytes of address space, 8 bytes per pointer). *)
Definition maxSliceLen : Z := 2 ^ 45.

(** [ListTransfers].  [page], [size] and the bounds computed from them
    are Go [int]s; [heap] is the number of slice elements the runtime
    can still allocate. *)
Definition ListTransfers (ts : TransferService) (heap : Z) (page size : Z)
  : abort + Models.TaskListResponse :=
  let total := Z.of_nat (length (taskHistory ts)) in
  let start := Int64.mul (Int64.sub page 1) size in
  let end_ := Int64.add start size in
  if start >=? total then
    inr (Models.mkTaskListResponse [] total page size)
  else
    let end_ := if end_ >? total then total else end_ in
    let n := Int64.sub end_ start in
    (* make([]*models.TransferTask, end-start) *)
    if (n <? 0) || (maxSliceLen <? n) then inl PanicMakeSliceLen
    else if heap <? n then inl FatalOutOfMemory
    (* ts.taskHistory[start:end] *)
    else if (start <? 0) || (end_ <? start) || (total <? end_)
    then inl PanicSliceBounds
    else
      inr (Models.mkTaskListResponse
             (take (Z.to_nat n) (drop (Z.to_nat start) (taskHistory ts)))
             total page size).

(** *** The listener registry *)

(** What the registry does to the machine's processes. *)
Inductive event : Type :=
  | EvStop (pid : Z)               (* Stop() was called on this process *)
  | EvSpawn (cmd : Process.Cmd).   (* this command was started *)

(** The processes of the machine: which pids are alive, the next pid to
    be handed out (pids are not reused), and what the registry has done
    so far, latest first. *)
Record World : Type := mkWorld {
  alive : gset Z;
  next_pid : Z;
  trace : list event
}.

(** What [ensureServerProcessStarted] asks of the operating system. *)
Record ListenerEnv : Type := mkListenerEnv {
  fs : Env;                                 (* clock and directories *)
  stop_answers : Z -> Process.StopAnswers;  (* answers to Stop, by pid *)
  logfile_err : string -> option string;    (* result of createLogFile *)
  spawn_err : option string;                (* result of cmd.Start() *)
  settles : bool                            (* alive after the 2 s delay *)
}.

(** The answer to [process.Signal(0)]. *)
Definition probe (w : World) (pm : Process.ProcessManager) : bool :=
  match Process.process pm with
  | Some p => bool_decide (Process.pid p ∈ alive w)
  | None => false
  end.

(** [processMgr.IsRunning()] in world [w]. *)
Definition running (w : World) (pm : Process.ProcessManager) : bool :=
  Process.IsRunning pm (probe w pm).

(** [processMgr.Stop()] in world [w]: when [Stop] returns nil, [Wait]
    has returned and the process is gone; when it returns an error, no
    exit has been seen and the process is left as it is. *)
Definition stopIn (env : ListenerEnv) (w : World) (pm : Process.ProcessManager)
  : option error * World :=
  let pid := match Process.process pm with
             | Some p => Process.pid p
             | None => 0
             end in
  match Process.Stop pm (stop_answers env pid) (now (fs env)) with
  | (None, _) =>
      (None, mkWorld (alive w ∖ {[pid]}) (next_pid w) (EvStop pid :: trace w))
  | (Some err, _) =>
      (Some err, mkWorld (alive w) (next_pid w) (EvStop pid :: trace w))
  end.

(** One iteration of the loop over [ts.serverProcesses]. *)
Definition stopOther (env : ListenerEnv) (mode : string)
           (entry : string * Process.ProcessManager)
           (acc : gmap string Process.ProcessManager * World)
  : gmap string Process.ProcessManager * World :=
  let '(modeName, processMgr) := entry in
  let '(procs, w) := acc in
  if negb (String.eqb modeName mode) && running w processMgr
  then (delete modeName procs, (stopIn env w processMgr).2)
  else (procs, w).

(** The loop over [ts.serverProcesses]. *)
Definition stopOthers (env : ListenerEnv) (mode : string)
           (procs : gmap string Process.ProcessManager) (w : World)
  : gmap string Process.ProcessManager * World :=
  foldr (stopOther env mode) (procs, w) (map_to_list procs).

(** The [switch config.Mode] of [ensureServerProcessStarted]: the
    listener's directory and flags. *)
Definition listenerParams (cfg : option Models.TransferSettings) (mode : string)
  : option (string * bool * bool) :=
  let base (dflt : string) (pick : Models.TransferModes -> Models.ModeConfig) :=
    match cfg with
    | None => dflt
    | Some c => Models.BaseDir (pick (Models.Modes c))
    end in
  if String.eqb mode Rtranfile.ModeHugepages then
    Some (base "/dev/hugepages/dir" Models.Hugepages, false, false)
  else if String.eqb mode Rtranfile.ModeTmpfs then
    Some (base "/dev/shm/dir" Models.Tmpfs, true, true)
  else if String.eqb mode Rtranfile.ModeFilesystem then
    Some (base "/var/lib/rtrans/files" Models.Filesystem, false, false)
  else None.

(** The listener configuration built by [ensureServerProcessStarted]. *)
Definition listenerConfig (device mode baseDir : string) (noHuge mMan : bool)
  : Rtranfile.TransferConfig :=
  Rtranfile.mkTransferConfig
    device baseDir mode "" "" "" 0
    ("/var/log/rtrans/rtranfile_server_" +:+ mode +:+ ".log") noHuge mMan.

(** [RtranfileWrapper.StartServer]: the command, not yet started. *)
Definition StartServer (binPath : string) (env : ListenerEnv)
           (config : Rtranfile.TransferConfig) : error + Process.Cmd :=
  match ensureDirectoryExists (fs env) (Rtranfile.Directory config) with
  | Some err => inl (ErrCreateWorkDir err)
  | None =>
      let args := Rtranfile.buildServerArgs config in
      let command := Process.mkCmd binPath (binPath :: args) in
      if negb (String.eqb (Rtranfile.LogFile config) "") then
        match logfile_err env (Rtranfile.LogFile config) with
        | Some cause => inl (ErrCreateLogFile cause)
        | None => inr command
        end
      else inr command
  end.

Definition set_serverProcesses (procs : gmap string Process.ProcessManager)
           (ts : TransferService) : TransferService :=
  mkTransferService (rtranfile ts) (activeTasks ts) (taskHistory ts)
                    (maxConcurrent ts) (singleTransfer ts) (requireReconnect ts)
                    (activeConnections ts) procs (serverConfig ts).

(** [ensureServerProcessStarted]. *)
Definition ensureServerProcessStarted (ts : TransferService) (w : World)
           (env : ListenerEnv) (config : Rtranfile.TransferConfig)
  : option error * TransferService * World :=
  let mode := Rtranfile.Mode config in
  let same := serverProcesses ts !! mode in
  if match same with Some processMgr => running w processMgr | None => false end
  then (None, ts, w)
  else
    let procs := match same with
                 | Some _ => delete mode (serverProcesses ts)
                 | None => serverProcesses ts
                 end in
    let '(procs, w) := stopOthers env mode procs w in
    let ts := set_serverProcesses procs ts in
    match listenerParams (serverConfig ts) mode with
    | None => (Some (ErrUnsupportedMode mode), ts, w)
    | Some (baseDir, noHuge, mMan) =>
        let serverCfg :=
          listenerConfig (Rtranfile.Device config) mode baseDir noHuge mMan in
        match Rtranfile.ValidateConfig serverCfg with
        | Some err => (Some (ErrServerConfigValidation err), ts, w)
        | None =>
            match StartServer (rtranfile ts) env serverCfg with
            | inl err => (Some (ErrStartListener err), ts, w)
            | inr serverCmd =>
                let spawn := match spawn_err env with
                             | Some cause => inl cause
                             | None => inr (next_pid w)
                             end in
                match Process.Start Process.NewProcessManager serverCmd spawn
                                    (now (fs env)) with
                | (Some err, _, _) => (Some (ErrManageListener err), ts, w)
                | (None, serverProcessMgr, _) =>
                    let pid := next_pid w in
                    let ts := set_serverProcesses
                                (<[mode := serverProcessMgr]> procs) ts in
                    (* the process runs; two seconds pass *)
                    let w := mkWorld
                               (if settles env then alive w ∪ {[pid]} else alive w)
                               (pid + 1) (EvSpawn serverCmd :: trace w) in
                    if negb (running w serverProcessMgr)
                    then (Some (ErrListenerExitedEarly
                                  (Process.PID (Process.GetInfo serverProcessMgr))),
                          ts, w)
                    else (None, ts, w)
                end
            end
        end
    end.

(** [GetActiveTransfers]. *)
Definition GetActiveTransfers (ts : TransferService) : Z :=
  Z.of_nat (size (activeTasks ts)).

(** [RtranfileWrapper.StartClient]: the command, not yet started. *)
Definition StartClient (binPath : string) (env : ListenerEnv)
           (config : Rtranfile.TransferConfig) : error + Process.Cmd :=
  match ensureDirectoryExists (fs env) (Rtranfile.Directory config) with
  | Some err => inl (ErrCreateWorkDir err)
  | None =>
      let args := Rtranfile.buildClientArgs config in
      let command := Process.mkCmd binPath (binPath :: args) in
      if negb (String.eqb (Rtranfile.LogFile config) "") then
        match logfile_err env (Rtranfile.LogFile config) with
        | Some cause => inl (ErrCreateLogFile cause)
        | None => inr command
        end
      else inr command
  end.

(** *** Preparing a transfer *)

(** The errors of [PrepareTransfer]. *)
Inductive prepare_error : Type :=
  | ErrBuildConfig (e : error)        (* from buildTransferConfig, as it is *)
  | ErrStartListenerProcess (e : error)
  | ErrListenerStartTimeout.

(** What the wait of [PrepareTransfer] meets: how many times the
    500 ms ticker is served before the 5 s timer, and the machine's
    processes at each of these ticks (counted from 1). *)
Record PrepareEnv : Type := mkPrepareEnv {
  listener_env : ListenerEnv;
  ticks : nat;
  later : nat -> World
}.

(** The loop [for !serverStarted]: [remaining] ticks are still to come
    and the next one is tick [k].  [true]: the listener was seen
    running; [false]: the timer fired. *)
Fixpoint awaitListener (ts : TransferService) (mode : string)
         (later : nat -> World) (k remaining : nat) : bool :=
  match remaining with
  | O => false
  | S remaining' =>
      if match serverProcesses ts !! mode with
         | Some processMgr => running (later k) processMgr
         | None => false
         end
      then true
      else awaitListener ts mode later (S k) remaining'
  end.

(** [PrepareTransfer].  The world returned is the one
    [ensureServerProcessStarted] has left. *)
Definition PrepareTransfer (ts : TransferService) (w : World) (env : PrepareEnv)
           (req : Models.TransferRequest) (settings : Models.TransferSettings)
  : option prepare_error * TransferService * World :=
  match buildTransferConfig req settings (fs (listener_env env)) with
  | inl err => (Some (ErrBuildConfig err), ts, w)
  | inr transferConfig =>
      match ensureServerProcessStarted ts w (listener_env env) transferConfig with
      | (Some err, ts, w) => (Some (ErrStartListenerProcess err), ts, w)
      | (None, ts, w) =>
          if awaitListener ts (Rtranfile.Mode transferConfig) (later env) 1
                           (ticks env)
          then (None, ts, w)
          else (Some ErrListenerStartTimeout, ts, w)
      end
  end.

(** *** Connections *)

Definition set_activeConnections (conns : gmap string Z) (ts : TransferService)
  : TransferService :=
  mkTransferService (rtranfile ts) (activeTasks ts) (taskHistory ts)
                    (maxConcurrent ts) (singleTransfer ts) (requireReconnect ts)
                    conns (serverProcesses ts) (serverConfig ts).

(** [getConnectionKey]. *)
Definition getConnectionKey (req : Models.TransferRequest) : string :=
  Models.req_ServerIP req +:+ "_" +:+ Models.req_Direction req.

(** [closeConnection]. *)
Definition closeConnection (ts : TransferService) (connectionKey : string)
  : TransferService :=
  set_activeConnections (delete connectionKey (activeConnections ts)) ts.

(** One iteration of the loop of [cleanupExpiredConnections]. *)
Definition expire (currentTime : Z) (entry : string * Z) (conns : gmap string Z)
  : gmap string Z :=
  let '(key, lastActive) := entry in
  if currentTime - lastActive >? connectionTimeout then delete key conns else conns.

(** [cleanupExpiredConnections]. *)
Definition cleanupExpiredConnections (ts : TransferService) (currentTime : Z)
  : TransferService :=
  set_activeConnections
    (foldr (expire currentTime) (activeConnections ts)
           (map_to_list (activeConnections ts)))
    ts.

(** [SetSingleTransferMode]. *)
Definition SetSingleTransferMode (ts : TransferService)
           (enabled requireReconnect : bool) : TransferService :=
  mkTransferService (rtranfile ts) (activeTasks ts) (taskHistory ts)
                    (maxConcurrent ts) enabled requireReconnect
                    (if negb enabled then ∅ else activeConnections ts)
                    (serverProcesses ts) (serverConfig ts).

(** *** Ending a task *)

(** [cleanupCompletedTask].  The wrapper is returned as the call leaves
    it; the boolean tells whether the process was sent an interrupt. *)
Definition cleanupCompletedTask (ts : TransferService) (taskWrapper : TransferTask)
  : Monitor.panic + (TransferService * TransferTask * bool) :=
  match Monitor.StopMonitoring (Monitor taskWrapper) with
  | inl p => inl p
  | inr m =>
      let '(pm, interrupted) := Process.Cleanup (Process taskWrapper) in
      let tasks := delete (Models.ID (Task taskWrapper)) (activeTasks ts) in
      let conns :=
        if singleTransfer ts
        then delete ("default_" +:+ Models.Direction (Task taskWrapper))
                    (activeConnections ts)
        else activeConnections ts in
      inr (mkTransferService (rtranfile ts) tasks (taskHistory ts)
                             (maxConcurrent ts) (singleTransfer ts)
                             (requireReconnect ts) conns (serverProcesses ts)
                             (serverConfig ts),
           mkTransferTask (Task taskWrapper) m pm (Config taskWrapper)
                          (Cancel taskWrapper),
           interrupted)
  end.

(** The errors of [CancelTransfer]. *)
Inductive cancel_error : Type :=
  | ErrTaskNotActive (taskID : string)
  | ErrStopTransferProcess (e : error).

(** The task of a wrapper is the object its [StartTransfer] call has
    appended to the history, and a later task under the same ID takes
    the wrapper's place in the map: the wrapper's task is the last
    entry of the history that carries its ID.  The boolean tells
    whether an entry was found. *)
Fixpoint mark_last (taskID : string)
         (mark : Models.TransferTask -> Models.TransferTask)
         (history : list Models.TransferTask)
  : list Models.TransferTask * bool :=
  match history with
  | [] => ([], false)
  | t :: history' =>
      let '(rest, found) := mark_last taskID mark history' in
      if found then (t :: rest, true)
      else if String.eqb (Models.ID t) taskID then (mark t :: rest, true)
      else (t :: rest, false)
  end.

(** [CancelTransfer].  [os] holds the answers to the calls of
    [Process.Stop], [stopped_at] and [now] are the clock readings of
    [Stop] and of [MarkCancelled]. *)
Definition CancelTransfer (ts : TransferService) (taskID : string)
           (os : Process.StopAnswers) (stopped_at now : Z)
  : Monitor.panic + (option cancel_error * TransferService) :=
  match activeTasks ts !! taskID with
  | None => inr (Some (ErrTaskNotActive taskID), ts)
  | Some taskWrapper =>
      match Monitor.StopMonitoring (Monitor taskWrapper) with
      | inl p => inl p
      | inr m =>
          match Process.Stop (Process taskWrapper) os stopped_at with
          | (Some err, pm) =>
              let taskWrapper :=
                mkTransferTask (Task taskWrapper) m pm (Config taskWrapper)
                               (Cancel taskWrapper) in
              inr (Some (ErrStopTransferProcess err),
                   mkTransferService
                     (rtranfile ts) (<[taskID := taskWrapper]> (activeTasks ts))
                     (taskHistory ts) (maxConcurrent ts) (singleTransfer ts)
                     (requireReconnect ts) (activeConnections ts)
                     (serverProcesses ts) (serverConfig ts))
          | (None, pm) =>
              inr (None,
                   mkTransferService
                     (rtranfile ts) (delete taskID (activeTasks ts))
                     (mark_last taskID
                                (fun t => Models.MarkCancelled t now)
                                (taskHistory ts)).1
                     (maxConcurrent ts) (singleTransfer ts)
                     (requireReconnect ts) (activeConnections ts)
                     (serverProcesses ts) (serverConfig ts))
          end
      end
  end.

End Transfer.

(** ** internal/services/transfer: the client side *)

Module Client.

(** [ClientTransferService], without its HTTP client. *)
Record ClientTransferService : Type := mkClientTransferService {
  serverURL : string;
  rtranfilePath : string;
  config : option Models.TransferSettings
}.

(** [NewClientTransferService]. *)
Definition NewClientTransferService (serverHost : string) (serverPort : Z)
           (config : option Models.TransferSettings) : ClientTransferService :=
  mkClientTransferService
    ("http://" +:+ serverHost +:+ ":" +:+ pretty serverPort +:+ "/api/v1")
    "/usr/local/bin/rtranfile" config.

(** [strings.Index(s, ":")] for a one-byte separator; [None] is -1. *)
Fixpoint index_byte (c : ascii) (s : Bytes.bytes) : option nat :=
  match s with
  | [] => None
  | a :: s' =>
      if Bytes.eqb a c then Some 0%nat
      else match index_byte c s' with
           | Some i => Some (S i)
           | None => None
           end
  end.

(** The host part [buildTransferConfig] cuts out of the service URL. *)
Definition serverHost (serverURL : string) : string :=
  let b := Bytes.of_string serverURL in
  let b := if (7 <? length b)%nat then drop 7 b else b in
  let b := match index_byte ":"%char b with
           | Some idx => if (0 <? idx)%nat then take idx b else b
           | None => b
           end in
  Bytes.to_string b.

(** [ClientTransferService.buildTransferConfig]; [stamp] is
    [time.Now().Format("20060102_150405")]. *)
Definition buildTransferConfig (cts : ClientTransferService)
           (req : Models.TransferRequest) (stamp : string)
  : error + Rtranfile.TransferConfig :=
  let device :=
    match config cts with
    | Some c => if negb (String.eqb (Models.Device c) "")
                then Models.Device c else "mlx5_0"
    | None => "mlx5_0"
    end in
  let chunkSize :=
    match config cts with
    | Some c => if 0 <? Models.ChunkSize c then Models.ChunkSize c else 4194304
    | None => 4194304
    end in
  let directory := Transfer.getFileDirectory (Models.req_Filename req) in
  let byMode : option (string * bool * bool) :=
    if String.eqb (Models.req_Mode req) Models.ModeHugepages then
      Some (Rtranfile.ModeHugepages, true, true)
    else if String.eqb (Models.req_Mode req) Models.ModeTmpfs then
      Some (Rtranfile.ModeTmpfs, false, true)
    else if String.eqb (Models.req_Mode req) Models.ModeFilesystem then
      Some (Rtranfile.ModeFilesystem, false, false)
    else None in
  match byMode with
  | None => inl (ErrUnsupportedMode (Models.req_Mode req))
  | Some (mode, noHuge, mMan) =>
      let byDirection : option string :=
        if String.eqb (Models.req_Direction req) Models.DirectionPut
        then Some Rtranfile.DirectionPut
        else if String.eqb (Models.req_Direction req) Models.DirectionGet
        then Some Rtranfile.DirectionGet
        else None in
      match byDirection with
      | None => inl (ErrUnsupportedDirection (Models.req_Direction req))
      | Some direction =>
          inr (Rtranfile.mkTransferConfig
                 device directory mode direction (Models.req_Filename req)
                 (serverHost (serverURL cts)) chunkSize
                 ("/var/log/rtrans/client_" +:+ Models.req_Direction req
                  +:+ "_" +:+ stamp +:+ ".log")
                 noHuge mMan)
      end
  end.

(** The errors of [executeClientTransfer]. *)
Inductive client_error : Type :=
  | ErrBuildClientConfig (e : error)
  | ErrValidateClientConfig (e : error)
  | ErrStartClient (e : error)
  | ErrStartClientProcess (cause : string)
  | ErrClientRun (cause : string).

(** [executeClientTransfer].  [env] answers for the directories, the
    log file and [cmd.Start()]; [exit] is the result of [cmd.Wait()]. *)
Definition executeClientTransfer (cts : ClientTransferService)
           (req : Models.TransferRequest) (env : Transfer.ListenerEnv)
           (exit : Process.WaitResult) : option client_error :=
  match buildTransferConfig cts req (Transfer.stamp (Transfer.fs env)) with
  | inl err => Some (ErrBuildClientConfig err)
  | inr config =>
      match Rtranfile.ValidateConfig config with
      | Some err => Some (ErrValidateClientConfig err)
      | None =>
          match Transfer.StartClient (rtranfilePath cts) env config with
          | inl err => Some (ErrStartClient err)
          | inr _ =>
              match Transfer.spawn_err env with
              | Some cause => Some (ErrStartClientProcess cause)
              | None =>
                  match exit with
                  | Process.WaitClean => None
                  | Process.WaitExitError _ cause => Some (ErrClientRun cause)
                  | Process.WaitOtherError cause => Some (ErrClientRun cause)
                  end
              end
          end
      end
  end.

End Client.

(** ** internal/api/handlers: the transfer handler, server mode *)

Module Handlers.

(** The errors of [validateTransferRequest]. *)
Inductive request_error : Type :=
  | ErrFilenameEmpty
  | ErrModeNotSupported (mode : string)
  | ErrDirectionNotSupported (direction : string).

(** [validateTransferRequest]. *)
Definition validateTransferRequest (req : Models.TransferRequest)
  : option request_error :=
  if String.eqb (Models.req_Filename req) "" then Some ErrFilenameEmpty
  else if negb (String.eqb (Models.req_Mode req) Models.ModeHugepages
                || String.eqb (Models.req_Mode req) Models.ModeTmpfs
                || String.eqb (Models.req_Mode req) Models.ModeFilesystem)
  then Some (ErrModeNotSupported (Models.req_Mode req))
  else if negb (String.eqb (Models.req_Direction req) Models.DirectionPut
                || String.eqb (Models.req_Direction req) Models.DirectionGet)
  then Some (ErrDirectionNotSupported (Models.req_Direction req))
  else None.

(** The settings [CreateTransfer] falls back to when the handler has
    none. *)
Definition fallbackSettings : Models.TransferSettings :=
  Models.mkTransferSettings
    "mlx5_0" "/var/lib/rtrans" (5 * 1000000000) 1 4194304
    (Models.mkTransferModes (Models.mkModeConfig true "/dev/hugepages/dir")
                            (Models.mkModeConfig true "/dev/shm/dir")
                            (Models.mkModeConfig true "/var/lib/rtrans/files"))
    "" "".

(** The copy of the settings [CreateTransfer] hands to the service: the
    server address is that of [getServerAddress] in server mode. *)
Definition transferSettings (serverConfig : option Models.TransferSettings)
  : Models.TransferSettings :=
  let c := match serverConfig with Some c => c | None => fallbackSettings end in
  Models.mkTransferSettings
    (Models.Device c) (Models.SettingsBaseDir c) (Models.TransferInterval c)
    (Models.MaxConcurrentTransfers c) (Models.ChunkSize c) (Models.Modes c)
    (Models.DefaultMode c) "localhost".

(** How [CreateTransfer] answers, by HTTP status. *)
Inductive reply : Type :=
  | BadRequest (e : request_error)                   (* 400 *)
  | PrepareFailed (e : Transfer.prepare_error)       (* 500 *)
  | Created (resp : Models.TransferResponse).        (* 201 *)

(** [CreateTransfer] on a bound request, server mode; [unix] is
    [time.Now().Unix()] and [now] the time of the response. *)
Definition CreateTransfer (serverConfig : option Models.TransferSettings)
           (ts : Transfer.TransferService) (w : Transfer.World)
           (env : Transfer.PrepareEnv) (req : Models.TransferRequest)
           (unix now : Z)
  : reply * Transfer.TransferService * Transfer.World :=
  match validateTransferRequest req with
  | Some err => (BadRequest err, ts, w)
  | None =>
      match Transfer.PrepareTransfer ts w env req (transferSettings serverConfig) with
      | (Some err, ts, w) => (PrepareFailed err, ts, w)
      | (None, ts, w) =>
          (Created (Models.mkTransferResponse
                      ("prepared_" +:+ pretty unix) Models.StatusPrepared
                      "transfer environment prepared" "" now),
           ts, w)
      end
  end.

(** The page and size [ListTransfers] passes on.  The arguments are the
    results of [strconv.Atoi] on the two query parameters, [None] when
    it fails. *)
Definition paging (page size : option Z) : Z * Z :=
  let page := match page with
              | Some p => if p <? 1 then 1 else p
              | None => 1
              end in
  let size := match size with
              | Some s => if (s <? 1) || (s >? 100) then 20 else s
              | None => 20
              end in
  (page, size).

(** [ListTransfers], server mode. *)
Definition ListTransfers (ts : Transfer.TransferService) (heap : Z)
           (page size : option Z) : Transfer.abort + Models.TaskListResponse :=
  let '(page, size) := paging page size in
  Transfer.ListTransfers ts heap page size.

End Handlers.

(** ** The specification's own notions

    Definitions that follow the words of the specification, for
    comparison with the code above. *)

Module Spec.
Import Rtranfile.

(** *** Configurations *)

(** The accepted configurations. *)
Definition mode_known (m : string) : Prop :=
  m = "hugepages" \/ m = "tmpfs" \/ m = "filesystem".

Definition direction_known (d : string) : Prop :=
  d = "put" \/ d = "get".

Definition well_formed (c : TransferConfig) : Prop :=
  Device c <> "" /\ Directory c <> "" /\ LogFile c <> "" /\
  mode_known (Mode c) /\
  (Direction c = "" \/
   (direction_known (Direction c) /\ ServerAddress c <> "" /\ Filename c <> "")).

(** *** Command-line flags *)

(** The two sides of a transfer. *)
Inductive role : Type := Listener | TransferSide.

(** The mode-to-role table: (disable-large-pages, use-mmap). *)
Definition flag_table (mode : string) (r : role) : option (bool * bool) :=
  if String.eqb mode "hugepages" then
    Some (match r with Listener => (false, false) | TransferSide => (true, true) end)
  else if String.eqb mode "tmpfs" then
    Some (match r with Listener => (true, true) | TransferSide => (false, true) end)
  else if String.eqb mode "filesystem" then
    Some (match r with Listener => (true, false) | TransferSide => (false, false) end)
  else None.

(** The flags present in an argument list: (--nohuge, --mman). *)
Definition flags_of (args : list string) : bool * bool :=
  (existsb (String.eqb "--nohuge") args, existsb (String.eqb "--mman") args).

(** The mode arguments the code appends for a configuration. *)
Definition modeArgs (c : TransferConfig) : list string :=
  addModeSpecificArgs [] c.

(** The flags on the listener's command line, along the path
    [ensureServerProcessStarted] -> [StartServer] -> [buildServerArgs]. *)
Definition listener_flags (cfg : option Models.TransferSettings)
           (device mode : string) : option (bool * bool) :=
  match Transfer.listenerParams cfg mode with
  | Some (baseDir, noHuge, mMan) =>
      Some (flags_of (modeArgs (Transfer.listenerConfig device mode baseDir noHuge mMan)))
  | None => None
  end.

(** The flags on the transfer side's command line, along the path
    [buildTransferConfig] -> [buildClientArgs]. *)
Definition transfer_flags (req : Models.TransferRequest)
           (settings : Models.TransferSettings) (env : Transfer.Env)
  : option (bool * bool) :=
  match Transfer.buildTransferConfig req settings env with
  | inr c => Some (flags_of (modeArgs c))
  | inl _ => None
  end.

(** *** Stopping a process *)

(** The states in which a supervisor is done with its process. *)
Definition terminal (s : Process.ProcessState) : Prop :=
  s = Process.StateStopped \/ s = Process.StateError.

(** [Stop] observed the exit of the process: [Wait] returned, either
    within the ten seconds or after the kill that follows them. *)
Definition exit_observed (os : Process.StopAnswers) : bool :=
  match Process.interrupt_err os, Process.kill_err os with
  | Some _, Some _ => false
  | _, _ =>
      match Process.waited os, Process.timeout_kill_err os with
      | Some _, _ => true
      | None, None => true
      | None, Some _ => false
      end
  end.

(** A supervisor whose process runs. *)
Definition supervising (pm : Process.ProcessManager) : Prop :=
  is_Some (Process.process pm) /\ Process.State (Process.info pm) = Process.StateRunning.

(** *** Starting a transfer *)

(** The wrapper [StartTransfer] builds for a new task. *)
Definition fresh_wrapper (task : Models.TransferTask) (c : TransferConfig) (now : Z)
  : Transfer.TransferTask :=
  Transfer.mkTransferTask task (Monitor.NewTransferMonitor (LogFile c) now)
                          Process.NewProcessManager c false.

(** The error with which the hand-off step rejects a new task. *)
Definition handoff_error (env : Transfer.Env) (c : TransferConfig) : error :=
  if String.eqb (Direction c) "get" then
    match Transfer.ensureDirectoryExists env (Directory c) with
    | Some err => err
    | None => ErrClientTransferOnServer
    end
  else if String.eqb (Direction c) "put" then ErrClientTransferOnServer
  else ErrListenerModeUnsupported.

(** The single-flight check of [StartTransfer] rejects the request. *)
Definition single_flight_rejects (ts : Transfer.TransferService)
           (req : Models.TransferRequest) (settings : Models.TransferSettings)
           (now : Z) : bool :=
  Transfer.singleTransfer ts && Transfer.requireReconnect ts
  && Transfer.isConnectionActive
       ts (Transfer.getConnectionKeyWithConfig req settings) now.

(** The error [StartTransfer] ends with. *)
Definition start_error (ts : Transfer.TransferService)
           (req : Models.TransferRequest) (settings : Models.TransferSettings)
           (env : Transfer.Env) : error :=
  if Z.of_nat (size (Transfer.activeTasks ts)) >=? Transfer.maxConcurrent ts
  then ErrMaxConcurrent (Transfer.maxConcurrent ts)
  else if single_flight_rejects ts req settings (Transfer.now env)
  then ErrReconnectRequired
  else match Transfer.buildTransferConfig req settings env with
       | inl err => err
       | inr c =>
           match ValidateConfig c with
           | Some err => ErrConfigValidation err
           | None => handoff_error env c
           end
       end.

(** A sequence of start calls, each with its request, settings and
    environment. *)
Definition call : Type :=
  Models.TransferRequest * Models.TransferSettings * Transfer.Env.

Fixpoint run_starts (ts : Transfer.TransferService) (calls : list call)
  : Transfer.TransferService :=
  match calls with
  | [] => ts
  | (req, settings, env) :: calls' =>
      run_starts (Transfer.StartTransfer ts req settings env).2 calls'
  end.

(** *** Log lines *)

(** The words that mark an error line. *)
Definition error_words : list string := ["error"; "failed"; "failure"; "exception"].

(** [kw], given in lower case, is at the front of [s] in some letter case. *)
Fixpoint ci_prefix (kw s : Bytes.bytes) : bool :=
  match kw, s with
  | [], _ => true
  | k :: kw', c :: s' => Bytes.eqb (Regex.to_lower c) k && ci_prefix kw' s'
  | _ :: _, [] => false
  end.

Definition word_at (s : Bytes.bytes) : bool :=
  existsb (fun kw => ci_prefix (Bytes.of_string kw) s) error_words.

Fixpoint mentions (s : Bytes.bytes) : bool :=
  word_at s || match s with [] => false | _ :: s' => mentions s' end.

(** The line contains one of the error words, in any letter case. *)
Definition mentions_error (line : string) : bool := mentions (Bytes.of_string line).

(** The letters of the error words; none of them folds to a rune outside
    ASCII. *)
Definition error_letters : list ascii :=
  list_ascii_of_string "erofaildcuxptn".

(** The number of bytes a unit name stands for; the name is compared in
    lower case.  Any other name counts as bytes. *)
Definition unit_factor (unit : string) : Z :=
  let u := Bytes.to_string (map Regex.to_lower (Bytes.of_string unit)) in
  if String.eqb u "gb" then 1024 * 1024 * 1024
  else if String.eqb u "mb" then 1024 * 1024
  else if String.eqb u "kb" then 1024
  else 1.

(** An option holds a value. *)
Definition some {A : Type} (o : option A) : bool :=
  match o with Some _ => true | None => false end.

(** *** The listener registry *)






End Spec.

(** ** Notions for the further properties

    Call sequences, and the readings of paths, log lines and task
    transitions that the properties of the second part are stated
    with. *)

Module Notions.
Import Rtranfile.

(** *** The supervisor's calls *)

(** The calls a process manager takes, and the wake-up of its
    exit-wait worker. *)
Inductive supervisor_call : Type :=
  | CallStart (c : Process.Cmd) (spawn : string + Z) (now : Z)
  | CallStop (os : Process.StopAnswers) (now : Z)
  | CallCleanup
  | WorkerWakes (r : Process.WaitResult) (now : Z).

Definition supervisor_step (pm : Process.ProcessManager) (call : supervisor_call)
  : Process.ProcessManager :=
  match call with
  | CallStart c spawn now => (Process.Start pm c spawn now).1.2
  | CallStop os now => (Process.Stop pm os now).2
  | CallCleanup => (Process.Cleanup pm).1
  | WorkerWakes r now => Process.monitorProcess pm r now
  end.

(** A new manager after a sequence of calls. *)
Definition supervisor_run (calls : list supervisor_call) : Process.ProcessManager :=
  fold_left supervisor_step calls Process.NewProcessManager.

(** *** Command lines *)

(** The strings of a configuration that reach the client's command
    line, after the path of the executable. *)
Definition client_strings (binPath : string) (c : TransferConfig) : list string :=
  [binPath; Device c; ServerAddress c; Directory c; LogFile c;
   filepath_Base (Filename c)].

Definition nonempty (s : string) : bool := negb (String.eqb s "").

(** *** Paths and hosts *)

(** No byte of [s] is a slash. *)
Definition slash_free (s : Bytes.bytes) : bool :=
  forallb (fun c => negb (Bytes.eqb c Bytes.slash)) s.

(** The path starts with a slash. *)
Definition absolute (path : string) : bool :=
  match Bytes.of_string path with
  | c :: _ => Bytes.eqb c Bytes.slash
  | [] => false
  end.

Definition colon : ascii := ":"%char.

(** No byte of [s] is a colon. *)
Definition colon_free (s : Bytes.bytes) : bool :=
  forallb (fun c => negb (Bytes.eqb c colon)) s.

(** *** The service's calls *)

Inductive service_call : Type :=
  | DoStart (req : Models.TransferRequest) (settings : Models.TransferSettings)
            (env : Transfer.Env)
  | DoPrepare (req : Models.TransferRequest) (settings : Models.TransferSettings)
              (env : Transfer.PrepareEnv)
  | DoCancel (taskID : string) (os : Process.StopAnswers) (stopped_at now : Z)
  | DoExpire (now : Z)
  | DoSetSingle (enabled requireReconnect : bool)
  | DoClose (connectionKey : string).

(** One call on a service and the machine it runs on; a call that
    panics leaves both as they were. *)
Definition service_step (st : Transfer.TransferService * Transfer.World)
           (call : service_call) : Transfer.TransferService * Transfer.World :=
  let '(ts, w) := st in
  match call with
  | DoStart req settings env => ((Transfer.StartTransfer ts req settings env).2, w)
  | DoPrepare req settings env =>
      let r := Transfer.PrepareTransfer ts w env req settings in (r.1.2, r.2)
  | DoCancel taskID os stopped_at now =>
      match Transfer.CancelTransfer ts taskID os stopped_at now with
      | inl _ => (ts, w)
      | inr (_, ts') => (ts', w)
      end
  | DoExpire now => (Transfer.cleanupExpiredConnections ts now, w)
  | DoSetSingle enabled requireReconnect =>
      (Transfer.SetSingleTransferMode ts enabled requireReconnect, w)
  | DoClose connectionKey => (Transfer.closeConnection ts connectionKey, w)
  end.

Definition service_run (ts : Transfer.TransferService) (w : Transfer.World)
           (calls : list service_call)
  : Transfer.TransferService * Transfer.World :=
  fold_left service_step calls (ts, w).

(** A service that holds no task, no history and no connection. *)
Definition idle (ts : Transfer.TransferService) : Prop :=
  Transfer.activeTasks ts = ∅ /\ Transfer.taskHistory ts = [] /\
  Transfer.activeConnections ts = ∅.

(** What the expiry sweep leaves of a connection entry. *)
Definition kept (currentTime : Z) (entry : option Z) : option Z :=
  match entry with
  | Some lastActive =>
      if currentTime - lastActive >? Transfer.connectionTimeout
      then None else Some lastActive
  | None => None
  end.

(** *** Scanned lines *)

(** The status a log line stands for, if any: an error word, else a
    completion word, else a progress report whose three numbers
    parse. *)
Definition verdict (line : string) : option string :=
  if Regex.MatchString Regex.errorRegex line then Some "failed"
  else if Regex.MatchString Regex.completeRegex line then Some "completed"
  else
    match Regex.FindStringSubmatch Regex.progressRegex line with
    | Some m =>
        if Spec.some (GoLib.ParseInt (Regex.group 1 m))
           && Spec.some (GoLib.ParseInt (Regex.group 3 m))
           && Spec.some (GoLib.ParseFloat (Regex.group 5 m))
        then Some "in_progress" else None
    | None => None
    end.

(** The verdict of the last line that has one. *)
Fixpoint last_verdict (lines : list Monitor.LogLine) : option string :=
  match lines with
  | [] => None
  | l :: lines' =>
      match last_verdict lines' with
      | Some v => Some v
      | None => verdict (Monitor.text l)
      end
  end.

(** *** The life of a task *)

(** The transitions of a task, each with the clock reading it takes. *)
Inductive transition : Type :=
  | ToStarted
  | ToInProgress
  | ToCompleted
  | ToFailed (reason : error)
  | ToCancelled.

Definition mark (t : Models.TransferTask) (tr : transition * Z)
  : Models.TransferTask :=
  match tr with
  | (ToStarted, now) => Models.MarkStarted t now
  | (ToInProgress, now) => Models.MarkInProgress t now
  | (ToCompleted, now) => Models.MarkCompleted t now
  | (ToFailed reason, now) => Models.MarkFailed t reason now
  | (ToCancelled, now) => Models.MarkCancelled t now
  end.

Definition life (t : Models.TransferTask) (trs : list (transition * Z))
  : Models.TransferTask :=
  fold_left mark trs t.

End Notions.

(** ** Sample values for the worked instances *)

Module Samples.
Import Process.

Definition sample_cmd : Cmd :=
  mkCmd "/usr/local/bin/rtranfile" ["/usr/local/bin/rtranfile"; "-d"; "mlx5_0"; "-l"; "0"].

Definition sample_pm : ProcessManager :=
  (Start NewProcessManager sample_cmd (inr 4242) 1000).1.2.

(** The interrupt is delivered, the process does not exit within ten
    seconds, and the kill that follows fails. *)
Definition kill_refused : StopAnswers :=
  mkStopAnswers None None None (Some "operation not permitted").

(** One finished task, and a service whose history holds it. *)
Definition sample_task : Models.TransferTask :=
  Models.MarkFailed
    (Models.NewTransferTaskWithServer "a.bin" "hugepages" "put" "" 1000)
    ErrClientTransferOnServer 2000.

Definition sample_history : Transfer.TransferService :=
  Transfer.mkTransferService "/usr/local/bin/rtranfile" ∅ [sample_task] 5
                             true true ∅ ∅ None.

(** The log file appears 300 ms after the worker starts; it can be read
    and nobody stops the monitor. *)
Definition late_log : Monitor.LogWorld :=
  Monitor.mkLogWorld (fun t => (3 <=? t)%nat) true None (fun _ => false).

Definition sample_monitor : Monitor.TransferMonitor :=
  (Monitor.StartMonitoring
     (Monitor.NewTransferMonitor "/var/log/rtrans/rtrans_put_20240101_000000.log" 0)
     0).1.2.

(** Settings with the three base directories. *)
Definition sample_settings : Models.TransferSettings :=
  Models.mkTransferSettings
    "mlx5_0" "/var/lib/rtrans" (5 * 1000000000) 5 4194304
    (Models.mkTransferModes (Models.mkModeConfig true "/dev/hugepages/dir")
                            (Models.mkModeConfig true "/dev/shm/dir")
                            (Models.mkModeConfig true "/var/lib/rtrans/files"))
    "" "192.168.1.10".

Definition sample_put : Models.TransferRequest :=
  Models.mkTransferRequest "/data/a.bin" "hugepages" "put" "".

Definition sample_get : Models.TransferRequest :=
  Models.mkTransferRequest "a.bin" "hugepages" "get" "".

Definition second : Z := 1000000000.

(** Every directory exists. *)
Definition calm (now : Z) : Transfer.Env :=
  Transfer.mkEnv now "20240101_000000" (fun _ => false) (fun _ => None).

(** No directory exists and none can be created. *)
Definition read_only (now : Z) : Transfer.Env :=
  Transfer.mkEnv now "20240101_000000" (fun _ => true)
                 (fun _ => Some "permission denied").

Definition sample_service : Transfer.TransferService :=
  Transfer.NewTransferService "/usr/local/bin/rtranfile" 5.

(** A service that has a put connection on record, last used at time 0. *)
Definition service_with_connection : Transfer.TransferService :=
  Transfer.mkTransferService "/usr/local/bin/rtranfile" ∅ [] 5 true true
                             (<["default_put" := 0]> ∅) ∅ None.

(** A progress line whose byte count does not fit an int64, and one
    whose first unit is written with the Kelvin sign (U+212A). *)
Definition huge_line : string := "Transferred 9007199254740992 GB of 1 B (1%)".

Definition kelvin_line : string :=
  "Transferred 5 "
  +:+ Bytes.to_string [Regex.byte 226; Regex.byte 132; Regex.byte 170]
  +:+ "B of 7 KB (1%)".

(** A line that matches all three patterns. *)
Definition mixed_line : string :=
  "  Transferred 10 MB of 20 MB (50.0%) completed with Error ".

(** A machine on which nothing runs yet, and an operating system that
    grants every request. *)
Definition boot : Transfer.World := Transfer.mkWorld ∅ 100 [].

Definition granting : Transfer.ListenerEnv :=
  Transfer.mkListenerEnv (calm 0)
                         (fun _ => Process.mkStopAnswers None None
                                     (Some Process.WaitClean) None)
                         (fun _ => None) None true.





(** The listener configuration of the large-page mode and the command
    [StartServer] builds for it. *)
Definition hugepages_config : Rtranfile.TransferConfig :=
  Transfer.listenerConfig "mlx5_0" "hugepages" "/dev/hugepages/dir" false false.

Definition hugepages_cmd : Cmd :=
  mkCmd "/usr/local/bin/rtranfile"
        ["/usr/local/bin/rtranfile"; "-d"; "mlx5_0"; "--dir"; "/dev/hugepages/dir";
         "-l"; "0"; "--logfile"; "/var/log/rtrans/rtranfile_server_hugepages.log";
         "--nohuge"; "--mman"].

(** A client configuration for a file named "-l", and its command. *)
Definition dash_l_config : Rtranfile.TransferConfig :=
  Rtranfile.mkTransferConfig "mlx5_0" "/data" "filesystem" "put" "/data/-l"
                             "192.168.1.10" 4096 "/var/log/rtrans/client.log"
                             false false.

Definition dash_l_cmd : Cmd :=
  mkCmd "/usr/local/bin/rtranfile"
        ["/usr/local/bin/rtranfile"; "-d"; "mlx5_0"; "-c"; "192.168.1.10";
         "--dir"; "/data"; "--logfile"; "/var/log/rtrans/client.log";
         "-m"; "4096"; "--put"; "-l"].

(** The running monitor, stopped. *)
Definition stopped_monitor : Monitor.TransferMonitor :=
  match Monitor.StopMonitoring sample_monitor with
  | inr tm => tm
  | inl _ => sample_monitor
  end.

(** A completion line, read at time 10 and stored at time 11. *)
Definition done_line : Monitor.LogLine :=
  Monitor.mkLogLine "transfer completed" 10 11.

(** A wait in which the ticker is served ten times and the machine
    stays as it was at boot. *)
Definition quiet_wait : Transfer.PrepareEnv :=
  Transfer.mkPrepareEnv granting 10 (fun _ => boot).

(** The wrapper of a put task, and the service after the task's
    clean-up. *)
Definition sample_wrapper : Transfer.TransferTask :=
  Spec.fresh_wrapper sample_task dash_l_config 0.

Definition after_cleanup
  : Transfer.TransferService * Transfer.TransferTask * bool :=
  match Transfer.cleanupCompletedTask service_with_connection sample_wrapper with
  | inr r => r
  | inl _ => (service_with_connection, sample_wrapper, false)
  end.



End Samples.

(** * Properties *)

(** ** Configuration validation *)

Section Validation.
Import Rtranfile Spec.

(** C5. [ValidateConfig] accepts a configuration exactly when device,
    directory and log file are non-empty, the mode is one of hugepages,
    tmpfs, filesystem, and the direction is either empty or one of put,
    get together with a non-empty peer address and file name. *)
Theorem ValidateConfig_accepts_iff (c : TransferConfig) :
  ValidateConfig c = None <-> well_formed c.
Proof.
  unfold ValidateConfig, well_formed, mode_known, direction_known,
    ModeHugepages, ModeTmpfs, ModeFilesystem, DirectionPut, DirectionGet.
  repeat match goal with
         | |- context [String.eqb ?a ?b] => destruct (String.eqb_spec a b)
         end;
    cbn [orb negb andb];
    (split; [ try discriminate; intros _ | try reflexivity; intros H ]);
    intuition (first [ congruence | discriminate ]).
Qed.

End Validation.

(** ** Command-line flags *)

Section Flags.
Import Rtranfile Spec.

Lemma addModeSpecificArgs_app (args : list string) (c : TransferConfig) :
  addModeSpecificArgs args c = args ++ modeArgs c.
Proof.
  unfold modeArgs, addModeSpecificArgs.
  repeat match goal with
         | |- context [if ?b then _ else _] => destruct b
         end; cbn; rewrite ?app_nil_r, <- ?app_assoc; reflexivity.
Qed.

Lemma buildServerArgs_flags (c : TransferConfig) :
  buildServerArgs c =
  ["-d"; Device c; "--dir"; Directory c; "-l"; "0"; "--logfile"; LogFile c]
    ++ modeArgs c.
Proof. unfold buildServerArgs. apply addModeSpecificArgs_app. Qed.

Lemma buildClientArgs_flags (c : TransferConfig) :
  exists tail,
    buildClientArgs c =
    ["-d"; Device c; "-c"; ServerAddress c; "--dir"; Directory c;
     "--logfile"; LogFile c; "-m"; "4096"] ++ modeArgs c ++ tail.
Proof.
  unfold buildClientArgs. rewrite addModeSpecificArgs_app.
  destruct (String.eqb _ _); eexists; rewrite <- app_assoc; reflexivity.
Qed.

(** C1. The flags the code puts on the command line, cell by cell of
    the mode-to-role table.  Four cells agree with the table.  The
    large-page listener gets both flags where the table has neither,
    and the memory-backed transfer side gets --nohuge where the table
    has it absent: for these two modes [addModeSpecificArgs] appends
    both flags whatever the configuration says. *)
Theorem flag_table_cells
        (cfg : option Models.TransferSettings) (device file ip : string)
        (settings : Models.TransferSettings) (env : Transfer.Env) :
  let put mode := Models.mkTransferRequest file mode "put" ip in
  let get mode := Models.mkTransferRequest file mode "get" ip in
  (* large-page *)
  listener_flags cfg device "hugepages" = Some (true, true) /\
  flag_table "hugepages" Listener = Some (false, false) /\
  transfer_flags (put "hugepages") settings env = Some (true, true) /\
  transfer_flags (get "hugepages") settings env = Some (true, true) /\
  flag_table "hugepages" TransferSide = Some (true, true) /\
  (* memory-backed *)
  listener_flags cfg device "tmpfs" = Some (true, true) /\
  flag_table "tmpfs" Listener = Some (true, true) /\
  transfer_flags (put "tmpfs") settings env = Some (true, true) /\
  transfer_flags (get "tmpfs") settings env = Some (true, true) /\
  flag_table "tmpfs" TransferSide = Some (false, true) /\
  (* filesystem *)
  listener_flags cfg device "filesystem" = Some (true, false) /\
  flag_table "filesystem" Listener = Some (true, false) /\
  transfer_flags (put "filesystem") settings env = Some (false, false) /\
  transfer_flags (get "filesystem") settings env = Some (false, false) /\
  flag_table "filesystem" TransferSide = Some (false, false).
Proof.
  cbv zeta. destruct cfg; repeat split; reflexivity.
Qed.

End Flags.

(** ** Stopping a process *)

Section Stop.
Import Process Spec Samples.

(** C9, as stated, fails: on the time-out path whose kill fails, [Stop]
    returns with the state set to error and no exit time. *)
Lemma Stop_timeout_kill_failure_records_no_exit_time :
  supervising sample_pm /\
  (Stop sample_pm kill_refused 2000).1 = Some (ErrStopTimeout "operation not permitted") /\
  State (info (Stop sample_pm kill_refused 2000).2) = StateError /\
  ExitTime (info (Stop sample_pm kill_refused 2000).2) = None.
Proof. repeat split; try reflexivity. exists (mkStarted sample_cmd 4242). reflexivity. Qed.

(** C9, amended.  [Stop] on a supervisor whose process runs leaves a
    terminal state on every path.  On the paths on which it has seen the
    process exit (these return nil, and they include the timeout
    followed by a kill that succeeds) the exit time is the time of the
    call and the process handle is dropped.  On the other paths it
    returns an error, the state is the error state and the exit time is
    left as it was; these are the two paths on which a kill fails, after
    a failed interrupt or after the ten seconds, and on each of them the
    text of the kill's error is what [Error] holds afterwards and what
    the returned error carries, and the process handle is kept. *)
Theorem Stop_finalizes (pm : ProcessManager) (os : StopAnswers) (now : Z) :
  supervising pm ->
  let r := Stop pm os now in
  terminal (State (info r.2)) /\
  (exit_observed os = true ->
     r.1 = None /\ ExitTime (info r.2) = Some now /\ process r.2 = None) /\
  (exit_observed os = false ->
     is_Some r.1 /\ State (info r.2) = StateError /\
     ExitTime (info r.2) = ExitTime (info pm)) /\
  (interrupt_err os = None -> waited os = None -> timeout_kill_err os = None ->
     r.1 = None /\ State (info r.2) = StateStopped /\
     ExitTime (info r.2) = Some now) /\
  (forall ie cause,
     interrupt_err os = Some ie -> kill_err os = Some cause ->
     r.1 = Some (ErrForceKill cause) /\ State (info r.2) = StateError /\
     Error (info r.2) = cause /\ ExitTime (info r.2) = ExitTime (info pm) /\
     process r.2 = process pm) /\
  (forall cause,
     interrupt_err os = None \/ kill_err os = None ->
     waited os = None -> timeout_kill_err os = Some cause ->
     r.1 = Some (ErrStopTimeout cause) /\ State (info r.2) = StateError /\
     Error (info r.2) = cause /\ ExitTime (info r.2) = ExitTime (info pm) /\
     process r.2 = process pm) /\
  (exit_observed os = false ->
     exists cause,
       Error (info r.2) = cause /\
       ((r.1 = Some (ErrForceKill cause) /\ kill_err os = Some cause /\
         is_Some (interrupt_err os)) \/
        (r.1 = Some (ErrStopTimeout cause) /\ timeout_kill_err os = Some cause /\
         waited os = None))).
Proof.
  intros [[p Hp] Hs]. unfold Stop, exit_observed, terminal. rewrite Hp, Hs. cbn.
  destruct (interrupt_err os) as [ie|], (kill_err os) as [ke|],
    (waited os) as [[| code text | text]|], (timeout_kill_err os) as [te|];
    cbn; repeat split; intros;
    repeat match goal with
           | H : _ \/ _ |- _ => destruct H
           | H : Some _ = Some _ |- _ => injection H as <-
           end;
    try discriminate; eauto 8.
Qed.

Lemma Stop_finalizes_witness :
  let r := Stop sample_pm (mkStopAnswers None None None None) 2000 in
  r.1 = None /\ State (info r.2) = StateStopped /\ ExitTime (info r.2) = Some 2000.
Proof.
  assert (H : supervising sample_pm).
  { split; [exists (mkStarted sample_cmd 4242)|]; reflexivity. }
  destruct (Stop_finalizes sample_pm (mkStopAnswers None None None None) 2000 H)
    as (_ & _ & _ & Hquiet & _).
  exact (Hquiet eq_refl eq_refl eq_refl).
Defined.

End Stop.

(** ** Listing the history *)

Section Listing.
Import Transfer Samples.

Lemma wrap_id (z : Z) : Int64.in_range z -> Int64.wrap z = z.
Proof.
  unfold Int64.in_range, Int64.wrap, Int64.min_int, Int64.max_int. intros H.
  rewrite Z.mod_small; lia.
Qed.

(** C10, as stated, fails in both directions.  With [page] the least
    int the product [(page-1)*size] wraps around to a large positive
    bound and the call returns the empty page although [page <= 0],
    [size > 0] and the history is not empty; and with [page = 1] a
    negative [size] makes [make] panic. *)
Lemma ListTransfers_wraps_and_panics_on_negative_size :
  taskHistory sample_history <> [] /\
  ListTransfers sample_history 1000 Int64.min_int 1
    = inr (Models.mkTaskListResponse [] 1 Int64.min_int 1) /\
  ListTransfers sample_history 1000 1 (-1) = inl PanicMakeSliceLen.
Proof. repeat split; [discriminate | vm_compute; reflexivity ..]. Qed.

(** C10, amended.  For [page <= 0], a positive [size] that [make] can
    serve and a product [(page-1)*size] that fits an int, the lower
    bound is negative and the slice expression panics, whether the
    history is empty or not.  For [page >= 1], [size >= 0], [page*size]
    fitting an int and an allocation that [make] can serve, the call
    returns the elements of the history from index [(page-1)*size] on,
    at most [size] of them: [min size (total - (page-1)*size)] when that
    is positive and none otherwise.  The call only reads the service
    state. *)
Theorem ListTransfers_pages (ts : TransferService) (heap page size : Z) :
  Int64.in_range page -> Int64.in_range size ->
  let total := Z.of_nat (length (taskHistory ts)) in
  let start := (page - 1) * size in
  (page <= 0 -> 0 < size ->
   Int64.min_int <= start -> size <= Z.min heap maxSliceLen ->
   start < 0 /\ ListTransfers ts heap page size = inl PanicSliceBounds) /\
  (1 <= page -> 0 <= size -> page * size <= Int64.max_int ->
   Z.min size total <= Z.min heap maxSliceLen ->
   exists tasks,
     ListTransfers ts heap page size
       = inr (Models.mkTaskListResponse tasks total page size) /\
     tasks = take (Z.to_nat size) (drop (Z.to_nat start) (taskHistory ts)) /\
     Z.of_nat (length tasks) = Z.max 0 (Z.min size (total - start))).
Proof.
  intros Rp Rs. cbv zeta.
  unfold Int64.in_range, Int64.min_int, Int64.max_int in Rp, Rs. split.
  - intros Hp Hs Hlo Hmk.
    assert (Ht : 0 <= Z.of_nat (length (taskHistory ts))) by lia.
    assert (Hneg : (page - 1) * size < 0) by nia.
    split; [exact Hneg |].
    assert (Hpr : Int64.min_int < page).
    { unfold Int64.min_int in *. nia. }
    unfold ListTransfers, Int64.mul, Int64.sub, Int64.add.
    unfold Int64.min_int in *.
    rewrite (wrap_id (page - 1)) by (unfold Int64.in_range, Int64.min_int, Int64.max_int; lia).
    rewrite (wrap_id ((page - 1) * size))
      by (unfold Int64.in_range, Int64.min_int, Int64.max_int; lia).
    rewrite (wrap_id ((page - 1) * size + size))
      by (unfold Int64.in_range, Int64.min_int, Int64.max_int; nia).
    destruct (Z.geb_spec ((page - 1) * size) (Z.of_nat (length (taskHistory ts)))); [lia |].
    destruct (Z.gtb_spec ((page - 1) * size + size) (Z.of_nat (length (taskHistory ts)))); [nia |].
    replace ((page - 1) * size + size - (page - 1) * size) with size by lia.
    rewrite (wrap_id size)
      by (unfold Int64.in_range, Int64.min_int, Int64.max_int, maxSliceLen in *; lia).
    destruct (Z.ltb_spec size 0); [lia |].
    destruct (Z.ltb_spec maxSliceLen size); [lia |].
    destruct (Z.ltb_spec heap size); [lia |].
    destruct (Z.ltb_spec ((page - 1) * size) 0); [reflexivity | lia].
  - intros Hp Hs Hmul Hmk.
    set (total := Z.of_nat (length (taskHistory ts))) in *.
    set (start := (page - 1) * size) in *.
    assert (Hst : 0 <= start) by (subst start; nia).
    assert (Hse : start + size <= Int64.max_int) by (subst start; nia).
    assert (Htot : 0 <= total) by (subst total; lia).
    unfold ListTransfers, Int64.mul, Int64.sub, Int64.add.
    unfold Int64.max_int in *.
    rewrite (wrap_id (page - 1)) by (unfold Int64.in_range, Int64.min_int, Int64.max_int; lia).
    fold start.
    rewrite (wrap_id start) by (unfold Int64.in_range, Int64.min_int, Int64.max_int; lia).
    rewrite (wrap_id (start + size))
      by (unfold Int64.in_range, Int64.min_int, Int64.max_int; lia).
    fold total.
    destruct (Z.geb_spec start total) as [Hge | Hlt]; cbn zeta.
    + eexists; split; [reflexivity |]. split.
      * rewrite drop_ge by (subst total; lia). rewrite take_nil. reflexivity.
      * cbn. lia.
    + assert (Hn : forall e, start <= e -> e <= total -> e - start = Z.min size (total - start) ->
                   (if (Int64.wrap (e - start) <? 0) || (maxSliceLen <? Int64.wrap (e - start))
                    then inl PanicMakeSliceLen
                    else if heap <? Int64.wrap (e - start) then inl FatalOutOfMemory
                    else if (start <? 0) || (e <? start) || (total <? e)
                    then inl PanicSliceBounds
                    else inr (Models.mkTaskListResponse
                                (take (Z.to_nat (Int64.wrap (e - start)))
                                      (drop (Z.to_nat start) (taskHistory ts)))
                                total page size))
                   = inr (Models.mkTaskListResponse
                            (take (Z.to_nat size) (drop (Z.to_nat start) (taskHistory ts)))
                            total page size)).
      { intros e He1 He2 He3.
        rewrite (wrap_id (e - start))
          by (unfold Int64.in_range, Int64.min_int, Int64.max_int; lia).
        destruct (Z.ltb_spec (e - start) 0); [lia |].
        destruct (Z.ltb_spec maxSliceLen (e - start)); [lia |].
        destruct (Z.ltb_spec heap (e - start)); [lia |].
        destruct (Z.ltb_spec start 0); [lia |].
        destruct (Z.ltb_spec e start); [lia |].
        destruct (Z.ltb_spec total e); [lia |].
        cbn [orb]. f_equal. f_equal.
        rewrite He3.
        destruct (Z.min_spec size (total - start)) as [[_ ->] | [Hm ->]]; [reflexivity |].
        rewrite !take_ge; [reflexivity | |];
          rewrite length_drop; subst total; lia. }
      eexists; split; [| split; [reflexivity |]].
      * destruct (Z.gtb_spec (start + size) total); apply Hn; lia.
      * rewrite length_take, length_drop. subst total. lia.
Qed.

Lemma ListTransfers_pages_witness :
  ListTransfers sample_history 1000 0 20 = inl PanicSliceBounds /\
  exists tasks,
    ListTransfers sample_history 1000 1 20
      = inr (Models.mkTaskListResponse tasks 1 1 20) /\
    tasks = [sample_task].
Proof.
  split.
  - apply (proj1 (ListTransfers_pages sample_history 1000 0 20 ltac:(vm_compute; split; discriminate) ltac:(vm_compute; split; discriminate)));
      [lia | lia | vm_compute; discriminate | vm_compute; discriminate].
  - destruct (proj2 (ListTransfers_pages sample_history 1000 1 20 ltac:(vm_compute; split; discriminate) ltac:(vm_compute; split; discriminate)))
      as [tasks [H1 [H2 _]]];
      [lia | lia | vm_compute; discriminate | vm_compute; discriminate |].
    exists tasks. split; [exact H1 | exact H2].
Defined.

End Listing.

(** ** Waiting for the log file *)

Section LogWait.
Import Monitor Samples.

(** The first loop of the worker never iterates: one pass through its
    body ends it. *)
Lemma waitLoop_single_pass (fuel : nat) (w : LogWorld) (t : nat) :
  waitLoop (S fuel) w t =
  if stop_at w t then Some None
  else Some (Some (if exists_at w t then t else S t)).
Proof. cbn. unfold waitBody, stat_ok. destruct (stop_at w t); reflexivity. Qed.

(** C4.  The worker is to poll every 100 ms until the log file exists.
    The code polls once: if the log file is absent when the worker
    starts and still absent 100 ms later, the worker stops waiting,
    fails to open the file and records the status failed, whether or
    not the file is created at a later tick. *)
Theorem monitorLogFile_gives_up_after_one_tick
        (fuel : nat) (w : LogWorld) (tm : TransferMonitor) :
  stop_at w 0%nat = false ->
  exists_at w 0%nat = false ->
  exists_at w 1%nat = false ->
  monitorLogFile (S fuel) w tm
    = Failed (fail (open_failed "no such file or directory") tm) /\
  Status (progress (fail (open_failed "no such file or directory") tm)) = StatusFailed.
Proof.
  intros Hstop H0 H1. split; [| reflexivity].
  unfold monitorLogFile. rewrite waitLoop_single_pass, Hstop, H0.
  unfold open_err. rewrite H1. reflexivity.
Qed.

Lemma monitorLogFile_gives_up_witness :
  exists_at late_log 3%nat = true /\
  monitorLogFile 1 late_log sample_monitor
    = Failed (fail (open_failed "no such file or directory") sample_monitor).
Proof.
  split; [reflexivity |].
  exact (proj1 (monitorLogFile_gives_up_after_one_tick
                  0 late_log sample_monitor eq_refl eq_refl eq_refl)).
Defined.

End LogWait.

(** ** Starting a transfer *)

Section Start.
Import Transfer Spec Samples.

Lemma startTransferTask_fresh (ts : TransferService) (task : Models.TransferTask)
      (c : Rtranfile.TransferConfig) (env : Env) :
  let r := startTransferTask ts (fresh_wrapper task c (now env)) env in
  r.1 = Some (handoff_error env c) /\
  Models.Status (Task r.2) = Models.StatusFailed.
Proof.
  unfold startTransferTask, handoff_error, fresh_wrapper,
    Rtranfile.DirectionGet, Rtranfile.DirectionPut. cbn.
  destruct (String.eqb_spec (Rtranfile.Direction c) "get") as [Hg | Hg].
  - destruct (ensureDirectoryExists env (Rtranfile.Directory c)); cbn; [auto |].
    rewrite orb_true_r. cbn. auto.
  - cbn. rewrite orb_false_r.
    destruct (String.eqb (Rtranfile.Direction c) "put"); cbn; auto.
Qed.

Lemma StartTransfer_result (ts : TransferService) (req : Models.TransferRequest)
      (settings : Models.TransferSettings) (env : Env) :
  StartTransfer ts req settings env = (inl (start_error ts req settings env), ts).
Proof.
  unfold StartTransfer, start_error, single_flight_rejects, checkTransferInterval.
  destruct (_ >=? _); [reflexivity |].
  destruct (_ && _ && _); [reflexivity |].
  destruct (buildTransferConfig req settings env) as [e | c]; [reflexivity |].
  destruct (Rtranfile.ValidateConfig c); [reflexivity |].
  pose proof (startTransferTask_fresh
                ts (Models.NewTransferTaskWithServer
                      (Models.req_Filename req) (Models.req_Mode req)
                      (Models.req_Direction req) "" (now env)) c env) as [H _].
  unfold fresh_wrapper in H. cbv zeta in H.
  destruct (startTransferTask _ _ _) as [[e |] tt]; cbn in H; [| discriminate].
  injection H as ->. reflexivity.
Qed.

Lemma run_starts_fixed (ts : TransferService) (calls : list call) :
  run_starts ts calls = ts.
Proof.
  induction calls as [| [[req settings] env] calls IH]; [reflexivity |].
  cbn. rewrite StartTransfer_result. exact IH.
Qed.

(** C2, as stated, fails on one point: a get request that passes
    admission and validation is not always rejected with the
    client-transfer error.  When the destination directory is missing
    and cannot be created, the hand-off step returns the directory
    error. *)
Lemma StartTransfer_get_directory_error :
  start_error sample_service sample_get sample_settings (read_only 0)
    = ErrMkdirAll "/dev/hugepages/dir" "permission denied" /\
  StartTransfer sample_service sample_get sample_settings (read_only 0)
    = (inl (ErrMkdirAll "/dev/hugepages/dir" "permission denied"), sample_service) /\
  ErrMkdirAll "/dev/hugepages/dir" "permission denied" <> ErrClientTransferOnServer.
Proof.
  split; [| split; [rewrite StartTransfer_result; f_equal; f_equal | discriminate]];
    vm_compute; reflexivity.
Qed.

(** C2, amended.  [StartTransfer] returns an error on every input and
    leaves the service as it was.  For a request that passes admission
    and validation the error comes from the hand-off step, which marks
    the new task failed and rejects it: a put with the client-transfer
    error; a get with the same error unless creating the destination
    directory fails, in which case with the directory error; any other
    direction with the listener-unsupported error.  So after any
    sequence of starts on a new service the active-task map and the
    connection map are empty and the active count is 0. *)
Theorem StartTransfer_never_starts
        (ts : TransferService) (req : Models.TransferRequest)
        (settings : Models.TransferSettings) (env : Env)
        (task : Models.TransferTask) (c : Rtranfile.TransferConfig)
        (path : string) (limit : Z) (calls : list call) :
  StartTransfer ts req settings env = (inl (start_error ts req settings env), ts) /\
  (startTransferTask ts (fresh_wrapper task c (now env)) env).1
    = Some (handoff_error env c) /\
  Models.Status (Task (startTransferTask ts (fresh_wrapper task c (now env)) env).2)
    = "failed" /\
  activeTasks (run_starts (NewTransferService path limit) calls) = ∅ /\
  GetActiveTransfers (run_starts (NewTransferService path limit) calls) = 0 /\
  activeConnections (run_starts (NewTransferService path limit) calls) = ∅.
Proof.
  split; [apply StartTransfer_result |].
  destruct (startTransferTask_fresh ts task c env) as [H1 H2].
  split; [exact H1 |]. split; [exact H2 |].
  rewrite run_starts_fixed. repeat split.
Qed.

(** No error raised after the admission checks is the admission error. *)
Lemma handoff_error_not_admission (env : Env) (c : Rtranfile.TransferConfig) :
  handoff_error env c <> ErrReconnectRequired.
Proof.
  unfold handoff_error, ensureDirectoryExists.
  repeat match goal with
         | |- context [if ?b then _ else _] => destruct b
         | |- context [mkdir_err ?e ?d] => destruct (mkdir_err e d)
         end; discriminate.
Qed.

(** C3, as stated, fails.  On a new service with single-flight mode on,
    a second put one second after the first is not rejected by the
    admission check: the first start recorded nothing, and both calls
    end with the hand-off error.  A third put after the window is not
    accepted either. *)
Lemma second_start_not_rejected_by_admission :
  singleTransfer sample_service = true /\
  requireReconnect sample_service = true /\
  let r1 := StartTransfer sample_service sample_put sample_settings (calm 0) in
  let r2 := StartTransfer r1.2 sample_put sample_settings (calm (1 * second)) in
  let r3 := StartTransfer r2.2 sample_put sample_settings (calm (20 * second)) in
  r1.1 = inl ErrClientTransferOnServer /\
  r2.1 = inl ErrClientTransferOnServer /\
  r2.1 <> inl ErrReconnectRequired /\
  r3.1 = inl ErrClientTransferOnServer.
Proof.
  split; [reflexivity |]. split; [reflexivity |]. cbv zeta.
  rewrite !StartTransfer_result. cbn [fst snd].
  repeat split; try (vm_compute; reflexivity).
  vm_compute. discriminate.
Qed.

(** C3, amended.  The connection key is the marker "default_" followed
    by the request direction, whatever the rest of the request and the
    settings.  With single-flight mode and require-reconnect both on and
    the concurrency limit not reached, a start whose key was last used
    less than ten seconds ago is rejected with the admission error and
    changes nothing; when the key was last used ten seconds ago or
    earlier, or never, the start passes the admission check and ends
    with a later error.  A start never records its key, so the map of
    connections is the same after the call. *)
Theorem single_flight_window
        (ts : TransferService) (req : Models.TransferRequest)
        (settings : Models.TransferSettings) (env : Env) :
  singleTransfer ts = true ->
  requireReconnect ts = true ->
  Z.of_nat (size (activeTasks ts)) < maxConcurrent ts ->
  let key := getConnectionKeyWithConfig req settings in
  key = "default_" +:+ Models.req_Direction req /\
  (forall last, activeConnections ts !! key = Some last ->
                now env - last < connectionTimeout ->
                StartTransfer ts req settings env = (inl ErrReconnectRequired, ts)) /\
  (forall last, activeConnections ts !! key = Some last ->
                connectionTimeout <= now env - last ->
                exists e, StartTransfer ts req settings env = (inl e, ts) /\
                          e <> ErrReconnectRequired) /\
  (activeConnections ts !! key = None ->
   exists e, StartTransfer ts req settings env = (inl e, ts) /\
             e <> ErrReconnectRequired) /\
  activeConnections (StartTransfer ts req settings env).2 = activeConnections ts.
Proof.
  intros Hs Hr Hlim key.
  assert (Hpass : single_flight_rejects ts req settings (now env) = false ->
                  exists e, StartTransfer ts req settings env = (inl e, ts) /\
                            e <> ErrReconnectRequired).
  { intros Hsf. eexists. split; [apply StartTransfer_result |].
    unfold start_error. rewrite Hsf.
    destruct (Z.geb_spec (Z.of_nat (size (activeTasks ts))) (maxConcurrent ts)); [lia |].
    destruct (buildTransferConfig req settings env) as [e | c] eqn:Hb.
    - unfold buildTransferConfig in Hb.
      repeat match type of Hb with
             | context [if ?b then _ else _] => destruct b
             end; try discriminate Hb; injection Hb as <-; discriminate.
    - destruct (Rtranfile.ValidateConfig c); [discriminate |].
      apply handoff_error_not_admission. }
  split; [reflexivity |]. split; [| split; [| split]].
  - intros last Hl Hw. rewrite StartTransfer_result. f_equal. f_equal.
    unfold start_error, single_flight_rejects, isConnectionActive.
    fold key. rewrite Hs, Hr, Hl. unfold connectionTimeout, second in *.
    destruct (Z.geb_spec (Z.of_nat (size (activeTasks ts))) (maxConcurrent ts)); [lia |].
    destruct (Z.ltb_spec (now env - last) (10 * 1000000000)); [reflexivity | lia].
  - intros last Hl Hw. apply Hpass.
    unfold single_flight_rejects, isConnectionActive. fold key. rewrite Hs, Hr, Hl.
    unfold connectionTimeout, second in *.
    destruct (Z.ltb_spec (now env - last) (10 * 1000000000)); [lia | reflexivity].
  - intros Hn. apply Hpass.
    unfold single_flight_rejects, isConnectionActive. fold key. rewrite Hs, Hr, Hn.
    reflexivity.
  - rewrite StartTransfer_result. reflexivity.
Qed.

Lemma single_flight_window_witness :
  StartTransfer service_with_connection sample_put sample_settings (calm (3 * second))
    = (inl ErrReconnectRequired, service_with_connection) /\
  exists e,
    StartTransfer service_with_connection sample_put sample_settings (calm (10 * second))
      = (inl e, service_with_connection) /\ e <> ErrReconnectRequired.
Proof.
  split.
  - refine (proj1 (proj2 (single_flight_window
                            service_with_connection sample_put sample_settings
                            (calm (3 * second)) eq_refl eq_refl _)) 0 _ _);
      [vm_compute; reflexivity | vm_compute; reflexivity | vm_compute; reflexivity].
  - refine (proj1 (proj2 (proj2 (single_flight_window
                            service_with_connection sample_put sample_settings
                            (calm (10 * second)) eq_refl eq_refl _))) 0 _ _);
      [vm_compute; reflexivity | vm_compute; reflexivity | vm_compute; discriminate].
Defined.

End Start.

(** ** Classifying log lines *)

Section ErrorLines.
Import Bytes Regex Monitor Spec.

Lemma fold_step (k : ascii) :
  In k error_letters ->
  forall (c : ascii) (s : bytes),
    strip_first (fold_alts k) (c :: s)
    = if Bytes.eqb (to_lower c) k then Some s else None.
Proof.
  intros Hk.
  repeat (destruct Hk as [<- | Hk];
          [intros c s; destruct c as [[] [] [] [] [] [] [] []]; reflexivity |]).
  destruct Hk.
Qed.

Lemma fold_step_nil (k : ascii) :
  In k error_letters -> strip_first (fold_alts k) [] = None.
Proof.
  intros Hk. repeat (destruct Hk as [<- | Hk]; [reflexivity |]). destruct Hk.
Qed.

Lemma strip_fold_plain (lit : bytes) :
  Forall (fun k => In k error_letters) lit ->
  forall s, some (strip_fold lit s) = ci_prefix lit s.
Proof.
  induction 1 as [| k lit Hk _ IH]; intros s; [reflexivity |].
  destruct s as [| c s]; cbn [strip_fold ci_prefix].
  - rewrite fold_step_nil by exact Hk. reflexivity.
  - rewrite fold_step by exact Hk.
    destruct (Bytes.eqb (to_lower c) k); [apply IH | reflexivity].
Qed.

Lemma plain_word (kw : string) :
  forallb (fun k => existsb (Bytes.eqb k) error_letters) (of_string kw) = true ->
  Forall (fun k => In k error_letters) (of_string kw).
Proof.
  intros H. apply Stdlib.Lists.List.Forall_forall. intros k Hk.
  rewrite forallb_forall in H. specialize (H k Hk).
  apply existsb_exists in H as [k' [Hin Heq]].
  apply Ascii.eqb_eq in Heq. subst k'. exact Hin.
Qed.

(** At one position: the pattern matches exactly when an error word
    starts there. *)
Lemma errorRegex_at (s : bytes) :
  some (run errorRegex s [] (fun _ cs => Some cs)) = word_at s.
Proof.
  pose proof (plain_word "error" eq_refl).
  pose proof (plain_word "failed" eq_refl).
  pose proof (plain_word "failure" eq_refl).
  pose proof (plain_word "exception" eq_refl).
  unfold word_at, error_words, errorRegex. cbn [run existsb].
  rewrite <- !strip_fold_plain by assumption.
  repeat match goal with
         | |- context [strip_fold ?l s] => generalize (strip_fold l s); intros ?
         end.
  repeat match goal with
         | o : option bytes |- _ => destruct o
         end; reflexivity.
Qed.

(** [errorRegex.MatchString] decides whether the line mentions an error
    word in some letter case. *)
Lemma errorRegex_mentions (line : string) :
  MatchString errorRegex line = mentions_error line.
Proof.
  unfold MatchString, mentions_error.
  induction (of_string line) as [| c s IH]; cbn [find mentions].
  - rewrite <- errorRegex_at.
    destruct (run errorRegex [] [] _); reflexivity.
  - rewrite <- errorRegex_at.
    destruct (run errorRegex (c :: s) [] _); [reflexivity | exact IH].
Qed.

End ErrorLines.

Section ParsedLines.
Import Bytes Regex Monitor Spec Samples.

(** C7.  A line that contains one of error, failed, failure, exception
    in any letter case is classified as failed, with the trimmed line as
    error text and nothing else set; this holds for every such line, so
    also for one that matches the completion or the progress pattern. *)
Theorem error_line_fails (line : string) (now : Z) :
  mentions_error line = true ->
  ParseLine line now
  = inr (Some (mkProgressInfo StatusFailed 0 0 0 0 0 0 0 now (GoLib.TrimSpace line))).
Proof.
  intros H. unfold ParseLine. rewrite errorRegex_mentions, H. reflexivity.
Qed.

Lemma error_line_fails_witness :
  MatchString completeRegex mixed_line = true /\
  some (FindStringSubmatch progressRegex mixed_line) = true /\
  ParseLine mixed_line 7
  = inr (Some (mkProgressInfo "failed" 0 0 0 0 0 0 0 7
                 "Transferred 10 MB of 20 MB (50.0%) completed with Error")).
Proof.
  split; [vm_compute; reflexivity |]. split; [vm_compute; reflexivity |].
  exact (error_line_fails mixed_line 7 eq_refl).
Defined.

End ParsedLines.

(** ** Progress lines and units *)

Section Units.
Import Bytes Regex Monitor Spec Samples.

Lemma wrap_mod (a : Z) : (Int64.wrap a) mod 2 ^ 64 = a mod 2 ^ 64.
Proof.
  unfold Int64.wrap.
  rewrite Zminus_mod, Zmod_mod, <- Zminus_mod.
  f_equal. lia.
Qed.

Lemma wrap_congr (a b : Z) : a mod 2 ^ 64 = b mod 2 ^ 64 -> Int64.wrap a = Int64.wrap b.
Proof.
  intros H. unfold Int64.wrap. f_equal.
  rewrite (Zplus_mod a), (Zplus_mod b), H. reflexivity.
Qed.

Lemma wrap_mul_l (a b : Z) : Int64.wrap (Int64.wrap a * b) = Int64.wrap (a * b).
Proof.
  apply wrap_congr.
  rewrite (Zmult_mod (Int64.wrap a)), wrap_mod, <- Zmult_mod. reflexivity.
Qed.

Lemma upper_G (c : ascii) : Ascii.eqb (to_upper c) "G" = Ascii.eqb (to_lower c) "g".
Proof. destruct c as [[] [] [] [] [] [] [] []]; reflexivity. Qed.
Lemma upper_M (c : ascii) : Ascii.eqb (to_upper c) "M" = Ascii.eqb (to_lower c) "m".
Proof. destruct c as [[] [] [] [] [] [] [] []]; reflexivity. Qed.
Lemma upper_K (c : ascii) : Ascii.eqb (to_upper c) "K" = Ascii.eqb (to_lower c) "k".
Proof. destruct c as [[] [] [] [] [] [] [] []]; reflexivity. Qed.
Lemma upper_B (c : ascii) : Ascii.eqb (to_upper c) "B" = Ascii.eqb (to_lower c) "b".
Proof. destruct c as [[] [] [] [] [] [] [] []]; reflexivity. Qed.

(** [convertToBytes] multiplies by the unit's factor in int64 arithmetic. *)
Lemma convertToBytes_factor (value : Z) (unit : string) :
  Int64.in_range value ->
  convertToBytes value unit = Int64.wrap (value * unit_factor unit).
Proof.
  intros Hv. unfold convertToBytes, unit_factor, GoLib.ToUpper, Int64.mul.
  repeat (rewrite wrap_mul_l || rewrite <- Z.mul_assoc).
  destruct (of_string unit) as [| c1 [| c2 [| c3 l]]];
    cbn [map to_string string_of_list_ascii String.eqb];
    rewrite ?upper_G, ?upper_M, ?upper_K, ?upper_B;
    repeat match goal with
           | |- context [Ascii.eqb ?a ?b] => destruct (Ascii.eqb a b)
           end;
    first [ f_equal; ring
          | rewrite Z.mul_1_r, wrap_id by exact Hv; reflexivity ].
Qed.

Lemma digits_value_nonneg (s : bytes) :
  forall acc v, 0 <= acc -> GoLib.digits_value acc s = Some v -> 0 <= v.
Proof.
  induction s as [| c s IH]; intros acc v Hacc H; cbn in H.
  - injection H as <-. exact Hacc.
  - destruct (is_digit c) eqn:Hd; [| discriminate].
    eapply IH; [| exact H].
    unfold is_digit in Hd. apply andb_prop in Hd as [Hd _].
    apply Nat.leb_le in Hd. lia.
Qed.

Lemma ParseInt_range (s : bytes) (v : Z) :
  GoLib.ParseInt s = Some v -> Int64.in_range v.
Proof.
  unfold GoLib.ParseInt. destruct s as [| c s]; [discriminate |].
  destruct (GoLib.digits_value 0 (c :: s)) as [w |] eqn:Hw; [| discriminate].
  destruct (Z.leb_spec w Int64.max_int); [| discriminate].
  intros Hv. injection Hv as <-.
  apply digits_value_nonneg in Hw; [| lia].
  unfold Int64.in_range, Int64.min_int. lia.
Qed.

(** C6, as stated, fails on the general part.  The products are int64
    products: 9007199254740992 GB is 2^83 bytes and is reported as 0.
    And the case-insensitive pattern accepts the Kelvin sign for the
    letter K, a spelling that [convertToBytes] does not recognise: such
    a "KB" count is taken as bytes. *)
Lemma progress_units_overflow_and_kelvin :
  (exists info, ParseLine huge_line 0 = inr (Some info) /\
                Status info = "in_progress" /\
                BytesTransferred info = 0 /\
                BytesTransferred info <> 9007199254740992 * (1024 * 1024 * 1024)) /\
  (exists info, ParseLine kelvin_line 0 = inr (Some info) /\
                Status info = "in_progress" /\
                BytesTransferred info = 5 /\ TotalBytes info = 7 * 1024).
Proof.
  split; eexists; (split; [vm_compute; reflexivity |]); cbn; repeat split; discriminate.
Qed.

(** C6, amended.  The sample line parses as specified: 1024 MB of 2048 MB,
    50 percent, in progress.  For every line that [ParseLine] reports as
    in progress, the two byte counts are the parsed numbers times the
    factor of their unit, taken in int64 arithmetic: exact whenever the
    product fits an int64, reduced modulo 2^64 otherwise.  The factor is
    1 for B, 1024 for KB, 1024*1024 for MB and 1024*1024*1024 for GB,
    with the unit's ASCII letters in any case; any other spelling counts
    as bytes. *)
Theorem progress_line_units (now : Z) :
  ParseLine "Transferred 1024 MB of 2048 MB (50.0%)" now
  = inr (Some (mkProgressInfo "in_progress" (1024 * 1024 * 1024) (2048 * 1024 * 1024)
                              50 0 0 0 0 now "")) /\
  (forall line info,
     ParseLine line now = inr (Some info) ->
     Status info = StatusInProgress ->
     exists caps transferred total,
       FindStringSubmatch progressRegex line = Some caps /\
       GoLib.ParseInt (group 1 caps) = Some transferred /\
       GoLib.ParseInt (group 3 caps) = Some total /\
       GoLib.ParseFloat (group 5 caps) = Some (ProgressPercent info) /\
       BytesTransferred info
       = Int64.wrap (transferred * unit_factor (to_string (group 2 caps))) /\
       TotalBytes info
       = Int64.wrap (total * unit_factor (to_string (group 4 caps)))) /\
  (forall value unit,
     Int64.in_range value -> Int64.in_range (value * unit_factor unit) ->
     convertToBytes value unit = value * unit_factor unit) /\
  (unit_factor "B" = 1 /\ unit_factor "b" = 1 /\
   unit_factor "KB" = 1024 /\ unit_factor "kb" = 1024 /\ unit_factor "Kb" = 1024 /\
   unit_factor "MB" = 1024 * 1024 /\ unit_factor "mb" = 1024 * 1024 /\
   unit_factor "GB" = 1024 * 1024 * 1024 /\ unit_factor "gB" = 1024 * 1024 * 1024).
Proof.
  split; [vm_compute; reflexivity |]. split; [| split].
  - intros line info H Hst. unfold ParseLine in H.
    destruct (MatchString errorRegex line);
      [injection H as <-; discriminate Hst |].
    destruct (MatchString completeRegex line);
      [injection H as <-; discriminate Hst |].
    destruct (FindStringSubmatch progressRegex line) as [caps |]; [| discriminate].
    destruct (GoLib.ParseInt (group 1 caps)) as [t |] eqn:H1; [| discriminate].
    destruct (GoLib.ParseInt (group 3 caps)) as [tot |] eqn:H3; [| discriminate].
    destruct (GoLib.ParseFloat (group 5 caps)) as [p |] eqn:H5; [| discriminate].
    injection H as <-. exists caps, t, tot. cbn.
    rewrite !convertToBytes_factor by (eapply ParseInt_range; eassumption).
    repeat split; first [reflexivity | assumption].
  - intros value unit Hv Hp.
    rewrite convertToBytes_factor by exact Hv. apply wrap_id. exact Hp.
  - repeat split; reflexivity.
Qed.

Lemma progress_line_units_witness :
  exists caps,
    FindStringSubmatch progressRegex "transferred 5kb of 7 Gb(0.5%)" = Some caps /\
    Int64.wrap (5 * unit_factor (to_string (group 2 caps))) = 5120 /\
    convertToBytes 2048 "MB" = 2048 * unit_factor "MB".
Proof.
  destruct (proj1 (proj2 (progress_line_units 0))
              "transferred 5kb of 7 Gb(0.5%)"
              (mkProgressInfo "in_progress" 5120 7516192768 (1 # 2) 0 0 0 0 0 "")
              ltac:(vm_compute; reflexivity) eq_refl)
    as [caps [t [tot [Hc [H1 [H3 [H5 [Hb Ht]]]]]]]].
  exists caps. split; [exact Hc |]. split.
  - assert (Ht5 : t = 5).
    { revert H1. replace caps with
        (match FindStringSubmatch progressRegex "transferred 5kb of 7 Gb(0.5%)" with
         | Some c => c | None => [] end) by (rewrite Hc; reflexivity).
      vm_compute. congruence. }
    subst t. symmetry. exact Hb.
  - apply (proj1 (proj2 (proj2 (progress_line_units 0))));
      vm_compute; split; discriminate.
Defined.

End Units.

(** ** The listener registry *)

Section Registry.
Import Transfer Spec Samples.




















End Registry.

(** * Further properties of the code

    Properties of the functions around those of the first part: the
    rest of the supervisor, of the monitor and of the service, the
    task model, the request handler and the client side. *)

(** ** The process supervisor *)

Section Lifecycle.
Import Process Notions.

(** X1. After [Stop] or [Cleanup] has returned, whatever it did, the
    manager reports not running for every answer of the liveness
    probe, a further [Stop] returns the not-running error and leaves
    the manager as it is, and a further [Cleanup] sends no signal. *)
Theorem stopped_manager_is_final (pm : ProcessManager) (os os' : StopAnswers)
        (now now' : Z) (probe : bool) :
  Forall (fun pm' =>
            IsRunning pm' probe = false /\
            Stop pm' os' now' = (Some ErrNotRunning, pm') /\
            (Cleanup pm').2 = false)
         [(Stop pm os now).2; (Cleanup pm).1].
Proof.
  constructor; [|constructor; [|constructor]].
  - destruct pm as [[p|] [pid st t0 et ec er cl]], os as [ie ke wt tk];
      destruct st; cbn; try (repeat split; reflexivity);
      destruct ie, ke, wt as [[]|], tk; cbn; repeat split; reflexivity.
  - destruct pm as [q [pid st t0 et ec er cl]]; cbn. repeat split; reflexivity.
Qed.

(** X2. After any call of [Stop] (successful, refused, or failed on
    the kill) a [Start] whose command is spawned is accepted: the
    record is replaced by one in state running with the new pid and
    start time and no exit time, exit code or error, and the manager
    holds the new process only. *)
Theorem Start_after_Stop (pm : ProcessManager) (os : StopAnswers) (now : Z)
        (c : Cmd) (p : Z) (now' : Z) :
  Start (Stop pm os now).2 c (inr p) now' =
  (None,
   mkProcessManager (Some (mkStarted c p))
                    (mkProcessInfo p StateRunning now' None None "" (commandLine c)),
   negb (isServerProcess c)).
Proof.
  destruct pm as [[q|] [pid st t0 et ec er cl]], os as [ie ke wt tk];
    destruct st; cbn; try reflexivity;
    destruct ie, ke, wt as [[]|], tk; cbn; reflexivity.
Qed.

Lemma never_stopping (calls : list supervisor_call) :
  State (info (supervisor_run calls)) <> StateStopping.
Proof.
  unfold supervisor_run.
  assert (H : State (info NewProcessManager) <> StateStopping) by (cbn; discriminate).
  revert H. generalize NewProcessManager as pm.
  induction calls as [|call calls IH]; intros pm H; cbn; [exact H|].
  apply IH. destruct call as [c spawn now|os now| |r now]; cbn.
  - unfold Start. destruct pm as [[q|] [pid st t0 et ec er cl]]; cbn in *;
      destruct st, spawn; cbn; congruence.
  - unfold Stop. destruct pm as [[q|] [pid st t0 et ec er cl]], os as [ie ke wt tk];
      cbn in *; destruct st; cbn; try congruence;
      destruct ie, ke, wt as [[]|], tk; cbn; congruence.
  - discriminate.
  - unfold monitorProcess. destruct pm as [q [pid st t0 et ec er cl]]; cbn in *.
    destruct st; cbn; try congruence; destruct r; cbn; congruence.
Qed.

(** X3. No call of the manager returns with the state stopping
    ([Stop] sets and leaves it under the lock).  So, after any
    sequence of calls on a new manager, the exit-wait worker that wakes
    up never takes its early return: it drops the process and records
    the exit with its own time and [Wait] result, also when [Stop] has
    recorded one before. *)
Theorem worker_always_records (calls : list supervisor_call)
        (r : WaitResult) (now : Z) :
  State (info (supervisor_run calls)) <> StateStopping /\
  monitorProcess (supervisor_run calls) r now =
  mkProcessManager None (recordExit r now (info (supervisor_run calls))).
Proof.
  pose proof (never_stopping calls) as H. split; [exact H|].
  unfold monitorProcess.
  destruct (State (info (supervisor_run calls))); cbn; congruence.
Qed.

End Lifecycle.

(** ** Command lines *)

Section CommandLines.
Import Rtranfile Process Transfer Spec Notions Samples.

Lemma StartServer_command (binPath : string) (env : ListenerEnv)
      (config : TransferConfig) (c : Cmd) :
  StartServer binPath env config = inr c ->
  c = mkCmd binPath (binPath :: buildServerArgs config).
Proof.
  unfold StartServer.
  destruct (ensureDirectoryExists _ _); [discriminate|].
  destruct (negb _); [destruct (logfile_err _ _); [discriminate|]|]; congruence.
Qed.

Lemma StartClient_command (binPath : string) (env : ListenerEnv)
      (config : TransferConfig) (c : Cmd) :
  StartClient binPath env config = inr c ->
  c = mkCmd binPath (binPath :: buildClientArgs config).
Proof.
  unfold StartClient.
  destruct (ensureDirectoryExists _ _); [discriminate|].
  destruct (negb _); [destruct (logfile_err _ _); [discriminate|]|]; congruence.
Qed.

(** The case analysis of [addModeSpecificArgs]. *)
Ltac split_modes c :=
  unfold buildServerArgs, buildClientArgs, addModeSpecificArgs;
  destruct (String.eqb (Mode c) ModeHugepages);
  [|destruct (String.eqb (Mode c) ModeTmpfs);
    [|destruct (String.eqb (Mode c) ModeFilesystem);
      [destruct (String.eqb (Direction c) ""), (NoHuge c), (MMan c)|]]];
  try destruct (String.eqb (Direction c) DirectionPut); cbn.

(** The tests of an argument against "-l". *)
Ltac split_dash_l :=
  repeat match goal with
         | |- context [String.eqb ?a "-l"] => destruct (String.eqb a "-l")
         end.

(** X4. Every command [StartServer] builds carries the argument "-l",
    so [isServerProcess] holds for it and [Start] launches no
    exit-wait worker for it, whatever the manager, the spawn result and
    the time. *)
Theorem listener_has_no_exit_worker (binPath : string) (env : ListenerEnv)
        (config : TransferConfig) (c : Cmd)
        (pm : ProcessManager) (spawn : string + Z) (now : Z) :
  StartServer binPath env config = inr c ->
  isServerProcess c = true /\ (Start pm c spawn now).2 = false.
Proof.
  intros H. apply StartServer_command in H. subst c.
  assert (Hs : isServerProcess (mkCmd binPath (binPath :: buildServerArgs config)) = true).
  { unfold isServerProcess. split_modes config; split_dash_l; reflexivity. }
  split; [exact Hs|]. unfold Start. rewrite Hs.
  destruct (_ && _); [reflexivity|]. destruct spawn; reflexivity.
Qed.

Lemma listener_has_no_exit_worker_witness :
  isServerProcess hugepages_cmd = true /\
  (Start NewProcessManager hugepages_cmd (inr 100) 0).2 = false.
Proof.
  exact (listener_has_no_exit_worker
           "/usr/local/bin/rtranfile" granting hugepages_config hugepages_cmd
           NewProcessManager (inr 100) 0 eq_refl).
Defined.

(** X5. For a command built by [StartClient], a new manager launches
    the exit-wait worker exactly when none of the executable path, the
    device, the server address, the directory, the log file and the
    base name of the file is the string "-l"; when one of them is, the
    transfer process is taken for a listener and its exit is never
    recorded. *)
Theorem client_command_taken_for_listener (binPath : string) (env : ListenerEnv)
        (config : TransferConfig) (c : Cmd) (p now : Z) :
  StartClient binPath env config = inr c ->
  (Start NewProcessManager c (inr p) now).2 =
  negb (existsb (fun s => String.eqb s "-l") (client_strings binPath config)).
Proof.
  intros H. apply StartClient_command in H. subst c.
  unfold Start, isServerProcess, client_strings. cbn [process NewProcessManager andb].
  cbn [Args existsb]. f_equal. unfold buildClientArgs.
  generalize (filepath_Base (Filename config)); intros base.
  split_modes config; split_dash_l; reflexivity.
Qed.

Lemma client_command_taken_for_listener_witness :
  (Start NewProcessManager dash_l_cmd (inr 100) 0).2 = false.
Proof.
  exact (eq_trans
           (client_command_taken_for_listener
              "/usr/local/bin/rtranfile" granting dash_l_config dash_l_cmd 100 0
              eq_refl)
           eq_refl).
Defined.

Lemma filepath_Base_nonempty (path : string) : nonempty (filepath_Base path) = true.
Proof.
  unfold filepath_Base, nonempty.
  destruct (String.eqb path ""); [reflexivity|].
  destruct (Bytes.last_index _ _) as [i|].
  - destruct (drop _ _); reflexivity.
  - destruct (Bytes.strip_trailing _ _); reflexivity.
Qed.

(** X6. A configuration that [ValidateConfig] accepts gives a listener
    command line without an empty argument, and, when it has a
    direction, a transfer command line without an empty argument. *)
Theorem validated_command_line_has_no_empty_argument (c : TransferConfig) :
  ValidateConfig c = None ->
  forallb nonempty (buildServerArgs c) = true /\
  (Direction c <> "" -> forallb nonempty (buildClientArgs c) = true).
Proof.
  intros H.
  assert (Hd : nonempty (Device c) = true /\ nonempty (Directory c) = true /\
               nonempty (LogFile c) = true /\
               (Direction c <> "" -> nonempty (ServerAddress c) = true)).
  { unfold ValidateConfig, nonempty in *.
    destruct (String.eqb (Device c) ""); [discriminate|].
    destruct (String.eqb (Directory c) ""); [discriminate|].
    destruct (String.eqb (LogFile c) ""); [discriminate|].
    repeat split; try reflexivity. intros Hn.
    destruct (negb (_ || _ || _)); [discriminate|].
    destruct (String.eqb_spec (Direction c) ""); [contradiction|]. cbn in H.
    destruct (negb (_ || _)) eqn:E; [discriminate|].
    apply negb_false_iff in E. rewrite E in H.
    destruct (String.eqb (ServerAddress c) ""); [discriminate|reflexivity]. }
  destruct Hd as (H1 & H2 & H3 & H4).
  pose proof (filepath_Base_nonempty (Filename c)) as Hb.
  split.
  - split_modes c; rewrite ?H1, ?H2, ?H3; reflexivity.
  - intros Hn. specialize (H4 Hn). unfold buildClientArgs.
    revert Hb. generalize (filepath_Base (Filename c)); intros base Hb.
    split_modes c; rewrite ?H1, ?H2, ?H3, ?H4, ?Hb; reflexivity.
Qed.

Lemma validated_command_line_has_no_empty_argument_witness :
  forallb nonempty (buildServerArgs dash_l_config) = true /\
  (Direction dash_l_config <> "" ->
   forallb nonempty (buildClientArgs dash_l_config) = true).
Proof.
  exact (validated_command_line_has_no_empty_argument dash_l_config eq_refl).
Defined.

(** X7. The configuration [GetDefaultConfig] returns is never accepted
    by [ValidateConfig] as it is: for the three modes it lacks the log
    file, for any other mode it lacks the directory. *)
Theorem GetDefaultConfig_needs_a_log_file (mode : string) :
  ValidateConfig (GetDefaultConfig mode) =
  Some (if String.eqb mode ModeHugepages || String.eqb mode ModeTmpfs
           || String.eqb mode ModeFilesystem
        then ErrLogFileEmpty else ErrDirectoryEmpty).
Proof.
  unfold GetDefaultConfig.
  destruct (String.eqb mode ModeHugepages); [reflexivity|].
  destruct (String.eqb mode ModeTmpfs); [reflexivity|].
  destruct (String.eqb mode ModeFilesystem); reflexivity.
Qed.

End CommandLines.

(** ** The monitor: restart and scanned lines *)

Section Tailing.
Import Regex GoLib Monitor Spec Notions Samples.

(** X8. A monitor that has been stopped cannot be used again:
    [StartMonitoring] accepts and launches a worker, but the stop
    channel stays closed, so the worker returns at its first test
    without looking at the log file, and the next [StopMonitoring]
    panics on closing the closed channel. *)
Theorem stopped_monitor_cannot_restart (tm tm1 : TransferMonitor) (now : Z) :
  isMonitoring tm = true ->
  StopMonitoring tm = inr tm1 ->
  let r := StartMonitoring tm1 now in
  r.1.1 = None /\ r.2 = true /\
  stopClosed r.1.2 = true /\
  (forall fuel w, stop_at w 0 = stopClosed r.1.2 ->
                  monitorLogFile (S fuel) w r.1.2 = Stopped r.1.2) /\
  StopMonitoring r.1.2 = inl CloseOfClosedChannel.
Proof.
  intros Hm Hs. unfold StopMonitoring in Hs. rewrite Hm in Hs.
  destruct (stopClosed tm); [discriminate|]. injection Hs as <-.
  cbn. repeat split. intros fuel w Hw.
  unfold monitorLogFile, waitLoop, waitBody. rewrite Hw. reflexivity.
Qed.

Lemma stopped_monitor_cannot_restart_witness :
  (StartMonitoring stopped_monitor 5).1.1 = None /\
  StopMonitoring (StartMonitoring stopped_monitor 5).1.2 = inl CloseOfClosedChannel.
Proof.
  destruct (stopped_monitor_cannot_restart sample_monitor stopped_monitor 5
                                           eq_refl eq_refl)
    as (H1 & _ & _ & _ & H5).
  split; [exact H1|exact H5].
Defined.

Lemma update_Status (p u : ProgressInfo) (now : Z) :
  Status (update p u now) = if String.eqb (Status u) "" then Status p else Status u.
Proof.
  unfold update.
  destruct (String.eqb (Status u) ""), (0 <? BytesTransferred u), (0 <? TotalBytes u),
    (rounds_positive (ProgressPercent u)), (String.eqb (Error u) ""); reflexivity.
Qed.

Lemma ParseLine_verdict (line : string) (now : Z) :
  match verdict line with
  | Some v => exists u, ParseLine line now = inr (Some u) /\ Status u = v
  | None => forall u, ParseLine line now <> inr (Some u)
  end.
Proof.
  unfold verdict, ParseLine.
  destruct (MatchString errorRegex line); [eexists; split; reflexivity|].
  destruct (MatchString completeRegex line); [eexists; split; reflexivity|].
  destruct (FindStringSubmatch progressRegex line) as [m|]; [|discriminate].
  destruct (ParseInt (group 1 m)); cbn; [|discriminate].
  destruct (ParseInt (group 3 m)); cbn; [|discriminate].
  destruct (ParseFloat (group 5 m)); cbn; [|discriminate].
  eexists; split; reflexivity.
Qed.

Lemma verdict_nonempty (line v : string) :
  verdict line = Some v -> String.eqb v "" = false.
Proof.
  unfold verdict.
  destruct (MatchString errorRegex line); [intros [= <-]; reflexivity|].
  destruct (MatchString completeRegex line); [intros [= <-]; reflexivity|].
  destruct (FindStringSubmatch progressRegex line) as [m|]; [|discriminate].
  destruct (_ && _ && _); [intros [= <-]; reflexivity|discriminate].
Qed.

Lemma scanLine_Status (tm : TransferMonitor) (l : LogLine) :
  Status (progress (scanLine tm l)) =
  default (Status (progress tm)) (verdict (text l)).
Proof.
  pose proof (ParseLine_verdict (text l) (parsed_at l)) as H.
  unfold scanLine. destruct (verdict (text l)) as [v|] eqn:Ev.
  - destruct H as (u & -> & Hu). cbn [progress]. rewrite update_Status, Hu.
    rewrite (verdict_nonempty _ _ Ev). reflexivity.
  - destruct (ParseLine (text l) (parsed_at l)) as [e|[u|]]; try reflexivity.
    exfalso. exact (H u eq_refl).
Qed.

(** X9. After a batch of scanned lines the status of the monitor is
    the one of the last line that stands for a status (failed for an
    error word, else completed for a completion word, else in_progress
    for a progress report whose numbers parse), and the previous status
    when no line does.  A failed or completed status is therefore
    overwritten by a later line. *)
Theorem last_parsed_line_decides_status (tm : TransferMonitor)
        (lines : list LogLine) :
  Status (progress (scanLines tm lines)) =
  default (Status (progress tm)) (last_verdict lines).
Proof.
  unfold scanLines. revert tm.
  induction lines as [|l lines IH]; intros tm; [reflexivity|].
  cbn [fold_left last_verdict]. rewrite IH, scanLine_Status.
  destruct (last_verdict lines); reflexivity.
Qed.

Lemma scanLine_keeps (tm : TransferMonitor) (l : LogLine) :
  let tm' := scanLine tm l in
  (Error (progress tm) <> "" -> Error (progress tm') <> "") /\
  (0 < BytesTransferred (progress tm) -> 0 < BytesTransferred (progress tm')) /\
  (0 < TotalBytes (progress tm) -> 0 < TotalBytes (progress tm')) /\
  StartTime (progress tm') = StartTime (progress tm) /\
  logFile tm' = logFile tm /\ isMonitoring tm' = isMonitoring tm /\
  stopClosed tm' = stopClosed tm.
Proof.
  unfold scanLine.
  destruct (ParseLine (text l) (parsed_at l)) as [e|[u|]]; cbn; try tauto.
  unfold update.
  destruct (String.eqb (Status u) "");
    destruct (Z.ltb_spec 0 (BytesTransferred u));
    destruct (Z.ltb_spec 0 (TotalBytes u));
    destruct (rounds_positive (ProgressPercent u));
    destruct (String.eqb_spec (Error u) ""); cbn; tauto.
Qed.

(** X10. Scanned lines never clear what the monitor holds: an error
    text stays non-empty, a positive byte count and a positive total
    stay positive, and the start time, the log file and the monitoring
    and stop flags are not touched. *)
Theorem scanned_lines_never_clear (tm : TransferMonitor) (lines : list LogLine) :
  let tm' := scanLines tm lines in
  (Error (progress tm) <> "" -> Error (progress tm') <> "") /\
  (0 < BytesTransferred (progress tm) -> 0 < BytesTransferred (progress tm')) /\
  (0 < TotalBytes (progress tm) -> 0 < TotalBytes (progress tm')) /\
  StartTime (progress tm') = StartTime (progress tm) /\
  logFile tm' = logFile tm /\ isMonitoring tm' = isMonitoring tm /\
  stopClosed tm' = stopClosed tm.
Proof.
  unfold scanLines. revert tm.
  induction lines as [|l lines IH]; intros tm; [cbn; tauto|].
  cbn [fold_left]. specialize (IH (scanLine tm l)).
  pose proof (scanLine_keeps tm l) as H. cbv zeta in *.
  destruct IH as (I1 & I2 & I3 & I4 & I5 & I6 & I7).
  destruct H as (H1 & H2 & H3 & H4 & H5 & H6 & H7).
  repeat split; try congruence; auto.
Qed.

(** X11. A scanned line with a completion word and no error word sets
    the status to completed and the percentage to 100 and stamps the
    update time; the byte count, the total and the error text stay as
    they were, so a completed monitor can show fewer bytes than the
    total. *)
Theorem completion_line_keeps_counters (tm : TransferMonitor) (l : LogLine) :
  MatchString errorRegex (text l) = false ->
  MatchString completeRegex (text l) = true ->
  progress (scanLine tm l) =
  mkProgressInfo StatusCompleted
                 (BytesTransferred (progress tm)) (TotalBytes (progress tm)) 100
                 (TransferRate (progress tm)) (ElapsedTime (progress tm))
                 (EstimatedTime (progress tm)) (StartTime (progress tm))
                 (stored_at l) (Error (progress tm)).
Proof.
  intros He Hc. unfold scanLine, ParseLine. rewrite He, Hc. cbn [progress].
  unfold update. cbn [Status BytesTransferred TotalBytes ProgressPercent Error
                      set_ProgressPercent set_Status blank].
  replace (rounds_positive 100) with true by (vm_compute; reflexivity).
  reflexivity.
Qed.

Lemma completion_line_keeps_counters_witness :
  Status (progress (scanLine sample_monitor done_line)) = "completed" /\
  BytesTransferred (progress (scanLine sample_monitor done_line)) = 0.
Proof.
  rewrite (completion_line_keeps_counters sample_monitor done_line eq_refl eq_refl).
  split; reflexivity.
Defined.

End Tailing.

(** ** The task model *)

Section Tasks.
Import Models Spec Notions.

Lemma last_nonempty (l : list Z) (x d d' : Z) :
  List.last (x :: l) d = List.last (x :: l) d'.
Proof.
  revert x. induction l as [|y l IH]; intros x; [reflexivity|].
  change (List.last (y :: l) d = List.last (y :: l) d'). apply IH.
Qed.

Lemma mark_keeps (t : TransferTask) (tr : transition * Z) :
  ID (mark t tr) = ID t /\ Filename (mark t tr) = Filename t /\
  Mode (mark t tr) = Mode t /\ Direction (mark t tr) = Direction t /\
  ServerIP (mark t tr) = ServerIP t /\ CreatedAt (mark t tr) = CreatedAt t /\
  UpdatedAt (mark t tr) = tr.2 /\
  (implb (IsFinished t) (some (EndTime t)) = true ->
   implb (IsFinished (mark t tr)) (some (EndTime (mark t tr))) = true).
Proof.
  destruct tr as [[| | |reason|] now]; cbn; repeat split; reflexivity.
Qed.

(** X12. Whatever transitions a new task goes through, in any order:
    its ID, file name, mode, direction, server address and creation
    time never change; its update time is the time of the last
    transition; it is never both active and finished; and when it is
    finished it carries an end time. *)
Theorem task_life (filename mode direction serverIP : string) (created : Z)
        (trs : list (transition * Z)) :
  let t0 := NewTransferTaskWithServer filename mode direction serverIP created in
  let t := life t0 trs in
  ID t = ID t0 /\ Filename t = filename /\ Mode t = mode /\
  Direction t = direction /\ ServerIP t = serverIP /\ CreatedAt t = created /\
  UpdatedAt t = List.last (map snd trs) created /\
  IsActive t && IsFinished t = false /\
  implb (IsFinished t) (some (EndTime t)) = true.
Proof.
  cbv zeta.
  set (t0 := NewTransferTaskWithServer filename mode direction serverIP created).
  assert (H : forall t c,
             implb (IsFinished t) (some (EndTime t)) = true ->
             UpdatedAt t = c ->
             let t' := life t trs in
             ID t' = ID t /\ Filename t' = Filename t /\ Mode t' = Mode t /\
             Direction t' = Direction t /\ ServerIP t' = ServerIP t /\
             CreatedAt t' = CreatedAt t /\
             UpdatedAt t' = List.last (map snd trs) c /\
             implb (IsFinished t') (some (EndTime t')) = true).
  { unfold life. induction trs as [|tr trs IH]; intros t c Hf Hu; cbn.
    - repeat split; try assumption.
    - destruct (mark_keeps t tr) as (K1 & K2 & K3 & K4 & K5 & K6 & K7 & K8).
      destruct (IH (mark t tr) tr.2 (K8 Hf) K7) as (I1 & I2 & I3 & I4 & I5 & I6 & I7 & I8).
      repeat split; try congruence.
      rewrite I7. destruct trs as [|tr' trs]; [reflexivity|].
      cbn [map]. rewrite (last_nonempty _ _ tr.2 c). reflexivity. }
  destruct (H t0 created eq_refl eq_refl) as (I1 & I2 & I3 & I4 & I5 & I6 & I7 & I8).
  repeat split; try assumption.
  unfold IsActive, IsFinished, StatusStarting, StatusInProgress, StatusCompleted,
    StatusFailed, StatusCancelled.
  repeat match goal with
         | |- context [String.eqb ?a ?b] => destruct (String.eqb_spec a b)
         end; cbn; congruence.
Qed.

End Tasks.

(** ** Paths *)

Section Paths.
Import Bytes Rtranfile Transfer Spec Notions.

Lemma of_to (l : bytes) : of_string (to_string l) = l.
Proof. apply list_ascii_of_string_of_list_ascii. Qed.

Lemma to_of (s : string) : to_string (of_string s) = s.
Proof. apply string_of_list_ascii_of_string. Qed.

Lemma of_string_app (a b : string) :
  of_string (a +:+ b) = of_string a ++ of_string b.
Proof.
  induction a as [|c a IH]; [reflexivity|].
  change (String c a +:+ b) with (String c (a +:+ b)). cbn. f_equal. exact IH.
Qed.

Lemma of_string_nil (s : string) : of_string s = [] -> s = "".
Proof. destruct s; [reflexivity|discriminate]. Qed.

Lemma to_string_nonempty (l : bytes) : l <> [] -> to_string l <> "".
Proof. destruct l; [congruence|discriminate]. Qed.

Lemma last_index_free (c : ascii) (s : bytes) :
  forallb (fun a => negb (eqb a c)) s = true -> last_index c s = None.
Proof.
  induction s as [|a s IH]; cbn; [reflexivity|].
  intros H. apply andb_true_iff in H as [Ha Hs]. rewrite (IH Hs).
  apply negb_true_iff in Ha. rewrite Ha. reflexivity.
Qed.

Lemma last_index_app (c : ascii) (d n : bytes) :
  forallb (fun a => negb (eqb a c)) n = true ->
  last_index c (d ++ c :: n) = Some (length d).
Proof.
  intros H. induction d as [|a d IH]; cbn.
  - rewrite (last_index_free _ _ H). unfold eqb. rewrite Ascii.eqb_refl. reflexivity.
  - rewrite IH. reflexivity.
Qed.

(** The last occurrence of a byte splits the string. *)
Lemma last_index_split (c : ascii) (s : bytes) (i : nat) :
  last_index c s = Some i ->
  s = take i s ++ c :: drop (S i) s /\
  forallb (fun a => negb (eqb a c)) (drop (S i) s) = true /\
  length (take i s) = i.
Proof.
  revert i. induction s as [|a s IH]; cbn; [discriminate|].
  intros i. destruct (last_index c s) as [j|] eqn:E.
  - intros [= <-]. destruct (IH j eq_refl) as (H1 & H2 & H3). cbn.
    repeat split; [f_equal; exact H1|exact H2|f_equal; exact H3].
  - destruct (eqb a c) eqn:Ea; [|discriminate]. intros [= <-]. cbn.
    apply Ascii.eqb_eq in Ea. subst a. rewrite drop_0. repeat split.
    clear IH. induction s as [|b s IH]; cbn; [reflexivity|].
    cbn in E. destruct (last_index c s); [discriminate|].
    destruct (eqb b c); [discriminate|]. cbn. apply IH. reflexivity.
Qed.

Lemma strip_trailing_free (c : ascii) (n : bytes) :
  forallb (fun a => negb (eqb a c)) n = true -> strip_trailing c n = n.
Proof.
  induction n as [|a n IH]; cbn; [reflexivity|].
  intros H. apply andb_true_iff in H as [Ha Hn]. rewrite (IH Hn).
  apply negb_true_iff in Ha. rewrite Ha. destruct n; reflexivity.
Qed.

Lemma strip_trailing_app (c : ascii) (x y : bytes) :
  strip_trailing c y <> [] -> strip_trailing c (x ++ y) = x ++ strip_trailing c y.
Proof.
  intros H. induction x as [|a x IH]; cbn; [reflexivity|].
  rewrite IH. destruct (x ++ strip_trailing c y) eqn:E; [|reflexivity].
  apply app_eq_nil in E as [_ E]. contradiction.
Qed.

(** The base name of [getFileName]'s result is the base name of its
    argument. *)
Lemma filepath_Base_getFileName (f : string) :
  filepath_Base (getFileName f) = filepath_Base f.
Proof.
  unfold getFileName.
  destruct (last_index slash (of_string f)) as [i|] eqn:E; [|reflexivity].
  destruct (i <? length (of_string f) - 1)%nat eqn:Hi; [|reflexivity].
  apply Nat.ltb_lt in Hi.
  destruct (last_index_split _ _ _ E) as (Hs & Hfree & Hlen).
  set (n := drop (S i) (of_string f)) in *.
  assert (Hn : n <> []).
  { intros Hn. apply (f_equal (@length ascii)) in Hn. unfold n in Hn.
    rewrite length_drop in Hn. cbn in Hn. lia. }
  unfold filepath_Base.
  assert (Hf : String.eqb f "" = false).
  { destruct f; [cbn in E; discriminate|reflexivity]. }
  assert (Hg : String.eqb (to_string n) "" = false).
  { destruct n; [contradiction|reflexivity]. }
  rewrite Hf, Hg, of_to.
  rewrite (strip_trailing_free _ _ Hfree), (last_index_free _ _ Hfree).
  assert (Hst : strip_trailing slash (of_string f) = of_string f).
  { rewrite Hs at 1.
    change (take i (of_string f) ++ slash :: n)
      with (take i (of_string f) ++ (slash :: n)).
    rewrite strip_trailing_app.
    - cbn [strip_trailing]. rewrite (strip_trailing_free _ _ Hfree).
      destruct n; [contradiction|]. symmetry. exact Hs.
    - cbn. rewrite (strip_trailing_free _ _ Hfree).
      destruct n; [contradiction|discriminate]. }
  rewrite Hst, E. fold n. reflexivity.
Qed.

Lemma getFileName_nonempty (f : string) : f <> "" -> getFileName f <> "".
Proof.
  intros Hf. unfold getFileName.
  destruct (last_index slash (of_string f)) as [i|]; [|exact Hf].
  destruct (i <? length (of_string f) - 1)%nat eqn:Hi; [|exact Hf].
  apply Nat.ltb_lt in Hi. apply to_string_nonempty. intros H.
  apply (f_equal (@length ascii)) in H. rewrite length_drop in H. cbn in H. lia.
Qed.

Lemma getFileDirectory_nonempty (f : string) : getFileDirectory f <> "".
Proof.
  unfold getFileDirectory.
  destruct (of_string f) as [|c b] eqn:E; [discriminate|].
  destruct (eqb c slash); [|discriminate].
  destruct (last_index slash (c :: b)) as [i|] eqn:Ei; [|discriminate].
  destruct (0 <? i)%nat eqn:Hi; [|discriminate].
  apply Nat.ltb_lt in Hi. apply to_string_nonempty.
  destruct (last_index_split _ _ _ Ei) as (_ & _ & Hl).
  intros H. rewrite H in Hl. cbn in Hl. lia.
Qed.

(** X13. For a path [dir/name] whose last part is not empty and holds
    no slash, [getFileName] returns [name]; [getFileDirectory] returns
    [dir] when [dir] starts with a slash and "." in every other case,
    so a relative directory is dropped and a file directly under the
    root is placed in the current directory. *)
Theorem path_split (dir name : string) :
  name <> "" -> slash_free (of_string name) = true ->
  let p := dir +:+ "/" +:+ name in
  getFileName p = name /\
  getFileDirectory p = if absolute dir then dir else ".".
Proof.
  intros Hne Hfree p.
  assert (Hp : of_string p = of_string dir ++ slash :: of_string name).
  { unfold p. rewrite !of_string_app. reflexivity. }
  assert (Hn : of_string name <> []) by (intros H; apply Hne, of_string_nil, H).
  assert (Hi : last_index slash (of_string p) = Some (length (of_string dir))).
  { rewrite Hp. apply last_index_app, Hfree. }
  split.
  - unfold getFileName. rewrite Hi.
    assert (Hlt : (length (of_string dir) <? length (of_string p) - 1)%nat = true).
    { apply Nat.ltb_lt. rewrite Hp, length_app. cbn.
      destruct (of_string name); [contradiction|cbn; lia]. }
    rewrite Hlt, Hp.
    replace (of_string dir ++ slash :: of_string name)
      with ((of_string dir ++ [slash]) ++ of_string name)
      by (rewrite <- app_assoc; reflexivity).
    rewrite drop_app_length'; [apply to_of|rewrite length_app; cbn; lia].
  - unfold getFileDirectory, absolute. rewrite Hi, Hp.
    destruct (of_string dir) as [|c d] eqn:Ed; cbn.
    + unfold eqb. cbn. reflexivity.
    + destruct (eqb c slash); [|reflexivity].
      rewrite take_app_length. rewrite <- to_of, Ed. reflexivity.
Qed.

Lemma path_split_witness :
  getFileName "/data/a.bin" = "a.bin" /\ getFileDirectory "/data/a.bin" = "/data".
Proof.
  exact (path_split "/data" "a.bin" ltac:(discriminate) eq_refl).
Defined.

End Paths.

(** ** Requests *)

Section Requests.
Import Bytes Rtranfile Transfer Spec Notions Samples.

Lemma append_nonempty (a b : string) : a <> "" -> a +:+ b <> "".
Proof.
  destruct a as [|c a]; [congruence|]. intros _.
  change (String c a +:+ b) with (String c (a +:+ b)). discriminate.
Qed.

Lemma eqb_empty_false (s : string) : s <> "" -> String.eqb s "" = false.
Proof. intros H. destruct (String.eqb_spec s ""); [contradiction|reflexivity]. Qed.

Lemma accepted_parts (req : Models.TransferRequest) :
  Handlers.validateTransferRequest req = None ->
  Models.req_Filename req <> "" /\
  (Models.req_Mode req = "hugepages" \/ Models.req_Mode req = "tmpfs" \/
   Models.req_Mode req = "filesystem") /\
  (Models.req_Direction req = "put" \/ Models.req_Direction req = "get").
Proof.
  unfold Handlers.validateTransferRequest.
  destruct (String.eqb_spec (Models.req_Filename req) ""); [discriminate|].
  destruct (String.eqb_spec (Models.req_Mode req) Models.ModeHugepages);
    destruct (String.eqb_spec (Models.req_Mode req) Models.ModeTmpfs);
    destruct (String.eqb_spec (Models.req_Mode req) Models.ModeFilesystem);
    cbn; try discriminate;
    destruct (String.eqb_spec (Models.req_Direction req) Models.DirectionPut);
    destruct (String.eqb_spec (Models.req_Direction req) Models.DirectionGet);
    cbn; try discriminate; intros _; auto.
Qed.

(** X14. A request that [validateTransferRequest] accepts never fails
    in [buildTransferConfig]: the configuration has the request's mode
    and direction and a non-empty file name, the last part of the
    request's path; and [ValidateConfig] accepts it exactly when the
    device of the settings and the directory chosen for the mode are
    not empty. *)
Theorem accepted_request_builds (req : Models.TransferRequest)
        (settings : Models.TransferSettings) (env : Env) :
  Handlers.validateTransferRequest req = None ->
  exists c,
    buildTransferConfig req settings env = inr c /\
    Mode c = Models.req_Mode req /\
    Direction c = Models.req_Direction req /\
    Filename c = getFileName (Models.req_Filename req) /\
    Filename c <> "" /\
    (ValidateConfig c = None <->
     Models.Device settings <> "" /\ Directory c <> "").
Proof.
  intros H. destruct (accepted_parts req H) as (Hf & Hm & Hd).
  pose proof (getFileName_nonempty _ Hf) as Hn.
  destruct req as [f m d ip]; cbn in *.
  assert (Hlog : forall x, String.eqb ("/var/log/rtrans/rtrans_" +:+ x) "" = false).
  { intros x. apply eqb_empty_false, append_nonempty. discriminate. }
  assert (Haddr : String.eqb
                    (if negb (String.eqb (Models.ServerAddress settings) "")
                     then Models.ServerAddress settings else "localhost") "" = false).
  { destruct (String.eqb_spec (Models.ServerAddress settings) ""); cbn;
      [reflexivity|apply eqb_empty_false; assumption]. }
  pose proof (eqb_empty_false _ Hn) as Hn'.
  destruct Hm as [-> | [-> | ->]], Hd as [-> | ->];
    cbn; eexists; (split; [reflexivity|]); cbn;
    (split; [reflexivity|split; [reflexivity|split; [reflexivity|split; [exact Hn|]]]]);
    unfold ValidateConfig; cbn; rewrite ?Hlog, ?Haddr, ?Hn';
    (split; [intros Hv | intros [Hdev Hdir]]);
    try (destruct (String.eqb_spec (Models.Device settings) ""); [discriminate|];
         match type of Hv with
         | context [String.eqb ?x ""] =>
             destruct (String.eqb_spec x ""); [discriminate|]
         end; split; assumption);
    try (rewrite (eqb_empty_false _ Hdev), (eqb_empty_false _ Hdir); reflexivity).
Qed.

Lemma accepted_request_builds_witness :
  exists c,
    buildTransferConfig sample_put sample_settings (calm 0) = inr c /\
    Mode c = "hugepages" /\ Direction c = "put" /\
    Filename c = getFileName "/data/a.bin" /\
    Filename c <> "" /\
    (ValidateConfig c = None <->
     Models.Device sample_settings <> "" /\ Directory c <> "").
Proof.
  exact (accepted_request_builds sample_put sample_settings (calm 0) eq_refl).
Defined.

End Requests.

(** ** Preparing a transfer *)

Section Preparing.
Import Transfer Spec Notions Samples.

Lemma awaitListener_true (ts : TransferService) (mode : string)
      (later : nat -> World) (n k : nat) :
  awaitListener ts mode later k n = true <->
  exists j pm, (k <= j < k + n)%nat /\ serverProcesses ts !! mode = Some pm /\
               running (later j) pm = true.
Proof.
  revert k. induction n as [|n IH]; intros k; cbn.
  - split; [discriminate|]. intros (j & pm & Hj & _). lia.
  - destruct (serverProcesses ts !! mode) as [pm|] eqn:E.
    + destruct (running (later k) pm) eqn:R.
      * split; [|reflexivity]. intros _. exists k, pm.
        split; [lia|]. split; [reflexivity|exact R].
      * rewrite IH. split; intros (j & pm' & Hj & Hl & Hr).
        -- exists j, pm'. split; [lia|]. split; [exact Hl|exact Hr].
        -- exists j, pm'. injection Hl as <-. split; [|split; [reflexivity|exact Hr]].
           destruct (Nat.eq_dec j k) as [->|]; [congruence|lia].
    + rewrite IH. split; intros (j & pm' & Hj & Hl & Hr); discriminate.
Qed.

(** X15. [PrepareTransfer] returns nil exactly when the configuration
    can be built, [ensureServerProcessStarted] returns nil, and at one
    of the ticks served before the five-second timer the registry's
    entry for the mode reports running. *)
Theorem PrepareTransfer_succeeds_iff (ts : TransferService) (w : World)
        (env : PrepareEnv) (req : Models.TransferRequest)
        (settings : Models.TransferSettings) :
  (PrepareTransfer ts w env req settings).1.1 = None <->
  exists c ts' w' k pm,
    buildTransferConfig req settings (fs (listener_env env)) = inr c /\
    ensureServerProcessStarted ts w (listener_env env) c = (None, ts', w') /\
    (1 <= k <= ticks env)%nat /\
    serverProcesses ts' !! Rtranfile.Mode c = Some pm /\
    running (later env k) pm = true.
Proof.
  unfold PrepareTransfer.
  destruct (buildTransferConfig _ _ _) as [e|c].
  - split; [discriminate|]. intros (c & ? & ? & ? & ? & H & _). discriminate.
  - destruct (ensureServerProcessStarted _ _ _ _) as [[[e|] ts'] w'] eqn:E.
    + split; [discriminate|].
      intros (c' & ? & ? & ? & ? & [= <-] & H & _). rewrite E in H. discriminate.
    + destruct (awaitListener _ _ _ _ _) eqn:A; cbn.
      * split; [intros _|reflexivity].
        apply awaitListener_true in A as (j & pm & Hj & Hl & Hr).
        exists c, ts', w', j, pm.
        split; [reflexivity|]. split; [exact E|].
        split; [lia|]. split; assumption.
      * split; [discriminate|].
        intros (c' & ts2 & w2 & k & pm & [= <-] & H & Hk & Hl & Hr).
        rewrite E in H. injection H as <- <-.
        assert (awaitListener ts' (Rtranfile.Mode c) (later env) 1 (ticks env) = true)
          as A' by (apply awaitListener_true; exists k, pm;
                    split; [lia|split; assumption]).
        congruence.
Qed.

Lemma ensure_reads_mode_and_device (ts : TransferService) (w : World)
      (env : ListenerEnv) (c c' : Rtranfile.TransferConfig) :
  Rtranfile.Mode c = Rtranfile.Mode c' ->
  Rtranfile.Device c = Rtranfile.Device c' ->
  ensureServerProcessStarted ts w env c = ensureServerProcessStarted ts w env c'.
Proof.
  intros Hm Hd. unfold ensureServerProcessStarted. rewrite Hm, Hd. reflexivity.
Qed.

(** X16. [PrepareTransfer] reads the mode of the request, whether its
    direction is put or get, and the device of the settings it is
    given, and nothing else of the two: two calls that agree on these
    have the same result, the same registry and the same processes,
    whatever file names, directions, base directories and server
    addresses they carry. *)
Theorem PrepareTransfer_reads_mode_and_device (ts : TransferService) (w : World)
        (env : PrepareEnv) (req req' : Models.TransferRequest)
        (settings settings' : Models.TransferSettings) :
  Models.req_Mode req = Models.req_Mode req' ->
  isPutOrGet (Models.req_Direction req) = true ->
  isPutOrGet (Models.req_Direction req') = true ->
  Models.Device settings = Models.Device settings' ->
  PrepareTransfer ts w env req settings = PrepareTransfer ts w env req' settings'.
Proof.
  intros Hm Hd Hd' Hdev. unfold PrepareTransfer.
  assert (H : match buildTransferConfig req settings (fs (listener_env env)),
                    buildTransferConfig req' settings' (fs (listener_env env)) with
              | inr c, inr c' => Rtranfile.Mode c = Rtranfile.Mode c' /\
                                 Rtranfile.Device c = Rtranfile.Device c'
              | inl e, inl e' => e = e'
              | _, _ => False
              end).
  { unfold buildTransferConfig. rewrite <- Hm. unfold isPutOrGet in *.
    destruct (String.eqb (Models.req_Mode req) Models.ModeHugepages);
      [|destruct (String.eqb (Models.req_Mode req) Models.ModeTmpfs);
        [|destruct (String.eqb (Models.req_Mode req) Models.ModeFilesystem)]];
      try reflexivity;
      destruct (String.eqb (Models.req_Direction req) Models.DirectionPut);
      destruct (String.eqb (Models.req_Direction req) Models.DirectionGet);
      try discriminate;
      destruct (String.eqb (Models.req_Direction req') Models.DirectionPut);
      destruct (String.eqb (Models.req_Direction req') Models.DirectionGet);
      try discriminate; cbn; auto. }
  destruct (buildTransferConfig req settings _) as [e|c],
           (buildTransferConfig req' settings' _) as [e'|c']; try contradiction.
  - subst e'. reflexivity.
  - destruct H as [H1 H2].
    rewrite (ensure_reads_mode_and_device ts w (listener_env env) c c' H1 H2), H1.
    reflexivity.
Qed.

Lemma PrepareTransfer_reads_mode_and_device_witness :
  PrepareTransfer sample_service boot quiet_wait sample_put sample_settings =
  PrepareTransfer sample_service boot quiet_wait sample_get sample_settings.
Proof.
  exact (PrepareTransfer_reads_mode_and_device
           sample_service boot quiet_wait sample_put sample_get
           sample_settings sample_settings eq_refl eq_refl eq_refl eq_refl).
Defined.

End Preparing.

(** ** Connections *)

Section Connections.
Import Transfer Spec Notions Samples.

Lemma expire_lookup (now : Z) (m : gmap string Z) (l : list (string * Z))
      (k : string) :
  NoDup l.*1 ->
  foldr (expire now) m l !! k =
  match (list_to_map l : gmap string Z) !! k with
  | Some v => if now - v >? connectionTimeout then None else m !! k
  | None => m !! k
  end.
Proof.
  induction l as [|[key v] l IH]; intros Hnd; [reflexivity|].
  cbn in Hnd. apply NoDup_cons in Hnd as [Hkey Hnd]. specialize (IH Hnd).
  cbn [foldr list_to_map expire]. cbn [fst snd].
  destruct (decide (k = key)) as [->|Hne].
  - rewrite lookup_insert_eq.
    assert (Hl : (list_to_map l : gmap string Z) !! key = None)
      by (apply not_elem_of_list_to_map_1; exact Hkey).
    rewrite Hl in IH.
    destruct (now - v >? connectionTimeout); [apply lookup_delete_eq|exact IH].
  - rewrite lookup_insert_ne by congruence.
    destruct (now - v >? connectionTimeout); [rewrite lookup_delete_ne by congruence|];
      exact IH.
Qed.

(** X17. [cleanupExpiredConnections] removes exactly the entries whose
    last use lies more than ten seconds back, whatever the order in
    which the map is walked: an entry used exactly ten seconds ago is
    kept, every other entry keeps its time, and the tasks and the
    listeners are not touched. *)
Theorem cleanupExpiredConnections_lookup (ts : TransferService) (now : Z)
        (key : string) :
  activeConnections (cleanupExpiredConnections ts now) !! key =
  kept now (activeConnections ts !! key) /\
  activeTasks (cleanupExpiredConnections ts now) = activeTasks ts /\
  serverProcesses (cleanupExpiredConnections ts now) = serverProcesses ts.
Proof.
  split; [|split; reflexivity].
  unfold cleanupExpiredConnections, kept. cbn.
  rewrite expire_lookup by apply NoDup_fst_map_to_list.
  rewrite list_to_map_to_list.
  destruct (activeConnections ts !! key) as [v|] eqn:E; [|reflexivity].
  destruct (now - v >? connectionTimeout); reflexivity.
Qed.

(** X18. The sweep never changes an admission decision: for every key
    and every time not before the sweep, [isConnectionActive] answers
    after the sweep as it would have without it. *)
Theorem cleanupExpiredConnections_keeps_admission (ts : TransferService)
        (now now' : Z) (key : string) :
  now <= now' ->
  isConnectionActive (cleanupExpiredConnections ts now) key now' =
  isConnectionActive ts key now'.
Proof.
  intros Hle. unfold isConnectionActive, cleanupExpiredConnections. cbn.
  rewrite expire_lookup by apply NoDup_fst_map_to_list.
  rewrite list_to_map_to_list.
  destruct (activeConnections ts !! key) as [v|] eqn:E; [|reflexivity].
  destruct (Z.gtb_spec (now - v) connectionTimeout); [|reflexivity].
  symmetry. apply Z.ltb_ge. lia.
Qed.

Lemma cleanupExpiredConnections_keeps_admission_witness :
  isConnectionActive (cleanupExpiredConnections service_with_connection (11 * second))
                     "default_put" (12 * second) =
  isConnectionActive service_with_connection "default_put" (12 * second).
Proof.
  apply cleanupExpiredConnections_keeps_admission. unfold second. lia.
Defined.

(** X19. When [cleanupCompletedTask] returns, in single-transfer mode,
    the task is out of the active set and the key that [StartTransfer]
    checks for a request of the task's direction is released, so the
    single-flight check passes for it at any time; the check for
    requests of another direction answers as before; the wrapper's
    monitor is not monitoring and its manager holds no process. *)
Theorem cleanupCompletedTask_releases (ts ts' : TransferService)
        (taskWrapper taskWrapper' : TransferTask) (interrupted : bool)
        (req : Models.TransferRequest) (settings : Models.TransferSettings)
        (now : Z) :
  cleanupCompletedTask ts taskWrapper = inr (ts', taskWrapper', interrupted) ->
  singleTransfer ts = true ->
  Models.req_Direction req = Models.Direction (Task taskWrapper) ->
  activeTasks ts' !! Models.ID (Task taskWrapper) = None /\
  single_flight_rejects ts' req settings now = false /\
  (forall req', Models.req_Direction req' <> Models.req_Direction req ->
         single_flight_rejects ts' req' settings now =
         single_flight_rejects ts req' settings now) /\
  Monitor.isMonitoring (Monitor taskWrapper') = false /\
  Process.process (Process taskWrapper') = None.
Proof.
  unfold cleanupCompletedTask. intros H Hs Hd.
  destruct (Monitor.StopMonitoring (Monitor taskWrapper)) as [p|m] eqn:Em; [discriminate|].
  cbn in H. rewrite Hs in H. injection H as <- <- <-. cbn.
  split; [apply lookup_delete_eq|].
  unfold single_flight_rejects, isConnectionActive, getConnectionKeyWithConfig. cbn.
  rewrite <- Hd, lookup_delete_eq. split; [apply andb_false_r|].
  split; [|split; [|reflexivity]].
  - intros req' Hne. rewrite lookup_delete_ne; [rewrite Hs; reflexivity|].
    intros Heq. apply Hne.
    apply (f_equal Bytes.of_string) in Heq.
    rewrite !of_string_app in Heq. apply app_inv_head in Heq.
    rewrite <- (to_of (Models.req_Direction req')),
            <- (to_of (Models.req_Direction req)), Heq.
    reflexivity.
  - unfold Monitor.StopMonitoring in Em.
    destruct (Monitor.isMonitoring (Monitor taskWrapper)) eqn:Ei.
    + destruct (Monitor.stopClosed (Monitor taskWrapper)); [discriminate|].
      injection Em as <-. reflexivity.
    + injection Em as <-. exact Ei.
Qed.

Lemma cleanupCompletedTask_releases_witness :
  activeTasks after_cleanup.1.1 !! Models.ID sample_task = None /\
  single_flight_rejects after_cleanup.1.1 sample_put sample_settings 5 = false.
Proof.
  destruct (cleanupCompletedTask_releases
              service_with_connection after_cleanup.1.1
              sample_wrapper after_cleanup.1.2 after_cleanup.2
              sample_put sample_settings 5 eq_refl eq_refl eq_refl)
    as (H1 & H2 & _).
  split; [exact H1|exact H2].
Defined.

(** X20. Once single-transfer mode has been switched off, no
    [StartTransfer] is refused with the reconnect error; and switching
    it on again finds no connection on record, whatever was there
    before. *)
Theorem SetSingleTransferMode_off_lifts_the_check (ts : TransferService)
        (requireReconnect requireReconnect' : bool)
        (req : Models.TransferRequest) (settings : Models.TransferSettings)
        (env : Env) (key : string) (now : Z) :
  let off := SetSingleTransferMode ts false requireReconnect in
  (StartTransfer off req settings env).1 <> inl ErrReconnectRequired /\
  isConnectionActive (SetSingleTransferMode off true requireReconnect') key now = false.
Proof.
  cbn zeta. split; [|reflexivity].
  rewrite StartTransfer_result. cbn [fst]. unfold start_error, single_flight_rejects.
  cbn [singleTransfer SetSingleTransferMode andb].
  destruct (_ >=? _); [discriminate|].
  destruct (buildTransferConfig req settings env) as [e|c] eqn:Eb.
  - unfold buildTransferConfig in Eb.
    destruct (String.eqb (Models.req_Mode req) Models.ModeHugepages);
      [|destruct (String.eqb (Models.req_Mode req) Models.ModeTmpfs);
        [|destruct (String.eqb (Models.req_Mode req) Models.ModeFilesystem)]];
      cbn in Eb;
      try (destruct (String.eqb (Models.req_Direction req) Models.DirectionPut);
           [|destruct (String.eqb (Models.req_Direction req) Models.DirectionGet)];
           cbn in Eb);
      congruence.
  - destruct (Rtranfile.ValidateConfig c); [discriminate|].
    unfold handoff_error, ensureDirectoryExists.
    repeat match goal with
           | |- context [if ?b then _ else _] => destruct b
           | |- context [match mkdir_err ?e ?d with _ => _ end] =>
               destruct (mkdir_err e d)
           end; discriminate.
Qed.

End Connections.

(** ** The service as a whole *)

Section Service.
Import Transfer Spec Notions.

Lemma ensure_frame (ts : TransferService) (w : World) (env : ListenerEnv)
      (c : Rtranfile.TransferConfig) :
  let ts' := (ensureServerProcessStarted ts w env c).1.2 in
  activeTasks ts' = activeTasks ts /\ taskHistory ts' = taskHistory ts /\
  activeConnections ts' = activeConnections ts.
Proof.
  unfold ensureServerProcessStarted.
  destruct (match serverProcesses ts !! Rtranfile.Mode c with
            | Some processMgr => running w processMgr
            | None => false
            end); [cbn; auto|].
  destruct (stopOthers _ _ _ _) as [procs w1].
  cbn [serverConfig set_serverProcesses].
  destruct (listenerParams _ _) as [[[baseDir noHuge] mMan]|]; [|cbn; auto].
  destruct (Rtranfile.ValidateConfig _); [cbn; auto|].
  destruct (StartServer _ _ _); [cbn; auto|].
  destruct (Process.Start _ _ _ _) as [[[e|] pm] b]; [cbn; auto|].
  destruct (negb _); cbn; auto.
Qed.

Lemma PrepareTransfer_frame (ts : TransferService) (w : World) (env : PrepareEnv)
      (req : Models.TransferRequest) (settings : Models.TransferSettings) :
  idle ts -> idle (PrepareTransfer ts w env req settings).1.2.
Proof.
  intros (H1 & H2 & H3). unfold PrepareTransfer, idle.
  destruct (buildTransferConfig _ _ _) as [e|c]; [cbn; auto|].
  pose proof (ensure_frame ts w (listener_env env) c) as (F1 & F2 & F3).
  destruct (ensureServerProcessStarted _ _ _ _) as [[[e|] ts'] w']; cbn in *.
  - rewrite F1, F2, F3. auto.
  - destruct (awaitListener _ _ _ _ _); cbn; rewrite F1, F2, F3; auto.
Qed.

Lemma foldr_expire_empty (now : Z) (l : list (string * Z)) :
  foldr (expire now) (∅ : gmap string Z) l = ∅.
Proof.
  induction l as [|[k v] l IH]; [reflexivity|]. cbn. rewrite IH.
  destruct (_ >? _); [apply delete_empty|reflexivity].
Qed.

Lemma CancelTransfer_idle (ts : TransferService) (taskID : string)
      (os : Process.StopAnswers) (stopped_at now : Z) :
  activeTasks ts = ∅ ->
  CancelTransfer ts taskID os stopped_at now = inr (Some (ErrTaskNotActive taskID), ts).
Proof.
  intros H. unfold CancelTransfer. rewrite H, lookup_empty. reflexivity.
Qed.

Lemma service_step_idle (st : TransferService * World) (call : service_call) :
  idle st.1 -> idle (service_step st call).1.
Proof.
  destruct st as [ts w]. cbn [fst]. intros Hi.
  destruct call as [req settings env|req settings env|taskID os t1 t2|now|en rr|key];
    cbn [service_step fst].
  - rewrite StartTransfer_result. exact Hi.
  - apply PrepareTransfer_frame, Hi.
  - destruct Hi as (H1 & H2 & H3).
    rewrite (CancelTransfer_idle ts taskID os t1 t2 H1). repeat split; assumption.
  - destruct Hi as (H1 & H2 & H3). unfold idle, cleanupExpiredConnections. cbn.
    rewrite H3, foldr_expire_empty. auto.
  - destruct Hi as (H1 & H2 & H3). unfold idle. cbn. rewrite H3.
    destruct en; auto.
  - destruct Hi as (H1 & H2 & H3). unfold idle. cbn. rewrite H3, delete_empty. auto.
Qed.

Lemma service_run_idle (ts : TransferService) (w : World)
      (calls : list service_call) :
  idle ts -> idle (service_run ts w calls).1.
Proof.
  unfold service_run. change ts with ((ts, w).1) at 1. generalize (ts, w) as st.
  induction calls as [|call calls IH]; intros st H; [exact H|].
  cbn. apply IH, service_step_idle, H.
Qed.

(** X21. A service made by either constructor never comes to hold a
    task, whatever calls it takes ([StartTransfer], [PrepareTransfer],
    [CancelTransfer], expiry sweep, mode switch, closing of a
    connection): the active count stays 0, the history stays empty, no
    connection is ever active, every [CancelTransfer] answers that the
    task is not active and changes nothing, and every [ListTransfers]
    that returns lists no task out of a total of 0. *)
Theorem service_never_holds_a_task (path : string) (limit : Z)
        (config : Models.TransferSettings) (single : option (bool * bool))
        (w : World) (calls : list service_call) :
  Forall (fun fresh =>
            let ts := (service_run fresh w calls).1 in
            GetActiveTransfers ts = 0 /\
            taskHistory ts = [] /\
            (forall key now, isConnectionActive ts key now = false) /\
            (forall taskID os stopped_at now,
                CancelTransfer ts taskID os stopped_at now
                = inr (Some (ErrTaskNotActive taskID), ts)) /\
            (forall heap page size r,
                ListTransfers ts heap page size = inr r ->
                Models.Tasks r = [] /\ Models.Total r = 0))
         [NewTransferService path limit;
          NewTransferServiceWithConfig path config single].
Proof.
  assert (H : forall fresh, idle fresh ->
            let ts := (service_run fresh w calls).1 in
            GetActiveTransfers ts = 0 /\
            taskHistory ts = [] /\
            (forall key now, isConnectionActive ts key now = false) /\
            (forall taskID os stopped_at now,
                CancelTransfer ts taskID os stopped_at now
                = inr (Some (ErrTaskNotActive taskID), ts)) /\
            (forall heap page size r,
                ListTransfers ts heap page size = inr r ->
                Models.Tasks r = [] /\ Models.Total r = 0)).
  { intros fresh Hf ts. destruct (service_run_idle fresh w calls Hf) as (H1 & H2 & H3).
    fold ts in H1, H2, H3.
    split; [unfold GetActiveTransfers; rewrite H1; reflexivity|].
    split; [exact H2|].
    split; [intros key now; unfold isConnectionActive; rewrite H3, lookup_empty;
            reflexivity|].
    split; [intros; apply CancelTransfer_idle, H1|].
    intros heap page size r. unfold ListTransfers. rewrite H2. cbn [length].
    repeat match goal with
           | |- context [if ?b then _ else _] => destruct b
           end; intros [= <-]; cbn; rewrite ?drop_nil, ?take_nil; auto. }
  constructor; [apply H; repeat split|].
  constructor; [apply H|constructor].
  unfold NewTransferServiceWithConfig. destruct single as [[st rr]|]; repeat split.
Qed.

End Service.

(** ** The handler's listing *)

Section HandlerListing.
Import Transfer Spec Samples.

Lemma paging_bounds (page size : option Z) :
  1 <= (Handlers.paging page size).1 /\ 1 <= (Handlers.paging page size).2 <= 100.
Proof.
  unfold Handlers.paging. cbn [fst snd].
  destruct page as [p|], size as [s|];
    repeat match goal with
           | |- context [?a <? ?b] => destruct (Z.ltb_spec a b)
           | |- context [?a >? ?b] => destruct (Z.gtb_spec a b)
           end; cbn; lia.
Qed.

(** The comparisons of [ListTransfers], decided by arithmetic. *)
Ltac decide_bounds :=
  unfold maxSliceLen;
  repeat match goal with
         | |- context [?a <? ?b] => destruct (Z.ltb_spec a b); try lia
         end.

(** The bounds of a value that fits an int64. *)
Ltac fits := unfold Int64.in_range, Int64.min_int, Int64.max_int; lia.

(** X22. Through the handler, with the page raised to at least 1 and a
    size outside 1..100 replaced by 20, a listing for a page number up
    to 2^56 returns (given room for 100 slice elements): the tasks are
    the history from position (page-1)*size on, at most size of them,
    with the history's length as total. *)
Theorem handler_listing_pages (ts : TransferService) (heap : Z)
        (page size : option Z) :
  (Handlers.paging page size).1 <= 2 ^ 56 ->
  100 <= heap ->
  Handlers.ListTransfers ts heap page size =
  inr (Models.mkTaskListResponse
         (take (Z.to_nat (Handlers.paging page size).2)
               (drop (Z.to_nat (((Handlers.paging page size).1 - 1)
                                * (Handlers.paging page size).2))
                     (taskHistory ts)))
         (Z.of_nat (length (taskHistory ts)))
         (Handlers.paging page size).1 (Handlers.paging page size).2).
Proof.
  intros Hp Hheap. unfold Handlers.ListTransfers.
  pose proof (paging_bounds page size) as (Hp1 & Hs).
  destruct (Handlers.paging page size) as [p s]. cbn [fst snd] in *.
  unfold ListTransfers, Int64.mul, Int64.sub, Int64.add.
  assert (Hb : 0 <= (p - 1) * s <= 2 ^ 56 * 100) by nia.
  rewrite (wrap_id (p - 1)) by fits.
  rewrite (wrap_id ((p - 1) * s)) by fits.
  rewrite (wrap_id ((p - 1) * s + s)) by fits.
  set (start := (p - 1) * s) in *.
  set (h := taskHistory ts).
  destruct (Z.geb_spec start (Z.of_nat (length h))) as [Hge|Hlt].
  - f_equal. f_equal. rewrite drop_ge by lia. rewrite take_nil. reflexivity.
  - destruct (Z.gtb_spec (start + s) (Z.of_nat (length h))) as [Hgt|Hle].
    + rewrite (wrap_id (Z.of_nat (length h) - start)) by fits.
      decide_bounds. cbn [orb].
      f_equal. f_equal.
      rewrite !take_ge; [reflexivity| |]; rewrite length_drop; lia.
    + rewrite (wrap_id (start + s - start)) by fits.
      decide_bounds. cbn [orb].
      f_equal. f_equal. f_equal. f_equal. lia.
Qed.

Lemma handler_listing_pages_witness :
  Handlers.ListTransfers sample_history 1000 (Some 1) (Some 20) =
  inr (Models.mkTaskListResponse [sample_task] 1 1 20).
Proof.
  exact (eq_trans
           (handler_listing_pages sample_history 1000 (Some 1) (Some 20)
                                  ltac:(vm_compute; discriminate)
                                  ltac:(vm_compute; discriminate))
           eq_refl).
Defined.

(** X23. The handler puts no upper bound on the page, so for every size
    from 2 to 100 there is a page number, accepted as it is, whose
    offset (page-1)*size leaves the int64 range and wraps to a negative
    number; the service then slices the history from a negative index
    and the listing panics, whatever the history holds. *)
Theorem handler_listing_panics_for_some_page (ts : TransferService)
        (heap size : Z) :
  2 <= size <= 100 -> size <= heap ->
  exists page,
    1 <= page <= Int64.max_int /\
    Handlers.paging (Some page) (Some size) = (page, size) /\
    Handlers.ListTransfers ts heap (Some page) (Some size) = inl PanicSliceBounds.
Proof.
  intros Hs Hheap. set (q := 2 ^ 63 / size).
  pose proof (Z.div_mod (2 ^ 63) size ltac:(lia)) as Hdm.
  pose proof (Z.mod_pos_bound (2 ^ 63) size ltac:(lia)) as Hr.
  fold q in Hdm. set (r := 2 ^ 63 mod size) in *.
  assert (Hq : 0 <= q <= 2 ^ 62).
  { split; [apply Z.div_pos; lia|]. unfold q. apply Z.div_le_upper_bound; lia. }
  exists (q + 2). unfold Int64.max_int.
  split; [lia|].
  assert (Hpg : Handlers.paging (Some (q + 2)) (Some size) = (q + 2, size)).
  { unfold Handlers.paging.
    destruct (Z.ltb_spec (q + 2) 1); [lia|].
    destruct (Z.ltb_spec size 1); [lia|].
    destruct (Z.gtb_spec size 100); [lia|]. reflexivity. }
  split; [exact Hpg|].
  unfold Handlers.ListTransfers. rewrite Hpg.
  unfold ListTransfers, Int64.mul, Int64.sub, Int64.add.
  rewrite (wrap_id (q + 2 - 1)) by fits.
  assert (Hw : Int64.wrap ((q + 2 - 1) * size) = size - r - 2 ^ 63).
  { unfold Int64.wrap.
    replace ((q + 2 - 1) * size + 2 ^ 63) with ((size - r) + 1 * 2 ^ 64) by lia.
    rewrite Z.mod_add by lia. rewrite Z.mod_small by lia. lia. }
  rewrite Hw.
  rewrite (wrap_id (size - r - 2 ^ 63 + size)) by fits.
  set (total := Z.of_nat (length (taskHistory ts))).
  assert (Ht : 0 <= total) by (unfold total; lia).
  destruct (Z.geb_spec (size - r - 2 ^ 63) total); [lia|].
  destruct (Z.gtb_spec (size - r - 2 ^ 63 + size) total); [lia|].
  rewrite (wrap_id (size - r - 2 ^ 63 + size - (size - r - 2 ^ 63))) by fits.
  decide_bounds; reflexivity.
Qed.

Lemma handler_listing_panics_for_some_page_witness :
  exists page,
    1 <= page <= Int64.max_int /\
    Handlers.paging (Some page) (Some 4) = (page, 4) /\
    Handlers.ListTransfers sample_history 100 (Some page) (Some 4)
    = inl PanicSliceBounds.
Proof.
  exact (handler_listing_panics_for_some_page sample_history 100 4
                                              ltac:(lia) ltac:(lia)).
Defined.

End HandlerListing.

(** ** The client side *)

Section ClientSide.
Import Bytes Rtranfile Transfer Spec Notions Samples.

Lemma index_byte_app (c : ascii) (h rest : bytes) :
  forallb (fun a => negb (eqb a c)) h = true ->
  Client.index_byte c (h ++ c :: rest) = Some (length h).
Proof.
  intros H. induction h as [|a h IH]; cbn.
  - unfold eqb. rewrite Ascii.eqb_refl. reflexivity.
  - cbn in H. apply andb_true_iff in H as [Ha Hh]. apply negb_true_iff in Ha.
    rewrite Ha, (IH Hh). reflexivity.
Qed.

Lemma index_byte_lt (c : ascii) (s : bytes) (i : nat) :
  Client.index_byte c s = Some i -> (i < length s)%nat.
Proof.
  revert i. induction s as [|a s IH]; cbn; [discriminate|].
  intros i. destruct (eqb a c); [intros [= <-]; lia|].
  destruct (Client.index_byte c s) as [j|]; [|discriminate].
  intros [= <-]. specialize (IH j eq_refl). lia.
Qed.

(** The bytes of the service URL: the scheme, the host, a colon and
    the rest. *)
Lemma serverURL_bytes (host : string) (port : Z)
      (cfg : option Models.TransferSettings) :
  exists rest,
    of_string (Client.serverURL (Client.NewClientTransferService host port cfg)) =
    of_string "http://" ++ of_string host ++ colon :: rest.
Proof.
  exists (of_string (pretty port +:+ "/api/v1")).
  cbn [Client.serverURL Client.NewClientTransferService].
  rewrite !of_string_app. reflexivity.
Qed.

Lemma serverHost_nonempty (host : string) (port : Z)
      (cfg : option Models.TransferSettings) :
  Client.serverHost (Client.serverURL (Client.NewClientTransferService host port cfg))
  <> "".
Proof.
  destruct (serverURL_bytes host port cfg) as [rest Hb].
  unfold Client.serverHost. rewrite Hb.
  replace (7 <? length (of_string "http://" ++ of_string host ++ colon :: rest))%nat
    with true by (symmetry; apply Nat.ltb_lt; rewrite !length_app; cbn; lia).
  change (drop 7 (of_string "http://" ++ of_string host ++ colon :: rest))
    with (of_string host ++ colon :: rest).
  apply to_string_nonempty.
  destruct (Client.index_byte ":" (of_string host ++ colon :: rest)) as [i|] eqn:Ei.
  - destruct (0 <? i)%nat eqn:Hi.
    + apply Nat.ltb_lt in Hi. apply index_byte_lt in Ei.
      intros H. apply (f_equal (@length ascii)) in H.
      rewrite length_take in H. cbn in H. lia.
    + destruct (of_string host); discriminate.
  - destruct (of_string host); discriminate.
Qed.

(** X24. The host a client service is made with comes back as the
    server address of its configurations when it is not empty and holds
    no colon: cutting the scheme and everything from the first colon
    off the service URL gives the host again. *)
Theorem client_host_round_trip (host : string) (port : Z)
        (cfg : option Models.TransferSettings) :
  host <> "" -> colon_free (of_string host) = true ->
  Client.serverHost (Client.serverURL (Client.NewClientTransferService host port cfg))
  = host.
Proof.
  intros Hne Hfree.
  destruct (serverURL_bytes host port cfg) as [rest Hb].
  unfold Client.serverHost. rewrite Hb.
  replace (7 <? length (of_string "http://" ++ of_string host ++ colon :: rest))%nat
    with true by (symmetry; apply Nat.ltb_lt; rewrite !length_app; cbn; lia).
  change (drop 7 (of_string "http://" ++ of_string host ++ colon :: rest))
    with (of_string host ++ colon :: rest).
  change ":"%char with colon.
  rewrite (index_byte_app _ _ _ Hfree).
  assert (Hl : (0 <? length (of_string host))%nat = true).
  { apply Nat.ltb_lt. destruct host; [congruence|cbn; lia]. }
  rewrite Hl, take_app_length. apply to_of.
Qed.

Lemma client_host_round_trip_witness :
  Client.serverHost
    (Client.serverURL (Client.NewClientTransferService "10.0.0.5" 8080 None))
  = "10.0.0.5".
Proof.
  exact (client_host_round_trip "10.0.0.5" 8080 None ltac:(discriminate) eq_refl).
Defined.

(** X25. For a request that [validateTransferRequest] accepts, a
    client service made by [NewClientTransferService], with any host,
    port and settings, builds a configuration that [ValidateConfig]
    accepts; so [executeClientTransfer] never ends with a
    configuration error, only with one of the directory, the log file,
    the spawn or the run. *)
Theorem accepted_request_runs_on_client (req : Models.TransferRequest)
        (host : string) (port : Z) (cfg : option Models.TransferSettings)
        (env : ListenerEnv) (exit : Process.WaitResult) :
  Handlers.validateTransferRequest req = None ->
  let cts := Client.NewClientTransferService host port cfg in
  (exists c, Client.buildTransferConfig cts req (stamp (fs env)) = inr c /\
             ValidateConfig c = None) /\
  forall e, Client.executeClientTransfer cts req env exit <>
            Some (Client.ErrBuildClientConfig e) /\
            Client.executeClientTransfer cts req env exit <>
            Some (Client.ErrValidateClientConfig e).
Proof.
  intros H cts. destruct (accepted_parts req H) as (Hf & Hm & Hd).
  assert (Hex : exists c, Client.buildTransferConfig cts req (stamp (fs env)) = inr c /\
                          ValidateConfig c = None).
  { pose proof (serverHost_nonempty host port cfg) as Hh. fold cts in Hh.
    pose proof (getFileDirectory_nonempty (Models.req_Filename req)) as Hdir.
    destruct req as [f m d ip]; cbn in *.
    apply eqb_empty_false in Hh, Hdir, Hf.
    assert (Hlog : forall x, String.eqb ("/var/log/rtrans/client_" +:+ x) "" = false).
    { intros x. apply eqb_empty_false, append_nonempty. discriminate. }
    assert (Hdev : String.eqb
                     match cfg with
                     | Some c => if negb (String.eqb (Models.Device c) "")
                                 then Models.Device c else "mlx5_0"
                     | None => "mlx5_0"
                     end "" = false).
    { destruct cfg as [c|]; [|reflexivity].
      destruct (String.eqb_spec (Models.Device c) ""); cbn;
        [reflexivity|apply eqb_empty_false; assumption]. }
    destruct Hm as [-> | [-> | ->]], Hd as [-> | ->];
      cbn; eexists; (split; [reflexivity|]);
      unfold ValidateConfig; cbn; rewrite ?Hlog, ?Hh, ?Hdir, ?Hf, ?Hdev; reflexivity. }
  split; [exact Hex|].
  destruct Hex as (c & Hb & Hv). intros e. unfold Client.executeClientTransfer.
  rewrite Hb, Hv. destruct (StartClient _ _ _); [split; discriminate|].
  destruct (spawn_err env); [split; discriminate|].
  destruct exit; split; discriminate.
Qed.

Lemma accepted_request_runs_on_client_witness :
  Client.executeClientTransfer
    (Client.NewClientTransferService "10.0.0.5" 8080 None) sample_put granting
    Process.WaitClean
  <> Some (Client.ErrValidateClientConfig ErrServerAddressRequired).
Proof.
  destruct (accepted_request_runs_on_client
              sample_put "10.0.0.5" 8080 None granting Process.WaitClean eq_refl)
    as [_ H].
  exact (proj2 (H ErrServerAddressRequired)).
Defined.

(** X26. The two builders agree on a request: either both refuse it
    with the same error, or the client's and the service's
    configuration have the same mode and direction, give the same mode
    flags on the command line, and name the same file there (the
    service strips the path before, the command line after). *)
Theorem builders_agree (cts : Client.ClientTransferService)
        (req : Models.TransferRequest) (stamp : string)
        (settings : Models.TransferSettings) (env : Env) :
  match Client.buildTransferConfig cts req stamp,
        buildTransferConfig req settings env with
  | inr c, inr s =>
      Mode c = Mode s /\ Direction c = Direction s /\
      modeArgs c = modeArgs s /\
      filepath_Base (Filename c) = filepath_Base (Filename s)
  | inl e, inl e' => e = e'
  | _, _ => False
  end.
Proof.
  unfold Client.buildTransferConfig, buildTransferConfig, isPutOrGet.
  destruct req as [f m d ip]; cbn.
  destruct (String.eqb m Models.ModeHugepages);
    [|destruct (String.eqb m Models.ModeTmpfs);
      [|destruct (String.eqb m Models.ModeFilesystem)]];
    try reflexivity;
    (destruct (String.eqb d Models.DirectionPut) eqn:Ep;
     [|destruct (String.eqb d Models.DirectionGet) eqn:Eg]);
    cbn; try reflexivity;
    repeat split; try (symmetry; apply filepath_Base_getFileName).
Qed.

End ClientSide.

(** ** The handler's create *)

Section HandlerCreate.
Import Transfer Spec Notions.

Lemma accepted_config (req : Models.TransferRequest)
      (settings : Models.TransferSettings) (env : Env) :
  Handlers.validateTransferRequest req = None ->
  exists c, buildTransferConfig req settings env = inr c /\
            Rtranfile.Mode c = Models.req_Mode req.
Proof.
  intros H. destruct (accepted_parts req H) as (_ & Hm & Hd).
  destruct req as [f m d ip]; cbn in *.
  destruct Hm as [-> | [-> | ->]], Hd as [-> | ->];
    cbn; eexists; split; reflexivity.
Qed.

(** X27. [CreateTransfer] in server mode answers in one of three ways.
    A request it refuses as bad leaves the service and the machine as
    they were.  A failed preparation is never the failure to build the
    configuration: validation has excluded it.  And when it answers
    with the status prepared, the registry holds a listener for the
    request's mode that was seen running at one of the ticks of the
    wait. *)
Theorem CreateTransfer_outcomes (serverConfig : option Models.TransferSettings)
        (ts : TransferService) (w : World) (env : PrepareEnv)
        (req : Models.TransferRequest) (unix now : Z) :
  let r := Handlers.CreateTransfer serverConfig ts w env req unix now in
  match r.1.1 with
  | Handlers.BadRequest _ => r.1.2 = ts /\ r.2 = w
  | Handlers.PrepareFailed e => forall e', e <> ErrBuildConfig e'
  | Handlers.Created resp =>
      Models.resp_Status resp = "prepared" /\
      exists k pm,
        (1 <= k <= ticks env)%nat /\
        serverProcesses r.1.2 !! Models.req_Mode req = Some pm /\
        running (later env k) pm = true
  end.
Proof.
  unfold Handlers.CreateTransfer.
  destruct (Handlers.validateTransferRequest req) eqn:Ev; [cbn; auto|].
  destruct (accepted_config req (Handlers.transferSettings serverConfig)
                            (fs (listener_env env)) Ev) as (c & Hb & Hm).
  unfold PrepareTransfer. rewrite Hb.
  destruct (ensureServerProcessStarted _ _ _ _) as [[[e|] ts'] w']; cbn.
  - intros e'. discriminate.
  - destruct (awaitListener _ _ _ _ _) eqn:A; cbn.
    + split; [reflexivity|].
      apply awaitListener_true in A as (j & pm & Hj & Hl & Hr).
      exists j, pm. rewrite <- Hm. split; [lia|]. split; assumption.
    + intros e'. discriminate.
Qed.

End HandlerCreate.
